(** * mpt-objects-inventory: the inventory builder, embedded and verified

    A shallow embedding of [build-objects-inventory.py] and [config.py].

    - Python [str] values are Rocq [string]s (the UTF-8 bytes of the text).
      Every pattern the program searches for, splits on or replaces is
      ASCII, and UTF-8 is self-synchronising, so searching the bytes finds
      what searching the code points finds.  The one class of the
      patterns that is not ASCII in Python, [\d], is taken on ASCII
      digits.
    - Values read from JSON are the inductive type [json]; a Python [dict]
      is an association list in insertion order.
    - Everything outside the process (HTTP, the file system, the clock) is
      an oracle of type [World]; the calls the program makes are recorded,
      in order, in a trace.  Console output is not recorded.
    - Python exceptions are values of type [exn]; the program has no
      [try], so the first exception ends the run. *)

From Stdlib Require Import String Ascii List ZArith Lia Bool Arith.
From Stdlib Require Import PrimFloat.
Import ListNotations.
Local Open Scope list_scope.
Local Open Scope string_scope.

(* ================================================================== *)
(** * Python string primitives *)
(* ================================================================== *)

Module PyStr.

(** [strip_prefix p s] is [Some r] exactly when [s = p ++ r]
    ([s.startswith(p)], with the remainder). *)
Fixpoint strip_prefix (p s : string) : option string :=
  match p with
  | EmptyString => Some s
  | String a p' =>
      match s with
      | EmptyString => None
      | String b s' => if Ascii.eqb a b then strip_prefix p' s' else None
      end
  end.

(** [find_split sep s]: the text before and after the leftmost occurrence
    of [sep] in [s] ([s.partition(sep)] when [sep] occurs, [None] when it
    does not, that is when [s.find(sep) == -1]). *)
Fixpoint find_split (sep s : string) : option (string * string) :=
  match strip_prefix sep s with
  | Some rest => Some (EmptyString, rest)
  | None =>
      match s with
      | EmptyString => None
      | String c s' =>
          match find_split sep s' with
          | Some (a, b) => Some (String c a, b)
          | None => None
          end
      end
  end.

(** [sub in s]. *)
Definition contains (sub s : string) : bool :=
  match find_split sub s with Some _ => true | None => false end.

(** [s.replace(old, new)] for a non-empty [old]: the non-overlapping
    occurrences of [old], leftmost first.  [n] bounds the number of
    occurrences still to come. *)
Fixpoint replace_upto (n : nat) (old new s : string) : string :=
  match n with
  | O => s
  | S n' =>
      match find_split old s with
      | Some (a, b) => a ++ new ++ replace_upto n' old new b
      | None => s
      end
  end.

(** [s.replace("", new)]: [new] before every character and at the end. *)
Fixpoint intersperse (new s : string) : string :=
  match s with
  | EmptyString => new
  | String c s' => new ++ String c (intersperse new s')
  end.

(** [s.replace(old, new)]. *)
Definition replace (old new s : string) : string :=
  match old with
  | EmptyString => intersperse new s
  | _ => replace_upto (String.length s) old new s
  end.

(** [s.split(sep)] for a non-empty [sep] (Python raises [ValueError] on an
    empty separator; every call of the program passes a literal). *)
Fixpoint split_upto (n : nat) (sep s : string) : list string :=
  match n with
  | O => [s]
  | S n' =>
      match find_split sep s with
      | Some (a, b) => a :: split_upto n' sep b
      | None => [s]
      end
  end.

Definition split (sep s : string) : list string :=
  split_upto (String.length s) sep s.

(** [s.count(sub)] for a non-empty [sub]: non-overlapping occurrences. *)
Fixpoint count_upto (n : nat) (sub s : string) : nat :=
  match n with
  | O => O
  | S n' =>
      match find_split sub s with
      | Some (_, b) => S (count_upto n' sub b)
      | None => O
      end
  end.

(** [s.count(sub)]; for the empty [sub] Python counts [len(s) + 1]. *)
Definition count (sub s : string) : nat :=
  match sub with
  | EmptyString => S (String.length s)
  | _ => count_upto (String.length s) sub s
  end.

(** The longest prefix of [s] whose characters satisfy [p], and the rest. *)
Fixpoint span (p : ascii -> bool) (s : string) : string * string :=
  match s with
  | EmptyString => (EmptyString, EmptyString)
  | String c s' =>
      if p c then let (a, b) := span p s' in (String c a, b)
      else (EmptyString, s)
  end.

(** [os.path.basename(p)] on POSIX: what follows the last ['/']. *)
Definition basename (p : string) : string :=
  List.last (split "/" p) EmptyString.

End PyStr.

(* ================================================================== *)
(** * Values, exceptions and the Python operations on them *)
(* ================================================================== *)

(** What [json.load] and [Response.json()] produce.  [JNull] is Python's
    [None]; a [dict] keeps its items in insertion order. *)
#[warnings="-register-all"]
Inductive json : Type :=
| JNull
| JBool (b : bool)
| JInt (n : Z)
| JFloat (f : float)
| JStr (s : string)
| JList (l : list json)
| JDict (d : list (string * json)).

(** The exceptions the program raises itself, the ones the interpreter
    raises on ill-typed data, and the ones the libraries raise.
    [UnmatchedVariables vars] is the
    [Exception(f"Unmatched variables found in template: {vars}")] of
    [populate_template]; [HTTPError] is the [requests.HTTPError] of
    [raise_for_status]; [RequestException] is any other error of
    [requests]. *)
Inductive exn : Type :=
| ValueError (msg : string)
| RuntimeError (msg : string)
| Exception (msg : string)
| UnmatchedVariables (vars : list string)
| KeyError (key : json)
| IndexError
| TypeError
| AttributeError
| HTTPError (status : Z)
| JSONDecodeError
| RequestException (msg : string)
| OSError (msg : string).

Inductive result (A : Type) : Type :=
| Ok (a : A)
| Raise (e : exn).
Arguments Ok {A} a.
Arguments Raise {A} e.

Module Py.

Fixpoint lookup (k : string) (d : list (string * json)) : option json :=
  match d with
  | [] => None
  | (k', v) :: d' => if String.eqb k k' then Some v else lookup k d'
  end.

(** [v[k]] for a [str] subscript [k]. *)
Definition getitem (v : json) (k : string) : result json :=
  match v with
  | JDict d =>
      match lookup k d with
      | Some x => Ok x
      | None => Raise (KeyError (JStr k))
      end
  | _ => Raise TypeError
  end.

(** [v[0]]. *)
Definition getitem0 (v : json) : result json :=
  match v with
  | JList (x :: _) => Ok x
  | JList [] => Raise IndexError
  | JStr (String c _) => Ok (JStr (String c EmptyString))
  | JStr EmptyString => Raise IndexError
  | JDict _ => Raise (KeyError (JInt 0))
  | _ => Raise TypeError
  end.

(** [v.get(k, default)]: only a [dict] has the method. *)
Definition dict_get (v : json) (k : string) (default : json) : result json :=
  match v with
  | JDict d =>
      match lookup k d with
      | Some x => Ok x
      | None => Ok default
      end
  | _ => Raise AttributeError
  end.

(** Truth value of [v], as [if v:] tests it. *)
Definition truthy (v : json) : bool :=
  match v with
  | JNull => false
  | JBool b => b
  | JInt n => negb (Z.eqb n 0)
  | JFloat f => negb (PrimFloat.eqb f 0%float)
  | JStr s => negb (String.eqb s EmptyString)
  | JList l => match l with [] => false | _ => true end
  | JDict d => match d with [] => false | _ => true end
  end.

(** [v + 1]. *)
Definition add_one (v : json) : result json :=
  match v with
  | JInt n => Ok (JInt (n + 1))
  | JBool b => Ok (JInt ((if b then 1 else 0) + 1))
  | JFloat f => Ok (JFloat (PrimFloat.add f 1%float))
  | _ => Raise TypeError
  end.

(** [a + b] where [b] is a [str]: concatenation, defined on [str] only. *)
Definition add_str (a : json) (b : string) : result string :=
  match a with
  | JStr s => Ok (s ++ b)
  | _ => Raise TypeError
  end.

End Py.

(** Library functions the program calls and that are left uninterpreted:
    the text [str(v)] of a value that is not a [str] (what an f-string
    shows for it), [json.load] as a function of the file's text, and
    [BeautifulSoup(v, "html.parser").prettify()]. *)
Record PyLib : Type := {
  repr_value : json -> string;
  json_loads : string -> result json;
  soup_prettify : json -> result string
}.

(** [str(v)], as an f-string formats [v]. *)
Definition py_str (lib : PyLib) (v : json) : string :=
  match v with
  | JStr s => s
  | _ => repr_value lib v
  end.

(* ================================================================== *)
(** * The three regular expressions *)
(* ================================================================== *)

Module Re.
Import PyStr.

(** [re.search]: the match at the leftmost position that has one. *)
Fixpoint search {A : Type} (match_here : string -> option A) (s : string)
  : option A :=
  match match_here s with
  | Some x => Some x
  | None =>
      match s with
      | EmptyString => None
      | String _ s' => search match_here s'
      end
  end.

Definition in_range (lo hi : nat) (c : ascii) : bool :=
  let n := nat_of_ascii c in Nat.leb lo n && Nat.leb n hi.

(** [\d] of a [str] pattern, on ASCII text: the digits 0 to 9.  Python's
    [\d] also accepts the decimal digits of other scripts; a statement that
    depends on the class is made for ASCII text (see [ascii_text] below). *)
Definition is_digit (c : ascii) : bool := in_range 48 57 c.

(** [[a-zA-Z0-9]]. *)
Definition is_alnum (c : ascii) : bool :=
  in_range 97 122 c || in_range 65 90 c || in_range 48 57 c.

(** [[\d:-]]. *)
Definition is_node_char (c : ascii) : bool :=
  is_digit c || Ascii.eqb c ":" || Ascii.eqb c "-".

(** A greedy [[...]+] that nothing follows: the longest run, at least one
    character long. *)
Definition class_plus (p : ascii -> bool) (s : string) : option string :=
  match fst (span p s) with
  | EmptyString => None
  | g => Some g
  end.

(** [node-id=([\d:-]+)] at the start of [s]; the result is group 1. *)
Definition match_node_id (s : string) : option string :=
  match strip_prefix "node-id=" s with
  | Some rest => class_plus is_node_char rest
  | None => None
  end.

(** One branch of [(file|proto|design)], then [/([a-zA-Z0-9]+)]. *)
Definition match_variant (kind s : string) : option string :=
  match strip_prefix kind s with
  | Some r =>
      match strip_prefix "/" r with
      | Some r' => class_plus is_alnum r'
      | None => None
      end
  | None => None
  end.

(** [figma\.com/(file|proto|design)/([a-zA-Z0-9]+)] at the start of [s];
    the branches are tried in order; the result is group 2. *)
Definition match_file_key (s : string) : option string :=
  match strip_prefix "figma.com/" s with
  | Some r =>
      match match_variant "file" r with
      | Some k => Some k
      | None =>
          match match_variant "proto" r with
          | Some k => Some k
          | None => match_variant "design" r
          end
      end
  | None => None
  end.

Definition newline : ascii := "010".

(** The lazy [.*?\}\}]: the text up to the first ["}}"], provided no line
    break comes before it ([.] does not match one); returns that text and
    what follows the ["}}"]. *)
Fixpoint lazy_until_close (s : string) : option (string * string) :=
  match strip_prefix "}}" s with
  | Some rest => Some (EmptyString, rest)
  | None =>
      match s with
      | EmptyString => None
      | String c s' =>
          if Ascii.eqb c newline then None
          else
            match lazy_until_close s' with
            | Some (body, rest) => Some (String c body, rest)
            | None => None
            end
      end
  end.

(** [\{\{.*?\}\}] at the start of [s]: the matched text and the rest. *)
Definition match_token (s : string) : option (string * string) :=
  match strip_prefix "{{" s with
  | Some r =>
      match lazy_until_close r with
      | Some (body, rest) => Some ("{{" ++ body ++ "}}", rest)
      | None => None
      end
  | None => None
  end.

(** [re.findall(r"\{\{.*?\}\}", s)]: the matches from left to right, each
    search resuming where the previous match ended. *)
Fixpoint findall_upto (n : nat) (s : string) : list string :=
  match n with
  | O => []
  | S n' =>
      match match_token s with
      | Some (tok, rest) => tok :: findall_upto n' rest
      | None =>
          match s with
          | EmptyString => []
          | String _ s' => findall_upto n' s'
          end
      end
  end.

Definition findall_tokens (s : string) : list string :=
  findall_upto (String.length s) s.

End Re.

(* ================================================================== *)
(** * The outside world *)
(* ================================================================== *)

Inductive method : Type := GET | POST | PUT | DELETE.

(** What a request carries: nothing, the [files=]/[data=] pair of a
    multipart upload, or a [json=] document. *)
Inductive payload : Type :=
| NoBody
| Multipart (field filename content mime : string)
            (data : list (string * string))
| JsonBody (j : json).

Record request : Type := mkRequest {
  meth : method;
  url : string;
  headers : list (string * string);
  auth : option (string * string);
  params : list (string * string);
  body : payload
}.

(** A [requests.Response]: [json_body] is what [.json()] returns or
    raises. *)
Record response : Type := mkResponse {
  status_code : Z;
  text : string;
  content : string;
  json_body : result json
}.

(** The calls to the operating system, the clock and [requests], as the
    trace records them. *)
Inductive event : Type :=
| Makedirs (path : string)
| OpenRead (path : string)
| WriteFile (path : string) (data : string)
| Http (r : request)
| Glob (pattern : string)
| Now (format : string).

Definition trace : Type := list event.

(** The environment answers each call; an answer may depend on everything
    that was done before. *)
Record World : Type := mkWorld {
  os_makedirs : trace -> string -> option exn;
  file_read : trace -> string -> result string;
  file_write : trace -> string -> string -> option exn;
  http_send : trace -> request -> result response;
  glob_glob : trace -> string -> list string;
  now_strftime : trace -> string -> string
}.

(** Computations that call the world: the trace so far goes in, the
    outcome and the extended trace come out. *)
Definition M (A : Type) : Type := trace -> result A * trace.

Definition ret {A : Type} (a : A) : M A := fun tr => (Ok a, tr).

Definition raise {A : Type} (e : exn) : M A := fun tr => (Raise e, tr).

Definition bind {A B : Type} (m : M A) (k : A -> M B) : M B :=
  fun tr =>
    match m tr with
    | (Ok a, tr') => k a tr'
    | (Raise e, tr') => (Raise e, tr')
    end.

(** A computation that touches nothing. *)
Definition pure {A : Type} (r : result A) : M A := fun tr => (r, tr).

Definition rbind {A B : Type} (r : result A) (k : A -> result B) : result B :=
  match r with
  | Ok a => k a
  | Raise e => Raise e
  end.

Declare Scope py_scope.
Delimit Scope py_scope with py.
Notation "x <- m ;; k" := (bind m (fun x => k))
  (at level 61, m at next level, right associativity) : py_scope.
Notation "m ;; k" := (bind m (fun _ => k))
  (at level 61, right associativity) : py_scope.
Notation "x <~ r ;; k" := (rbind r (fun x => k))
  (at level 61, r at next level, right associativity) : py_scope.

Section Calls.
Variable w : World.

Definition call_unit (ev : event) (answer : trace -> option exn) : M unit :=
  fun tr =>
    match answer tr with
    | None => (Ok tt, (tr ++ [ev])%list)
    | Some e => (Raise e, (tr ++ [ev])%list)
    end.

Definition call {A : Type} (ev : event) (answer : trace -> result A) : M A :=
  fun tr => (answer tr, (tr ++ [ev])%list).

(** [os.makedirs(path, exist_ok=True)]. *)
Definition makedirs (path : string) : M unit :=
  call_unit (Makedirs path) (fun tr => os_makedirs w tr path).

(** [open(path, ...)] for reading, and the whole content. *)
Definition read_file (path : string) : M string :=
  call (OpenRead path) (fun tr => file_read w tr path).

(** [open(path, 'w' or 'wb')] and one [write]. *)
Definition write_file (path data : string) : M unit :=
  call_unit (WriteFile path data) (fun tr => file_write w tr path data).

(** [requests.get], [.post], [.put], [.delete]. *)
Definition send (r : request) : M response :=
  call (Http r) (fun tr => http_send w tr r).

(** [glob.glob(pattern)]. *)
Definition glob (pattern : string) : M (list string) :=
  call (Glob pattern) (fun tr => Ok (glob_glob w tr pattern)).

(** [datetime.now().strftime(format)]. *)
Definition strftime_now (format : string) : M string :=
  call (Now format) (fun tr => Ok (now_strftime w tr format)).

End Calls.

(** [resp.raise_for_status()]. *)
Definition raise_for_status (resp : response) : M unit :=
  if (Z.leb 400 (status_code resp) && Z.ltb (status_code resp) 600)%bool
  then raise (HTTPError (status_code resp))
  else ret tt.

(* ================================================================== *)
(** * config.py *)
(* ================================================================== *)

Record Config : Type := mkConfig {
  FIGMA_API_TOKEN : string;
  CONFLUENCE_API_TOKEN : string;
  CONFLUENCE_API_USERNAME : string;
  MISSING_FIGMA_PAGE_PLACEHOLDER : string;
  CONFLUENCE_BASE_URL : string
}.

(** [Config.__init__], given the two tokens read from the user's file. *)
Definition Config_init (figma_token confluence_token : string) : Config :=
  {| FIGMA_API_TOKEN := figma_token;
     CONFLUENCE_API_TOKEN := confluence_token;
     CONFLUENCE_API_USERNAME := "service-user.mpt@softwareone.com";
     MISSING_FIGMA_PAGE_PLACEHOLDER :=
       "https://www.figma.com/design/rHxTpbi2gpbZ4dmVlyeY2S/Object-Diagrams?node-id=14494-411&t=9t14B4asXC7wJTrH-0";
     CONFLUENCE_BASE_URL := "https://softwareone.atlassian.net/wiki" |}.

(** [HTTPBasicAuth(username, token)]. *)
Definition CONFLUENCE_AUTH (cfg : Config) : option (string * string) :=
  Some (CONFLUENCE_API_USERNAME cfg, CONFLUENCE_API_TOKEN cfg).

(* ================================================================== *)
(** * build-objects-inventory.py *)
(* ================================================================== *)

Definition TEMP_RENDER_FOLDER : string := "build".

Definition supported_schema_keys : list string :=
  [ "desktop.grid-view.vendor";
    "desktop.grid-view.operations";
    "desktop.grid-view.client";
    "desktop.details-view.vendor";
    "desktop.details-view.operations";
    "desktop.details-view.client";
    "desktop.infocard-view.vendor";
    "desktop.infocard-view.operations";
    "desktop.infocard-view.client";
    "state-diagram";
    "mobile.list-view.vendor";
    "mobile.list-view.operations";
    "mobile.list-view.client";
    "mobile.details-view.vendor";
    "mobile.details-view.operations";
    "mobile.details-view.client" ].

(** [get_frame_id_from_url]. *)
Definition get_frame_id_from_url (figma_url : string) : option string :=
  match Re.search Re.match_node_id figma_url with
  | Some group1 => Some (PyStr.replace ":" "%3A" group1)
  | None => None
  end.

(** The key under which [render_figma_png] looks the image up:
    [node_id.replace('-', ':')]. *)
Definition image_key (node_id : string) : string :=
  PyStr.replace "-" ":" node_id.

Definition figma_api_url (file_key node_id : string) : string :=
  "https://api.figma.com/v1/images/" ++ file_key ++ "?ids=" ++ node_id
    ++ "&format=png&scale=2".

Definition figma_request (api_url figma_token : string) : request :=
  {| meth := GET; url := api_url;
     headers := [("X-Figma-Token", figma_token)];
     auth := None; params := []; body := NoBody |}.

Definition forbidden_message (api_url response_text : string) : string :=
  "Figma API returned 403 Forbidden. This usually means your token is EXPIRED, incorrect, or does not have access to the file."
    ++ String Re.newline ("Request URL: " ++ api_url
    ++ String Re.newline ("File key and node id may be incorrect, or the Figma file may not be public/readable."
    ++ String Re.newline ("Response: " ++ response_text))).

(** The loop body of [render_figma_images], lines 99 to 116: walk the
    schema along [path.split('.')], raise when a segment is not there, put
    the placeholder for a [None]. *)
Fixpoint walk_keys (keys : list string) (last_key : option string)
  (last_value : json) : option string * json :=
  match keys with
  | [] => (last_key, last_value)
  | key :: keys' =>
      match last_value with
      | JDict d =>
          match Py.lookup key d with
          | Some v => walk_keys keys' (Some key) v
          | None => (None, JNull)
          end
      | _ => (None, JNull)
      end
  end.

Definition resolve_path (placeholder : string) (object_schema : json)
  (path : string) : result json :=
  let keys := PyStr.split "." path in
  match walk_keys keys None object_schema with
  | (None, _) => Raise (ValueError ("Reference not found for path: " ++ path))
  | (Some _, JNull) => Ok (JStr placeholder)
  | (Some _, last_value) => Ok last_value
  end.

Section Program.
Variable lib : PyLib.
Variable w : World.
Variable cfg : Config.
Local Open Scope py_scope.

(** [render_figma_png].  [re.search] accepts a [str] only; [requests.get]
    turns whatever it is given as URL into text. *)
Definition render_figma_png (figma_url : json) (out_filename : string)
  (figma_token : string) : M unit :=
  match figma_url with
  | JStr figma_url =>
      match Re.search Re.match_file_key figma_url with
      | None => raise (ValueError "Could not extract Figma file key from URL")
      | Some file_key =>
          match get_frame_id_from_url figma_url with
          | None | Some EmptyString =>
              raise (ValueError "Could not extract node-id from URL")
          | Some node_id =>
              let api_url := figma_api_url file_key node_id in
              resp <- send w (figma_request api_url figma_token) ;;
              if Z.eqb (status_code resp) 403
              then raise (RuntimeError (forbidden_message api_url (text resp)))
              else
                raise_for_status resp ;;
                json_result <- pure (json_body resp) ;;
                images <- pure (Py.getitem json_result "images") ;;
                image_url <- pure (Py.getitem images (image_key node_id)) ;;
                img_resp <- send w {| meth := GET; url := py_str lib image_url;
                                      headers := []; auth := None;
                                      params := []; body := NoBody |} ;;
                raise_for_status img_resp ;;
                write_file w out_filename (content img_resp)
          end
      end
  | _ => raise TypeError
  end.

(** One turn of the loop of [render_figma_images]; the result is the
    filename it appends. *)
Definition render_one (object_schema object_name : json) (path : string)
  : M string :=
  last_value <- pure (resolve_path (MISSING_FIGMA_PAGE_PLACEHOLDER cfg)
                        object_schema path) ;;
  filename <- pure (Py.add_str object_name
                      ("-" ++ PyStr.replace "." "-" path ++ ".png")) ;;
  render_figma_png last_value (TEMP_RENDER_FOLDER ++ "/" ++ filename)
    (FIGMA_API_TOKEN cfg) ;;
  ret filename.

Fixpoint render_loop (object_schema object_name : json)
  (paths : list string) (rendered_files : list string) : M (list string) :=
  match paths with
  | [] => ret rendered_files
  | path :: paths' =>
      filename <- render_one object_schema object_name path ;;
      render_loop object_schema object_name paths'
        (rendered_files ++ [filename])%list
  end.

(** [render_figma_images]. *)
Definition render_figma_images (object_schema : json) : M (list string) :=
  makedirs w TEMP_RENDER_FOLDER ;;
  object_name <- pure (Py.getitem object_schema "name") ;;
  render_loop object_schema object_name supported_schema_keys [].

(** [delete_confluence_attachment]. *)
Definition delete_request (attachment_id : json) (status : string) : request :=
  {| meth := DELETE;
     url := CONFLUENCE_BASE_URL cfg ++ "/rest/api/content/"
              ++ py_str lib attachment_id ++ "?status=" ++ status;
     headers := [("Accept", "application/json")];
     auth := CONFLUENCE_AUTH cfg; params := []; body := NoBody |}.

Definition delete_confluence_attachment (attachment_id : json)
  (status : string) : M unit :=
  delete_response <- send w (delete_request attachment_id status) ;;
  raise_for_status delete_response.

(** [upload_image_version_to_confluence]. *)
Definition attachment_url (page_id : string) : string :=
  CONFLUENCE_BASE_URL cfg ++ "/rest/api/content/" ++ page_id
    ++ "/child/attachment".

Definition check_request (page_id filename : string) : request :=
  {| meth := GET; url := attachment_url page_id;
     headers := [("Accept", "application/json")];
     auth := CONFLUENCE_AUTH cfg;
     params := [("filename", filename); ("expand", "version")];
     body := NoBody |}.

Definition upload_request (page_id filename file_content : string) : request :=
  {| meth := POST; url := attachment_url page_id;
     headers := [("Accept", "application/json");
                 ("X-Atlassian-Token", "no-check")];
     auth := CONFLUENCE_AUTH cfg; params := [];
     body := Multipart "file" filename file_content "image/png"
               [("minorEdit", "true")] |}.

Definition upload_image_version_to_confluence (page_id image_path : string)
  : M json :=
  let filename := PyStr.basename image_path in
  file_handle <- read_file w image_path ;;
  check_response <- send w (check_request page_id filename) ;;
  raise_for_status check_response ;;
  attachment_result <- pure (json_body check_response) ;;
  results <- pure (Py.dict_get attachment_result "results" (JList [])) ;;
  (if Py.truthy results
   then
     attachment_id <- pure (first <~ Py.getitem0 results ;;
                            Py.getitem first "id") ;;
     delete_confluence_attachment attachment_id "current" ;;
     delete_confluence_attachment attachment_id "trashed"
   else ret tt) ;;
  response <- send w (upload_request page_id filename file_handle) ;;
  raise_for_status response ;;
  pure (json_body response).

(** [confluence_page_url.split('/pages/')[1].split('/')[0]], the
    expression both page functions start with. *)
Definition page_id_of (confluence_page_url : json) : result string :=
  match confluence_page_url with
  | JStr s =>
      match PyStr.split "/pages/" s with
      | _ :: after :: _ =>
          match PyStr.split "/" after with
          | first :: _ => Ok first
          | [] => Raise IndexError
          end
      | _ => Raise IndexError
      end
  | _ => Raise AttributeError
  end.

Definition page_request (page_id : string) : request :=
  {| meth := GET;
     url := CONFLUENCE_BASE_URL cfg ++ "/rest/api/content/" ++ page_id
              ++ "?expand=body.storage,version";
     headers := [("Accept", "application/json")];
     auth := CONFLUENCE_AUTH cfg; params := []; body := NoBody |}.

(** [download_current_confluence_page], from the page identifier on. *)
Definition download_page (page_id : string) : M unit :=
  resp <- send w (page_request page_id) ;;
  raise_for_status resp ;;
  data <- pure (json_body resp) ;;
  html_content <- pure (b <~ Py.getitem data "body" ;;
                        s <~ Py.getitem b "storage" ;;
                        Py.getitem s "value") ;;
  html_content <- pure (soup_prettify lib html_content) ;;
  write_file w (TEMP_RENDER_FOLDER ++ "/current-confluence-page-" ++ page_id
                  ++ ".html") html_content.

(** [download_current_confluence_page]. *)
Definition download_current_confluence_page (object_schema : json) : M unit :=
  confluence_page_url <- pure (Py.getitem object_schema "confluence-page") ;;
  page_id <- pure (page_id_of confluence_page_url) ;;
  download_page page_id.

End Program.

(** The loop of [populate_template]: the items in the order of the
    mapping, each substituted into the text the previous ones left. *)
Fixpoint populate_loop (template : string) (items : list (string * json))
  : result string :=
  match items with
  | [] => Ok template
  | (key, value) :: items' =>
      if negb (PyStr.contains key template)
      then Raise (Exception ("Key " ++ key ++ " not found in template"))
      else
        match value with
        | JNull =>
            populate_loop (PyStr.replace key "Undefined" template) items'
        | JStr value =>
            populate_loop (PyStr.replace key value template) items'
        | _ => Raise TypeError
        end
  end.

(** [populate_template]. *)
Definition populate_template (template : string)
  (data : list (string * json)) : result string :=
  match populate_loop template data with
  | Ok template =>
      match Re.findall_tokens template with
      | [] => Ok template
      | unmatched_vars => Raise (UnmatchedVariables unmatched_vars)
      end
  | Raise e => Raise e
  end.

Section Publish.
Variable lib : PyLib.
Variable w : World.
Variable cfg : Config.
Local Open Scope py_scope.

Definition content_url (page_id : string) : string :=
  CONFLUENCE_BASE_URL cfg ++ "/rest/api/content/" ++ page_id.

Definition json_headers : list (string * string) :=
  [("Content-Type", "application/json"); ("Accept", "application/json")].

(** The [payload] dictionary of [update_page_content]. *)
Definition page_payload (page_id : string) (current_title : json)
  (new_content : string) (next_version : json) : json :=
  JDict [ ("id", JStr page_id);
          ("type", JStr "page");
          ("title", current_title);
          ("body", JDict [("storage",
                           JDict [("value", JStr new_content);
                                  ("representation", JStr "storage")])]);
          ("version", JDict [("number", next_version)]) ].

(** [update_page_content]. *)
Definition update_page_content (page_id new_content : string) : M json :=
  let api_url := content_url page_id in
  resp <- send w {| meth := GET; url := api_url; headers := json_headers;
                    auth := CONFLUENCE_AUTH cfg; params := [];
                    body := NoBody |} ;;
  raise_for_status resp ;;
  current_title <- pure (j <~ json_body resp ;; Py.getitem j "title") ;;
  current_version <- pure (j <~ json_body resp ;;
                           v <~ Py.getitem j "version" ;;
                           Py.getitem v "number") ;;
  next_version <- pure (Py.add_one current_version) ;;
  put_response <- send w {| meth := PUT; url := api_url;
                            headers := json_headers;
                            auth := CONFLUENCE_AUTH cfg; params := [];
                            body := JsonBody (page_payload page_id
                                      current_title new_content
                                      next_version) |} ;;
  raise_for_status put_response ;;
  pure (json_body put_response).

Fixpoint upload_all (page_id : string) (rendered_files : list string)
  : M unit :=
  match rendered_files with
  | [] => ret tt
  | rendered_file :: rest =>
      upload_image_version_to_confluence lib w cfg page_id
        (TEMP_RENDER_FOLDER ++ "/" ++ rendered_file) ;;
      upload_all page_id rest
  end.

Definition WHITE : string := "#ffffff".
Definition LIGHT_BLUE : string := "#eaf4ff".
Definition LIGHT_RED : string := "#fff4f0".
Definition LIGHT_GREEN : string := "#edfff7".

(** The dictionary of one roles table: the five calls differ in the two
    keys [device] and [view] only. *)
Definition roles_data (object_name : string) (object_schema : json)
  (device view : string) : result (list (string * json)) :=
  let file role :=
    JStr (object_name ++ "-" ++ device ++ "-" ++ view ++ "-" ++ role ++ ".png") in
  let link role :=
    d <~ Py.getitem object_schema device ;;
    v <~ Py.getitem d view ;;
    Py.getitem v role in
  l1 <~ link "vendor" ;;
  l2 <~ link "operations" ;;
  l3 <~ link "client" ;;
  Ok [ ("{{highlight-colour-column-1}}", JStr LIGHT_BLUE);
       ("{{highlight-colour-column-2}}", JStr LIGHT_RED);
       ("{{highlight-colour-column-3}}", JStr LIGHT_GREEN);
       ("{{filename-column-1}}", file "vendor");
       ("{{filename-column-2}}", file "operations");
       ("{{filename-column-3}}", file "client");
       ("{{figma-link-column-1}}", l1);
       ("{{figma-link-column-2}}", l2);
       ("{{figma-link-column-3}}", l3) ].

Definition roles_table (roles_table_template object_name : string)
  (object_schema : json) (device view : string) : result string :=
  data <~ roles_data object_name object_schema device view ;;
  populate_template roles_table_template data.

(** [update_confluence_page], from the page identifier on. *)
Definition update_page (page_id : string) (rendered_files : list string)
  (object_schema : json) : M unit :=
  object_name <- pure (Py.getitem object_schema "name") ;;
  let object_name := py_str lib object_name in
  upload_all page_id rendered_files ;;
  page_template <- read_file w "confluence-templates/object-page.html" ;;
  roles_table_template <- read_file w "confluence-templates/roles-table.html" ;;
  single_table_template <- read_file w "confluence-templates/single-table.html" ;;
  state_diagram <- pure (
    link <~ Py.getitem object_schema "state-diagram" ;;
    populate_template single_table_template
      [ ("{{highlight-colour}}", JStr WHITE);
        ("{{filename}}", JStr (object_name ++ "-state-diagram.png"));
        ("{{figma-link}}", link) ]) ;;
  let roles := roles_table roles_table_template object_name object_schema in
  grid_view_table_section <- pure (roles "desktop" "grid-view") ;;
  details_view_table_section <- pure (roles "desktop" "details-view") ;;
  desktop_infocard_view_table_section <- pure (roles "desktop" "infocard-view") ;;
  mobile_list_view_table_section <- pure (roles "mobile" "list-view") ;;
  mobile_details_view_table_section <- pure (roles "mobile" "details-view") ;;
  last_updated <- strftime_now w "%b %d, %Y at %H:%M:%S" ;;
  page_template <- pure (populate_template page_template
      [ ("{{state-diagram}}", JStr state_diagram);
        ("{{desktop-grid-table-section}}", JStr grid_view_table_section);
        ("{{desktop-details-table-section}}", JStr details_view_table_section);
        ("{{desktop-infocard-table-section}}",
           JStr desktop_infocard_view_table_section);
        ("{{mobile-list-table-section}}", JStr mobile_list_view_table_section);
        ("{{mobile-details-table-section}}",
           JStr mobile_details_view_table_section);
        ("{{last-updated}}", JStr last_updated) ]) ;;
  write_file w (TEMP_RENDER_FOLDER ++ "/confluence-page-updated-" ++ page_id
                  ++ ".html") page_template ;;
  update_page_content page_id page_template ;;
  ret tt.

(** [update_confluence_page]. *)
Definition update_confluence_page (rendered_files : list string)
  (object_schema : json) : M unit :=
  confluence_page_url <- pure (Py.getitem object_schema "confluence-page") ;;
  page_id <- pure (page_id_of confluence_page_url) ;;
  update_page page_id rendered_files object_schema.

(** One turn of the loop of [main]. *)
Definition process_schema_file (schema_file : string) : M unit :=
  f <- read_file w schema_file ;;
  object_schema <- pure (json_loads lib f) ;;
  rendered_files <- render_figma_images lib w cfg object_schema ;;
  download_current_confluence_page lib w cfg object_schema ;;
  update_confluence_page rendered_files object_schema.

Fixpoint process_all (schema_files : list string) : M unit :=
  match schema_files with
  | [] => ret tt
  | schema_file :: rest =>
      process_schema_file schema_file ;;
      process_all rest
  end.

(** [get_all_schema_files]. *)
Definition get_all_schema_files : M (list string) :=
  glob w "./schemas/*.json".

(** [main]. *)
Definition main : M unit :=
  all_schema_files <- get_all_schema_files ;;
  process_all all_schema_files.

End Publish.

(* ================================================================== *)
(** * A sample environment, for concrete runs *)
(* ================================================================== *)

Module Sample.

Definition lib : PyLib :=
  {| repr_value := fun _ => "<value>";
     json_loads := fun s =>
       match s with
       | EmptyString => Raise JSONDecodeError
       | _ => Ok (JDict [("name", JStr s)])
       end;
     soup_prettify := fun v =>
       match v with
       | JStr s => Ok s
       | _ => Raise TypeError
       end |}.

Definition ok_response (j : json) : response :=
  {| status_code := 200; text := ""; content := "PNG"; json_body := Ok j |}.

(** Every call succeeds; a request is answered with status 200 and the
    document [answer] chooses for it. *)
Definition world (answer : request -> json) : World :=
  {| os_makedirs := fun _ _ => None;
     file_read := fun _ path => Ok path;
     file_write := fun _ _ _ => None;
     http_send := fun _ r => Ok (ok_response (answer r));
     glob_glob := fun _ _ => ["./schemas/a.json"; "./schemas/b.json"];
     now_strftime := fun _ _ => "Jan 01, 2025 at 00:00:00" |}.

(** The rendering API as the source describes it: the image of node
    [1:2] is listed under the key with a colon. *)
Definition figma_answer (_ : request) : json :=
  JDict [("images", JDict [("1:2", JStr "https://images.example/1.png")])].

(** The attachment query finds one attachment. *)
Definition one_attachment (_ : request) : json :=
  JDict [("results", JList [JDict [("id", JStr "att7")]])].

(** The attachment query finds nothing. *)
Definition no_attachment (_ : request) : json :=
  JDict [("results", JList [])].

(** A page with title and version. *)
Definition page_answer (_ : request) : json :=
  JDict [("title", JStr "Subscription");
         ("version", JDict [("number", JInt 41)])].

Definition hyphen_url : string :=
  "https://www.figma.com/design/abc/Page?node-id=1-2".

Definition colon_url : string :=
  "https://www.figma.com/design/abc/Page?node-id=1:2".

Definition roles (v : json) : json :=
  JDict [("vendor", v); ("operations", v); ("client", v)].

(** A schema with all sixteen links. *)
Definition schema (name : string) (link : json) : json :=
  JDict [ ("name", JStr name);
          ("confluence-page",
           JStr "https://softwareone.atlassian.net/wiki/spaces/X/pages/12345/Subscription");
          ("state-diagram", link);
          ("desktop", JDict [("grid-view", roles link);
                             ("details-view", roles link);
                             ("infocard-view", roles link)]);
          ("mobile", JDict [("list-view", roles link);
                            ("details-view", roles link)]) ].

(** A schema that has the first of the sixteen links only. *)
Definition vendor_only : json :=
  JDict [ ("name", JStr "Foo");
          ("desktop",
           JDict [("grid-view", JDict [("vendor", JStr hyphen_url)])]) ].

Definition cfg : Config := Config_init "figma-token" "confluence-token".

End Sample.

(* ================================================================== *)
(** * Scenarios, for concrete runs with refusals and templates *)
(* ================================================================== *)

Module Scenario.

(** The three templates, reduced to their tokens. *)
Definition file_text (path : string) : string :=
  if String.eqb path "confluence-templates/object-page.html" then
    "{{state-diagram}}{{desktop-grid-table-section}}{{desktop-details-table-section}}{{desktop-infocard-table-section}}{{mobile-list-table-section}}{{mobile-details-table-section}}{{last-updated}}"
  else if String.eqb path "confluence-templates/roles-table.html" then
    "{{highlight-colour-column-1}}{{highlight-colour-column-2}}{{highlight-colour-column-3}}{{filename-column-1}}{{filename-column-2}}{{filename-column-3}}{{figma-link-column-1}}{{figma-link-column-2}}{{figma-link-column-3}}"
  else if String.eqb path "confluence-templates/single-table.html" then
    "{{highlight-colour}}{{filename}}{{figma-link}}"
  else path.

(** Files and the clock work; [respond] answers the requests. *)
Definition world (respond : request -> result response) : World :=
  {| os_makedirs := fun _ _ => None;
     file_read := fun _ path => Ok (file_text path);
     file_write := fun _ _ _ => None;
     http_send := fun _ r => respond r;
     glob_glob := fun _ _ => ["./schemas/a.json"];
     now_strftime := fun _ _ => "Jan 01, 2025 at 00:00:00" |}.

(** A response with an error status and no document. *)
Definition refusal (code : Z) : response :=
  {| status_code := code; text := "refused"; content := "";
     json_body := Raise JSONDecodeError |}.

(** One document that answers every request of a run: an image for node
    [1:2], no attachment, a page with title, version and stored body. *)
Definition everything : json :=
  JDict [ ("images", JDict [("1:2", JStr "https://images.example/1.png")]);
          ("results", JList []);
          ("title", JStr "Subscription");
          ("version", JDict [("number", JInt 41)]);
          ("body", JDict [("storage", JDict [("value", JStr "<p>old</p>")])]) ].

Definition all_fine (_ : request) : result response :=
  Ok (Sample.ok_response everything).

(** Every request is refused with [code]. *)
Definition refuse_all (code : Z) (_ : request) : result response :=
  Ok (refusal code).

(** The rendering API answers; the download of the image is refused. *)
Definition image_gone (r : request) : result response :=
  if PyStr.contains "api.figma.com" (url r)
  then Ok (Sample.ok_response everything)
  else Ok (refusal 404).

(** The rendering API answers without the node. *)
Definition node_not_listed (_ : request) : result response :=
  Ok (Sample.ok_response (JDict [("images", JDict [])])).

(** The attachment query finds an attachment without identifier. *)
Definition attachment_without_id (_ : request) : result response :=
  Ok (Sample.ok_response (JDict [("results", JList [JDict []])])).

(** The attachment query finds attachment [att7]; deleting is refused. *)
Definition delete_refused (r : request) : result response :=
  match meth r with
  | DELETE => Ok (refusal 403)
  | _ => Ok (Sample.ok_response (Sample.one_attachment r))
  end.

(** Posting [b.png] is refused; everything else works. *)
Definition second_post_refused (r : request) : result response :=
  match body r with
  | Multipart _ "b.png" _ _ _ => Ok (refusal 500)
  | _ => Ok (Sample.ok_response everything)
  end.

End Scenario.

(* ================================================================== *)
(** * Vocabulary of the statements *)
(* ================================================================== *)

(** [occurs sub s]: [sub] is a substring of [s]. *)
Definition occurs (sub s : string) : Prop :=
  exists x y, s = x ++ sub ++ y.

(** Every character of [s] satisfies [p]. *)
Fixpoint all_chars (p : ascii -> bool) (s : string) : bool :=
  match s with
  | EmptyString => true
  | String c s' => p c && all_chars p s'
  end.

(** The text is ASCII, as a URL is.  On such text the classes of [Re] are
    Python's; on other text Python's [\d] also accepts the decimal digits
    of other scripts, which [Re.is_digit] leaves out. *)
Definition ascii_text (s : string) : bool :=
  all_chars (fun c => Nat.ltb (nat_of_ascii c) 128) s.

(** The URL has one of the three path variants, followed by at least one
    letter or digit. *)
Definition file_key_shape (url : string) : Prop :=
  exists pre kind c rest,
    In kind ["file"; "proto"; "design"] /\ Re.is_alnum c = true /\
    url = pre ++ "figma.com/" ++ kind ++ "/" ++ String c rest.

(** The URL has [node-id=] followed by at least one digit, colon or
    hyphen. *)
Definition node_id_shape (url : string) : Prop :=
  exists pre c rest,
    Re.is_node_char c = true /\ url = pre ++ "node-id=" ++ String c rest.

(** A placeholder token: two opening braces, a body on one line, two
    closing braces. *)
Definition not_newline (c : ascii) : bool := negb (Ascii.eqb c Re.newline).

Definition token_shape (tok : string) : Prop :=
  exists body,
    tok = "{{" ++ body ++ "}}" /\ all_chars not_newline body = true.

Definition has_token (s : string) : Prop :=
  exists a tok b, s = a ++ tok ++ b /\ token_shape tok.

(** Following a list of keys through nested mappings: [Some v] when every
    segment is there, [None] as soon as one is absent. *)
Fixpoint descend (v : json) (keys : list string) : option json :=
  match keys with
  | [] => Some v
  | key :: keys' =>
      match v with
      | JDict d =>
          match Py.lookup key d with
          | Some v' => descend v' keys'
          | None => None
          end
      | _ => None
      end
  end.

(** The colon-delimited form of a node identifier: a colon wherever the
    identifier has a hyphen or a colon. *)
Fixpoint colon_form (node : string) : string :=
  match node with
  | EmptyString => EmptyString
  | String c node' =>
      String (if (Ascii.eqb c "-" || Ascii.eqb c ":")%bool then ":"%char else c)
             (colon_form node')
  end.

(** The filename the renderer gives the image of [path]. *)
Definition rendered_filename (object_name path : string) : string :=
  object_name ++ "-" ++ PyStr.replace "." "-" path ++ ".png".

(** [raise_for_status] lets the response through. *)
Definition succeeded (resp : response) : bool :=
  negb (Z.leb 400 (status_code resp) && Z.ltb (status_code resp) 600).

(** [pid] is the text of [b] up to its first ['/'], or all of [b] when it
    has none. *)
Definition up_to_slash (b pid : string) : Prop :=
  ~ occurs "/" pid /\ (b = pid \/ exists c, b = pid ++ "/" ++ c).

(** A computation only ever adds to the trace. *)
Definition extends {A : Type} (m : M A) : Prop :=
  forall tr, exists more, snd (m tr) = (tr ++ more)%list.

(** What a request made from state [tr] leaves as the result of the
    function that ends with it: the document of the response, or the
    error of the request or of its status. *)
Definition upload_outcome (w : World) (r : request) (tr : trace)
  : result json :=
  match http_send w tr r with
  | Ok response =>
      if succeeded response then json_body response
      else Raise (HTTPError (status_code response))
  | Raise e => Raise e
  end.

(** The value [populate_template] substitutes for a key. *)
Definition substituted_value (value : json) : option string :=
  match value with
  | JNull => Some "Undefined"
  | JStr s => Some s
  | _ => None
  end.

(** The template after the items of [data] were substituted one after the
    other. *)
Definition substitute_all (template : string) (data : list (string * json))
  : string :=
  fold_left
    (fun text item =>
       match substituted_value (snd item) with
       | Some v => PyStr.replace (fst item) v text
       | None => text
       end)
    data template.

(** Every event a computation adds to the trace satisfies [Q]. *)
Definition emits_only {A : Type} (Q : event -> Prop) (m : M A) : Prop :=
  forall tr, exists more, snd (m tr) = (tr ++ more)%list /\ Forall Q more.

(** The paths written to, in order. *)
Fixpoint written_paths (tr : trace) : list string :=
  match tr with
  | [] => []
  | WriteFile path _ :: tr' => path :: written_paths tr'
  | _ :: tr' => written_paths tr'
  end.

(** A request that only reads. *)
Definition is_get (ev : event) : Prop :=
  exists r, ev = Http r /\ meth r = GET.

(** What the renderer resolves a path to: [None] for a null leaf, the
    link otherwise. *)
Definition link_or_null (leaf : json) : Prop :=
  leaf = JNull \/
  exists u, leaf = JStr u /\ file_key_shape u /\ node_id_shape u.

(** Every link the schema holds at one of the paths is ASCII text, as a
    URL is. *)
Definition ascii_links (object_schema : json) (paths : list string) : bool :=
  forallb (fun path =>
             match descend object_schema (PyStr.split "." path) with
             | Some (JStr u) => ascii_text u
             | _ => true
             end) paths.

(** The characters a node identifier has once its colons are
    percent-encoded. *)
Definition is_encoded_node_char (c : ascii) : bool :=
  Re.is_digit c || Ascii.eqb c "-" || Ascii.eqb c "%" || Ascii.eqb c "A".

(** The five roles tables of the page, by the two schema keys of each. *)
Definition role_views : list (string * string) :=
  [ ("desktop", "grid-view"); ("desktop", "details-view");
    ("desktop", "infocard-view");
    ("mobile", "list-view"); ("mobile", "details-view") ].

(** The schema path of one column of a roles table. *)
Definition role_path (device view role : string) : string :=
  device ++ "." ++ view ++ "." ++ role.

(** The paths opened for reading, in order. *)
Fixpoint opened_paths (tr : trace) : list string :=
  match tr with
  | [] => []
  | OpenRead path :: tr' => path :: opened_paths tr'
  | _ :: tr' => opened_paths tr'
  end.

(** The file names of the multipart uploads, in order. *)
Fixpoint posted_names (tr : trace) : list string :=
  match tr with
  | [] => []
  | Http r :: tr' =>
      match meth r, body r with
      | POST, Multipart _ filename _ _ _ => filename :: posted_names tr'
      | _, _ => posted_names tr'
      end
  | _ :: tr' => posted_names tr'
  end.

(** If the event is a replace call, its document is a page payload whose
    body has no token left. *)
Definition puts_no_token (ev : event) : Prop :=
  forall r, ev = Http r -> meth r = PUT ->
  exists page_id title new_content version,
    body r = JsonBody (page_payload page_id title new_content version) /\
    ~ has_token new_content.

(* ================================================================== *)
(** * Facts about the string primitives *)
(* ================================================================== *)

Module PyStrFacts.
Import PyStr.

Lemma append_nil_r (s : string) : s ++ "" = s.
Proof. induction s as [|c s IH]; simpl; [reflexivity | now rewrite IH]. Qed.

Lemma append_assoc (a b c : string) : (a ++ b) ++ c = a ++ b ++ c.
Proof. induction a as [|x a IH]; simpl; [reflexivity | now rewrite IH]. Qed.

Lemma length_append (a b : string) :
  String.length (a ++ b) = String.length a + String.length b.
Proof. induction a as [|x a IH]; simpl; [reflexivity | now rewrite IH]. Qed.

Lemma append_inv_head (a b c : string) : a ++ b = a ++ c -> b = c.
Proof.
  induction a as [|x a IH]; simpl; intros H; [exact H|].
  injection H as H. now apply IH.
Qed.

Lemma length_zero (s : string) : String.length s = 0 -> s = "".
Proof. destruct s; simpl; [reflexivity | discriminate]. Qed.

(** [strip_prefix] decides [s = p ++ r]. *)
Lemma strip_prefix_Some (p s r : string) :
  strip_prefix p s = Some r <-> s = p ++ r.
Proof.
  revert s. induction p as [|a p IH]; intros s; simpl.
  - split; [now intros [= ->] | now intros ->].
  - destruct s as [|b s].
    + split; discriminate.
    + destruct (Ascii.eqb_spec a b) as [->|Hab].
      * rewrite IH. split; [now intros -> | now intros [= ->]].
      * split; [discriminate | intros [= E _]; now elim Hab].
Qed.

Lemma strip_prefix_app (p r : string) : strip_prefix p (p ++ r) = Some r.
Proof. now apply strip_prefix_Some. Qed.

Lemma strip_prefix_None (p s : string) :
  strip_prefix p s = None <-> forall r, s <> p ++ r.
Proof.
  split.
  - intros H r E. apply strip_prefix_Some in E. congruence.
  - intros H. destruct (strip_prefix p s) as [r|] eqn:E; [|reflexivity].
    apply strip_prefix_Some in E. now elim (H r).
Qed.

(** [find_split] returns a decomposition around an occurrence ... *)
Lemma find_split_sound (sep s a b : string) :
  find_split sep s = Some (a, b) -> s = a ++ sep ++ b.
Proof.
  revert a b. induction s as [|c s IH]; intros a b; simpl.
  - destruct (strip_prefix sep "") as [r|] eqn:E; [|discriminate].
    intros [= <- <-]. now apply strip_prefix_Some in E.
  - destruct (strip_prefix sep (String c s)) as [r|] eqn:E.
    + intros [= <- <-]. now apply strip_prefix_Some in E.
    + destruct (find_split sep s) as [[a' b']|]; [|discriminate].
      intros [= <- <-]. simpl. f_equal. now apply IH.
Qed.

(** ... and that occurrence is the leftmost one. *)
Lemma find_split_leftmost (sep s a b x y : string) :
  find_split sep s = Some (a, b) -> s = x ++ sep ++ y ->
  String.length a <= String.length x.
Proof.
  revert a b x. induction s as [|c s IH]; intros a b x; simpl.
  - destruct (strip_prefix sep "") as [r|]; [|discriminate].
    intros [= <- <-] _. simpl. lia.
  - destruct (strip_prefix sep (String c s)) as [r|] eqn:E.
    + intros [= <- <-] _. simpl. lia.
    + destruct (find_split sep s) as [[a' b']|] eqn:F; [|discriminate].
      intros [= <- <-] Hx. destruct x as [|c' x].
      * simpl in Hx. apply strip_prefix_Some in Hx. congruence.
      * simpl in Hx. injection Hx as _ Hx. simpl.
        specialize (IH a' b' x eq_refl Hx). lia.
Qed.

Lemma find_split_None (sep s : string) :
  find_split sep s = None <-> ~ occurs sep s.
Proof.
  split.
  - induction s as [|c s IH]; simpl; intros H (x & y & E).
    + destruct (strip_prefix sep "") as [r|] eqn:P; [discriminate|].
      destruct x; [|discriminate]. simpl in E.
      apply strip_prefix_Some in E. congruence.
    + destruct (strip_prefix sep (String c s)) as [r|] eqn:P; [discriminate|].
      destruct (find_split sep s) as [[a b]|] eqn:F; [discriminate|].
      destruct x as [|c' x].
      * simpl in E. apply strip_prefix_Some in E. congruence.
      * simpl in E. injection E as _ E. apply IH; [reflexivity|].
        now exists x, y.
  - intros H. destruct (find_split sep s) as [[a b]|] eqn:F; [|reflexivity].
    elim H. exists a, b. now apply find_split_sound.
Qed.

(** The leftmost decomposition is found. *)
Lemma find_split_complete (sep s a b : string) :
  s = a ++ sep ++ b ->
  (forall x y, s = x ++ sep ++ y -> String.length a <= String.length x) ->
  find_split sep s = Some (a, b).
Proof.
  intros E Hmin.
  destruct (find_split sep s) as [[a' b']|] eqn:F.
  - pose proof (find_split_sound _ _ _ _ F) as E'.
    pose proof (find_split_leftmost _ _ _ _ _ _ F E) as L1.
    pose proof (Hmin _ _ E') as L2.
    assert (Hlen : String.length a = String.length a') by lia.
    clear - E E' Hlen. subst s.
    revert a' Hlen E'. induction a as [|c a IH]; intros [|c' a'] Hlen E';
      simpl in *; try discriminate.
    + apply append_inv_head in E'. now subst.
    + injection E' as -> E'. injection Hlen as Hlen.
      specialize (IH a' Hlen E'). now injection IH as -> ->.
  - apply find_split_None in F. elim F. now exists a, b.
Qed.

Lemma contains_true (sub s : string) :
  contains sub s = true <-> occurs sub s.
Proof.
  unfold contains. destruct (find_split sub s) as [[a b]|] eqn:F.
  - split; [|reflexivity]. intros _. exists a, b. now apply find_split_sound.
  - apply find_split_None in F. split; [discriminate | contradiction].
Qed.

Lemma contains_false (sub s : string) :
  contains sub s = false <-> ~ occurs sub s.
Proof.
  rewrite <- contains_true. destruct (contains sub s); split; congruence.
Qed.

(** Each occurrence of a non-empty pattern uses up a character, so the
    bounds of [replace], [split] and [count] are never reached. *)
Lemma find_split_shorter (sep s a b : string) :
  sep <> "" -> find_split sep s = Some (a, b) ->
  String.length b < String.length s.
Proof.
  intros Hne F. apply find_split_sound in F. subst s.
  rewrite !length_append. destruct sep; [congruence | simpl; lia].
Qed.

Lemma replace_upto_enough (old new : string) (n m : nat) (s : string) :
  old <> "" -> String.length s <= n -> String.length s <= m ->
  replace_upto n old new s = replace_upto m old new s.
Proof.
  intros Hne. revert m s. induction n as [|n IH]; intros m s Hn Hm.
  - assert (s = "") as -> by (apply length_zero; lia).
    destruct old; [congruence|]. destruct m; reflexivity.
  - destruct m as [|m].
    + assert (s = "") as -> by (apply length_zero; lia).
      destruct old; [congruence|]. reflexivity.
    + simpl. destruct (find_split old s) as [[a b]|] eqn:F; [|reflexivity].
      pose proof (find_split_shorter _ _ _ _ Hne F).
      f_equal. f_equal. apply IH; lia.
Qed.

(** The recursion equation of [str.replace]. *)
Lemma replace_eq (old new s : string) :
  old <> "" ->
  replace old new s =
  match find_split old s with
  | Some (a, b) => a ++ new ++ replace old new b
  | None => s
  end.
Proof.
  intros Hne. unfold replace. destruct old as [|c old]; [congruence|].
  destruct (String.length s) as [|n] eqn:L.
  - apply length_zero in L. subst s. reflexivity.
  - simpl replace_upto.
    destruct (find_split (String c old) s) as [[a b]|] eqn:F; [|reflexivity].
    pose proof (find_split_shorter _ _ _ _ Hne F).
    f_equal. f_equal. apply replace_upto_enough; [assumption | lia | lia].
Qed.

Lemma replace_absent (old new s : string) :
  contains old s = false -> replace old new s = s.
Proof.
  intros H. destruct old as [|c old].
  - unfold contains in H. simpl in H. destruct s; discriminate.
  - rewrite replace_eq by discriminate.
    unfold contains in H. now destruct (find_split (String c old) s).
Qed.

Lemma split_upto_enough (sep : string) (n m : nat) (s : string) :
  sep <> "" -> String.length s <= n -> String.length s <= m ->
  split_upto n sep s = split_upto m sep s.
Proof.
  intros Hne. revert m s. induction n as [|n IH]; intros m s Hn Hm.
  - assert (s = "") as -> by (apply length_zero; lia).
    destruct sep; [congruence|]. destruct m; reflexivity.
  - destruct m as [|m].
    + assert (s = "") as -> by (apply length_zero; lia).
      destruct sep; [congruence|]. reflexivity.
    + simpl. destruct (find_split sep s) as [[a b]|] eqn:F; [|reflexivity].
      pose proof (find_split_shorter _ _ _ _ Hne F).
      f_equal. apply IH; lia.
Qed.

(** The recursion equation of [str.split]. *)
Lemma split_eq (sep s : string) :
  sep <> "" ->
  split sep s =
  match find_split sep s with
  | Some (a, b) => a :: split sep b
  | None => [s]
  end.
Proof.
  intros Hne. unfold split.
  destruct (String.length s) as [|n] eqn:L.
  - apply length_zero in L. subst s. destruct sep; [congruence | reflexivity].
  - simpl split_upto.
    destruct (find_split sep s) as [[a b]|] eqn:F; [|reflexivity].
    pose proof (find_split_shorter _ _ _ _ Hne F).
    f_equal. apply split_upto_enough; [assumption | lia | lia].
Qed.

Lemma count_upto_enough (sub : string) (n m : nat) (s : string) :
  sub <> "" -> String.length s <= n -> String.length s <= m ->
  count_upto n sub s = count_upto m sub s.
Proof.
  intros Hne. revert m s. induction n as [|n IH]; intros m s Hn Hm.
  - assert (s = "") as -> by (apply length_zero; lia).
    destruct sub; [congruence|]. destruct m; reflexivity.
  - destruct m as [|m].
    + assert (s = "") as -> by (apply length_zero; lia).
      destruct sub; [congruence|]. reflexivity.
    + simpl. destruct (find_split sub s) as [[a b]|] eqn:F; [|reflexivity].
      pose proof (find_split_shorter _ _ _ _ Hne F).
      f_equal. apply IH; lia.
Qed.

(** The recursion equation of [str.count]. *)
Lemma count_eq (sub s : string) :
  sub <> "" ->
  count sub s =
  match find_split sub s with
  | Some (_, b) => S (count sub b)
  | None => 0
  end.
Proof.
  intros Hne. unfold count. destruct sub as [|c sub]; [congruence|].
  destruct (String.length s) as [|n] eqn:L.
  - apply length_zero in L. subst s. reflexivity.
  - simpl count_upto.
    destruct (find_split (String c sub) s) as [[a b]|] eqn:F; [|reflexivity].
    pose proof (find_split_shorter _ _ _ _ Hne F).
    f_equal. apply count_upto_enough; [assumption | lia | lia].
Qed.

End PyStrFacts.

(* ================================================================== *)
(** * Facts about the regular expressions *)
(* ================================================================== *)

Module ReFacts.
Import PyStr PyStrFacts Re.

(** [re.search] finds a match of [match_here] at some position ... *)
Lemma search_Some {A : Type} (m : string -> option A) (s : string) (x : A) :
  search m s = Some x -> exists pre suf, s = pre ++ suf /\ m suf = Some x.
Proof.
  induction s as [|c s IH]; simpl.
  - destruct (m "") eqn:E; [|discriminate].
    intros [= <-]. now exists "", "".
  - destruct (m (String c s)) eqn:E.
    + intros [= <-]. now exists "", (String c s).
    + intros H. destruct (IH H) as (pre & suf & -> & Hm).
      now exists (String c pre), suf.
Qed.

(** ... and finds one whenever some position has a match. *)
Lemma search_finds {A : Type} (m : string -> option A) (pre suf : string) :
  m suf <> None -> search m (pre ++ suf) <> None.
Proof.
  intros Hm. induction pre as [|c pre IH]; simpl.
  - destruct suf; simpl; destruct (m _); congruence.
  - destruct (m (String c (pre ++ suf))); [discriminate | exact IH].
Qed.

Lemma search_None {A : Type} (m : string -> option A) (s : string) :
  search m s = None <-> forall pre suf, s = pre ++ suf -> m suf = None.
Proof.
  split.
  - intros H pre suf ->. destruct (m suf) eqn:E; [|reflexivity].
    elim (search_finds m pre suf); congruence.
  - intros H. destruct (search m s) as [x|] eqn:E; [|reflexivity].
    destruct (search_Some _ _ _ E) as (pre & suf & Hs & Hm).
    rewrite (H _ _ Hs) in Hm. discriminate.
Qed.

Lemma span_app (p : ascii -> bool) (s : string) :
  s = fst (span p s) ++ snd (span p s).
Proof.
  induction s as [|c s IH]; simpl; [reflexivity|].
  destruct (p c); [|reflexivity].
  destruct (span p s) as [a b]. simpl in *. now f_equal.
Qed.

Lemma span_all (p : ascii -> bool) (s : string) :
  all_chars p (fst (span p s)) = true.
Proof.
  induction s as [|c s IH]; simpl; [reflexivity|].
  destruct (p c) eqn:E; [|reflexivity].
  destruct (span p s) as [a b]. simpl in *. now rewrite E.
Qed.

(** A successful [[...]+]: a non-empty run of characters of the class at
    the start of the text. *)
Lemma class_plus_Some (p : ascii -> bool) (s g : string) :
  class_plus p s = Some g ->
  g <> "" /\ all_chars p g = true /\ exists rest, s = g ++ rest.
Proof.
  unfold class_plus. pose proof (span_app p s) as Happ.
  pose proof (span_all p s) as Hall.
  destruct (fst (span p s)) as [|c g'] eqn:E; [discriminate|].
  intros [= <-]. split; [discriminate|]. split; [exact Hall|].
  now exists (snd (span p s)).
Qed.

Lemma class_plus_starts (p : ascii -> bool) (c : ascii) (s : string) :
  p c = true -> class_plus p (String c s) <> None.
Proof.
  intros H. unfold class_plus. simpl. rewrite H.
  destruct (span p s). discriminate.
Qed.

Lemma class_plus_None (p : ascii -> bool) (c : ascii) (s : string) :
  class_plus p (String c s) = None -> p c = false.
Proof.
  intros H. destruct (p c) eqn:E; [|reflexivity].
  now elim (class_plus_starts p c s).
Qed.

(** [node-id=([\d:-]+)]. *)
Lemma match_node_id_Some (s g : string) :
  match_node_id s = Some g ->
  g <> "" /\ all_chars is_node_char g = true /\
  exists rest, s = "node-id=" ++ g ++ rest.
Proof.
  unfold match_node_id.
  destruct (strip_prefix "node-id=" s) as [r|] eqn:E; [|discriminate].
  apply strip_prefix_Some in E. intros H.
  destruct (class_plus_Some _ _ _ H) as (Hne & Hall & rest & ->).
  split; [exact Hne|]. split; [exact Hall|]. now exists rest.
Qed.

Lemma match_node_id_starts (c : ascii) (rest : string) :
  is_node_char c = true ->
  match_node_id ("node-id=" ++ String c rest) <> None.
Proof.
  intros H. unfold match_node_id. rewrite strip_prefix_app.
  now apply class_plus_starts.
Qed.

Lemma search_node_id_Some (url g : string) :
  search match_node_id url = Some g ->
  g <> "" /\ all_chars is_node_char g = true /\
  exists pre rest, url = pre ++ "node-id=" ++ g ++ rest.
Proof.
  intros H. destruct (search_Some _ _ _ H) as (pre & suf & -> & Hm).
  destruct (match_node_id_Some _ _ Hm) as (Hne & Hall & rest & ->).
  split; [exact Hne|]. split; [exact Hall|]. now exists pre, rest.
Qed.

Lemma search_node_id_shape (url : string) :
  search match_node_id url <> None <-> node_id_shape url.
Proof.
  split.
  - destruct (search match_node_id url) as [g|] eqn:E; [|congruence].
    intros _. destruct (search_node_id_Some _ _ E) as (Hne & Hall & pre & rest & ->).
    destruct g as [|c g]; [congruence|]. simpl in Hall.
    apply andb_true_iff in Hall as [Hc _].
    exists pre, c, (g ++ rest). split; [exact Hc | reflexivity].
  - intros (pre & c & rest & Hc & ->).
    apply search_finds. now apply match_node_id_starts.
Qed.

(** [(file|proto|design)/([a-zA-Z0-9]+)], one branch. *)
Lemma match_variant_Some (kind s key : string) :
  match_variant kind s = Some key ->
  key <> "" /\ all_chars is_alnum key = true /\
  exists rest, s = kind ++ "/" ++ key ++ rest.
Proof.
  unfold match_variant.
  destruct (strip_prefix kind s) as [r|] eqn:E; [|discriminate].
  apply strip_prefix_Some in E. subst s.
  destruct (strip_prefix "/" r) as [r'|] eqn:E'; [|discriminate].
  apply strip_prefix_Some in E'. subst r. intros H.
  destruct (class_plus_Some _ _ _ H) as (Hne & Hall & rest & ->).
  split; [exact Hne|]. split; [exact Hall|]. now exists rest.
Qed.

Lemma match_variant_starts (kind : string) (c : ascii) (rest : string) :
  is_alnum c = true ->
  match_variant kind (kind ++ "/" ++ String c rest) <> None.
Proof.
  intros H. unfold match_variant. rewrite strip_prefix_app.
  rewrite strip_prefix_app. now apply class_plus_starts.
Qed.

Lemma match_file_key_Some (s key : string) :
  match_file_key s = Some key ->
  key <> "" /\ all_chars is_alnum key = true /\
  exists kind rest,
    In kind ["file"; "proto"; "design"] /\
    s = "figma.com/" ++ kind ++ "/" ++ key ++ rest.
Proof.
  unfold match_file_key.
  destruct (strip_prefix "figma.com/" s) as [r|] eqn:E; [|discriminate].
  apply strip_prefix_Some in E. subst s.
  assert (K : forall kind, In kind ["file"; "proto"; "design"] ->
            match_variant kind r = Some key ->
            key <> "" /\ all_chars is_alnum key = true /\
            exists kind rest,
              In kind ["file"; "proto"; "design"] /\
              "figma.com/" ++ r = "figma.com/" ++ kind ++ "/" ++ key ++ rest).
  { intros kind Hin H.
    destruct (match_variant_Some _ _ _ H) as (Hne & Hall & rest & ->).
    split; [exact Hne|]. split; [exact Hall|]. now exists kind, rest. }
  destruct (match_variant "file" r) as [k|] eqn:E1.
  { intros [= ->]. apply (K "file"); simpl; auto. }
  destruct (match_variant "proto" r) as [k|] eqn:E2.
  { intros [= ->]. apply (K "proto"); simpl; auto. }
  intros H. apply (K "design"); simpl; auto.
Qed.

Lemma match_file_key_starts (kind : string) (c : ascii) (rest : string) :
  In kind ["file"; "proto"; "design"] -> is_alnum c = true ->
  match_file_key ("figma.com/" ++ kind ++ "/" ++ String c rest) <> None.
Proof.
  intros Hin Hc. unfold match_file_key. rewrite strip_prefix_app.
  pose proof (match_variant_starts kind c rest Hc) as Hv.
  destruct Hin as [<-|[<-|[<-|[]]]].
  - destruct (match_variant "file" _); congruence.
  - destruct (match_variant "file" _); [discriminate|].
    destruct (match_variant "proto" _); congruence.
  - destruct (match_variant "file" _); [discriminate|].
    destruct (match_variant "proto" _); [discriminate|]. exact Hv.
Qed.

Lemma search_file_key_Some (url key : string) :
  search match_file_key url = Some key ->
  key <> "" /\ all_chars is_alnum key = true /\
  exists pre kind rest,
    In kind ["file"; "proto"; "design"] /\
    url = pre ++ "figma.com/" ++ kind ++ "/" ++ key ++ rest.
Proof.
  intros H. destruct (search_Some _ _ _ H) as (pre & suf & -> & Hm).
  destruct (match_file_key_Some _ _ Hm) as (Hne & Hall & kind & rest & Hin & ->).
  split; [exact Hne|]. split; [exact Hall|]. now exists pre, kind, rest.
Qed.

Lemma search_file_key_shape (url : string) :
  search match_file_key url <> None <-> file_key_shape url.
Proof.
  split.
  - destruct (search match_file_key url) as [key|] eqn:E; [|congruence].
    intros _.
    destruct (search_file_key_Some _ _ E)
      as (Hne & Hall & pre & kind & rest & Hin & ->).
    destruct key as [|c key]; [congruence|]. simpl in Hall.
    apply andb_true_iff in Hall as [Hc _].
    exists pre, kind, c, (key ++ rest). split; [exact Hin|].
    split; [exact Hc | reflexivity].
  - intros (pre & kind & c & rest & Hin & Hc & ->).
    apply search_finds. now apply match_file_key_starts.
Qed.

(** [replace] leaves a text without the pattern alone, so the node
    identifier the function returns is never empty. *)
Lemma replace_nonempty (old new s : string) :
  old <> "" -> new <> "" -> s <> "" -> replace old new s <> "".
Proof.
  intros Ho Hn Hs. rewrite replace_eq by exact Ho.
  destruct (find_split old s) as [[a b]|]; [|exact Hs].
  destruct a; simpl; [|discriminate].
  destruct new; [congruence | discriminate].
Qed.

End ReFacts.

(* ================================================================== *)
(** * Facts about computations *)
(* ================================================================== *)

Section Extends.
Variable w : World.

Lemma extends_ret {A : Type} (a : A) : extends (ret a).
Proof. intros tr. exists []. simpl. now rewrite app_nil_r. Qed.

Lemma extends_raise {A : Type} (e : exn) : extends (@raise A e).
Proof. intros tr. exists []. simpl. now rewrite app_nil_r. Qed.

Lemma extends_pure {A : Type} (r : result A) : extends (pure r).
Proof. intros tr. exists []. simpl. now rewrite app_nil_r. Qed.

Lemma extends_bind {A B : Type} (m : M A) (k : A -> M B) :
  extends m -> (forall a, extends (k a)) -> extends (bind m k).
Proof.
  intros Hm Hk tr. unfold bind. destruct (Hm tr) as [more1 E1].
  destruct (m tr) as [[a|e] tr1]; simpl in E1; subst tr1.
  - destruct (Hk a (tr ++ more1)%list) as [more2 E2].
    exists (more1 ++ more2)%list. now rewrite E2, app_assoc.
  - now exists more1.
Qed.

Lemma extends_call {A : Type} (ev : event) (answer : trace -> result A) :
  extends (call ev answer).
Proof. intros tr. now exists [ev]. Qed.

Lemma extends_call_unit (ev : event) (answer : trace -> option exn) :
  extends (call_unit ev answer).
Proof. intros tr. exists [ev]. unfold call_unit. now destruct (answer tr). Qed.

Lemma extends_raise_for_status (resp : response) :
  extends (raise_for_status resp).
Proof.
  unfold raise_for_status.
  destruct (_ && _)%bool; [apply extends_raise | apply extends_ret].
Qed.

Lemma extends_if {A : Type} (b : bool) (m1 m2 : M A) :
  extends m1 -> extends m2 -> extends (if b then m1 else m2).
Proof. now destruct b. Qed.

End Extends.

Create HintDb extends.
#[local] Hint Resolve extends_ret extends_raise extends_pure extends_call
  extends_call_unit extends_raise_for_status : extends.

(** Whatever follows a request, the request is on the trace. *)
Lemma bind_send_trace {B : Type} (w : World) (r : request) (k : response -> M B)
  (tr : trace) :
  (forall resp, extends (k resp)) ->
  exists more, snd (bind (send w r) k tr) = (tr ++ Http r :: more)%list.
Proof.
  intros Hk. unfold bind, send, call.
  destruct (http_send w tr r) as [resp|e].
  - destruct (Hk resp (tr ++ [Http r])%list) as [more E].
    exists more. rewrite E, <- app_assoc. reflexivity.
  - exists []. reflexivity.
Qed.

Ltac extends_tac :=
  repeat first
    [ apply extends_bind; [|intros ?]
    | apply extends_if
    | solve [auto with extends]
    | unfold send, read_file, write_file, makedirs, glob, strftime_now ].

(* ================================================================== *)
(** * Extraction of the file key and the node identifier (C6) *)
(* ================================================================== *)

Section Extraction.
Import PyStr PyStrFacts Re ReFacts.
Variable lib : PyLib.
Variable w : World.

(** C6: for every (ASCII) URL given to [render_figma_png], a file key is
    extracted only from one of the three path variants followed by letters
    and digits, a node identifier only from [node-id=] followed by digits,
    colons and hyphens; when the first extraction fails the function
    raises [ValueError("Could not extract Figma file key from URL")], when
    the second fails [ValueError("Could not extract node-id from URL")],
    both with no call made; when both succeed the rendering API is
    called. *)
Theorem render_figma_png_extraction (url out_filename token : string)
  (tr : trace) :
  ascii_text url = true ->
  (forall key, search match_file_key url = Some key ->
     key <> "" /\ all_chars is_alnum key = true /\
     exists pre kind rest,
       In kind ["file"; "proto"; "design"] /\
       url = pre ++ "figma.com/" ++ kind ++ "/" ++ key ++ rest) /\
  (forall node_id, get_frame_id_from_url url = Some node_id ->
     exists group1 pre rest,
       node_id = replace ":" "%3A" group1 /\
       group1 <> "" /\ all_chars is_node_char group1 = true /\
       url = pre ++ "node-id=" ++ group1 ++ rest) /\
  (~ file_key_shape url ->
     render_figma_png lib w (JStr url) out_filename token tr
     = (Raise (ValueError "Could not extract Figma file key from URL"), tr)) /\
  (file_key_shape url -> ~ node_id_shape url ->
     render_figma_png lib w (JStr url) out_filename token tr
     = (Raise (ValueError "Could not extract node-id from URL"), tr)) /\
  (file_key_shape url -> node_id_shape url ->
     exists key node_id more,
       search match_file_key url = Some key /\
       get_frame_id_from_url url = Some node_id /\
       snd (render_figma_png lib w (JStr url) out_filename token tr)
       = (tr ++ Http (figma_request (figma_api_url key node_id) token)
             :: more)%list).
Proof.
  intros _.
  split; [exact (search_file_key_Some url)|].
  split.
  { intros node_id. unfold get_frame_id_from_url.
    destruct (search match_node_id url) as [g|] eqn:E; [|discriminate].
    intros [= <-].
    destruct (search_node_id_Some _ _ E) as (Hne & Hall & pre & rest & ->).
    now exists g, pre, rest. }
  split.
  { intros Hno. simpl.
    destruct (search match_file_key url) as [key|] eqn:E; [|reflexivity].
    elim Hno. apply search_file_key_shape. congruence. }
  split.
  { intros Hkey Hno. simpl.
    apply search_file_key_shape in Hkey.
    destruct (search match_file_key url) as [key|]; [|congruence].
    unfold get_frame_id_from_url.
    destruct (search match_node_id url) as [g|] eqn:E; [|reflexivity].
    elim Hno. apply search_node_id_shape. congruence. }
  intros Hkey Hnode.
  apply search_file_key_shape in Hkey. apply search_node_id_shape in Hnode.
  destruct (search match_file_key url) as [key|] eqn:Ek; [|congruence].
  destruct (search match_node_id url) as [g|] eqn:Eg; [|congruence].
  destruct (search_node_id_Some _ _ Eg) as (Hne & _).
  assert (Hn : replace ":" "%3A" g <> "")
    by (apply replace_nonempty; [discriminate | discriminate | exact Hne]).
  exists key, (replace ":" "%3A" g).
  unfold get_frame_id_from_url. rewrite Eg.
  destruct (replace ":" "%3A" g) as [|c node_id] eqn:En; [congruence|].
  cbn [render_figma_png]. rewrite Ek.
  unfold get_frame_id_from_url. rewrite Eg, En.
  match goal with
  | |- exists more, _ /\ _ /\ snd (bind (send w ?r) ?k tr) = _ =>
      destruct (@bind_send_trace _ w r k tr) as [more Hmore]
  end.
  { intros resp. extends_tac. }
  exists more. split; [reflexivity|]. split; [reflexivity|]. exact Hmore.
Qed.

End Extraction.

Lemma render_figma_png_extraction_witness :
  render_figma_png Sample.lib (Sample.world Sample.figma_answer)
    (JStr "https://example.com/file/abc?node-id=1-2") "build/x.png" "tok" []
  = (Raise (ValueError "Could not extract Figma file key from URL"), []) /\
  render_figma_png Sample.lib (Sample.world Sample.figma_answer)
    (JStr "https://www.figma.com/proto/abc/Page") "build/x.png" "tok" []
  = (Raise (ValueError "Could not extract node-id from URL"), []).
Proof.
  split.
  - apply (proj1 (proj2 (proj2 (render_figma_png_extraction Sample.lib
             (Sample.world Sample.figma_answer)
             "https://example.com/file/abc?node-id=1-2" "build/x.png" "tok"
             [] eq_refl)))).
    intros H. apply ReFacts.search_file_key_shape in H.
    vm_compute in H. now apply H.
  - apply (proj1 (proj2 (proj2 (proj2 (render_figma_png_extraction Sample.lib
             (Sample.world Sample.figma_answer)
             "https://www.figma.com/proto/abc/Page" "build/x.png" "tok"
             [] eq_refl))))).
    + apply ReFacts.search_file_key_shape. vm_compute. discriminate.
    + intros H. apply ReFacts.search_node_id_shape in H.
      vm_compute in H. now apply H.
Defined.

(* ================================================================== *)
(** * The key of the image in the response (C7) *)
(* ================================================================== *)

Section ImageKey.
Import PyStr PyStrFacts Re ReFacts.

(** Replacing a one-character pattern works character by character. *)
Lemma find_split_char (a c : ascii) (s : string) :
  find_split (String a "") (String c s) =
  if Ascii.eqb a c then Some ("", s)
  else match find_split (String a "") s with
       | Some (x, y) => Some (String c x, y)
       | None => None
       end.
Proof. simpl. destruct (Ascii.eqb a c); reflexivity. Qed.

Lemma replace_char_cons (a : ascii) (new : string) (c : ascii) (s : string) :
  replace (String a "") new (String c s) =
  (if Ascii.eqb a c then new else String c "") ++ replace (String a "") new s.
Proof.
  rewrite (replace_eq (String a "") new (String c s)) by discriminate.
  rewrite find_split_char. destruct (Ascii.eqb a c); [reflexivity|].
  rewrite (replace_eq (String a "") new s) by discriminate.
  destruct (find_split (String a "") s) as [[x y]|]; reflexivity.
Qed.

Lemma replace_char_nil (a : ascii) (new : string) :
  replace (String a "") new "" = "".
Proof. reflexivity. Qed.

(** A node identifier written with hyphens only comes back as it is, and
    its key is the identifier with a colon for every hyphen. *)
Lemma hyphen_node_id_key (g : string) :
  all_chars (fun c => is_digit c || Ascii.eqb c "-") g = true ->
  replace ":" "%3A" g = g /\ image_key g = colon_form g.
Proof.
  unfold image_key. induction g as [|c g IH]; [now split|].
  simpl all_chars. intros H. apply andb_true_iff in H as [Hc Hg].
  destruct (IH Hg) as [IH1 IH2]. rewrite !replace_char_cons, IH1, IH2.
  simpl colon_form. split.
  - destruct (Ascii.eqb_spec ":" c) as [<-|]; [discriminate Hc | reflexivity].
  - destruct (Ascii.eqb_spec "-" c) as [<-|Hn]; simpl.
    + reflexivity.
    + destruct (Ascii.eqb_spec c "-") as [->|]; [congruence|].
      destruct (Ascii.eqb_spec c ":") as [->|]; [discriminate Hc | reflexivity].
Qed.

(** C7 at a URL whose node identifier is written with a colon: the
    function returns the identifier with the colon percent-encoded, the
    key it looks up keeps the percent-encoding, and with a response that
    lists the image under the colon form the lookup raises [KeyError]
    after the one call to the rendering API; the same node written with a
    hyphen is fetched. *)
Theorem colon_node_id_key_mismatch :
  get_frame_id_from_url Sample.colon_url = Some "1%3A2" /\
  image_key "1%3A2" = "1%3A2" /\
  colon_form "1:2" = "1:2" /\
  render_figma_png Sample.lib (Sample.world Sample.figma_answer)
    (JStr Sample.colon_url) "build/x.png" "tok" []
  = (Raise (KeyError (JStr "1%3A2")),
     [Http (figma_request
              "https://api.figma.com/v1/images/abc?ids=1%3A2&format=png&scale=2"
              "tok")]) /\
  render_figma_png Sample.lib (Sample.world Sample.figma_answer)
    (JStr Sample.hyphen_url) "build/x.png" "tok" []
  = (Ok tt,
     [Http (figma_request
              "https://api.figma.com/v1/images/abc?ids=1-2&format=png&scale=2"
              "tok");
      Http {| meth := GET; url := "https://images.example/1.png";
              headers := []; auth := None; params := []; body := NoBody |};
      WriteFile "build/x.png" "PNG"]).
Proof. repeat split; vm_compute; reflexivity. Qed.

End ImageKey.

(* ================================================================== *)
(** * Template substitution applied twice (C8) *)
(* ================================================================== *)

Section ReplaceTwice.
Import PyStr PyStrFacts.

(** C8, as stated, fails: the key ["b"] occurs exactly once in ["ab"], and
    substituting ["bb"] for it a second time changes the text again,
    because the value brings the key back. *)
Lemma replace_twice_counterexample :
  count "b" "ab" = 1 /\
  replace "b" "bb" (replace "b" "bb" "ab") <> replace "b" "bb" "ab".
Proof. split; [reflexivity | vm_compute; discriminate]. Qed.

(** The key can also come back across the seam of the replacement. *)
Example replace_twice_seam :
  count "ab" "aabb" = 1 /\
  replace "ab" "" (replace "ab" "" "aabb") <> replace "ab" "" "aabb".
Proof. split; [reflexivity | vm_compute; discriminate]. Qed.

(** A key that occurs exactly once is replaced where it stands. *)
Lemma replace_single (t k v : string) :
  k <> "" -> count k t = 1 ->
  exists a b, t = a ++ k ++ b /\ contains k b = false /\
              replace k v t = a ++ v ++ b.
Proof.
  intros Hne Hcount. rewrite count_eq in Hcount by exact Hne.
  rewrite replace_eq by exact Hne.
  destruct (find_split k t) as [[a b]|] eqn:F; [|discriminate].
  injection Hcount as Hcount. rewrite count_eq in Hcount by exact Hne.
  assert (Hb : contains k b = false).
  { unfold contains. destruct (find_split k b) as [[? ?]|]; [discriminate|].
    reflexivity. }
  exists a, b. split; [now apply find_split_sound|]. split; [exact Hb|].
  now rewrite (replace_absent k v b Hb).
Qed.

(** C8, amended: for every template text [t], key [k] and value [v] such
    that [k] occurs exactly once in [t] and no longer occurs in
    [t.replace(k, v)], the first substitution puts [v] where [k] stood,
    and substituting the pair twice produces the same text as substituting
    it once. *)
Theorem replace_twice_same (t k v : string) :
  count k t = 1 ->
  contains k (replace k v t) = false ->
  (exists a b, t = a ++ k ++ b /\ replace k v t = a ++ v ++ b) /\
  replace k v (replace k v t) = replace k v t.
Proof.
  intros Honce Hgone. split.
  - assert (Hne : k <> "").
    { intros ->. revert Hgone. unfold contains.
      destruct (replace "" v t); simpl; discriminate. }
    destruct (replace_single t k v Hne Honce) as (a & b & Ht & _ & Hr).
    now exists a, b.
  - now apply replace_absent.
Qed.

Lemma replace_twice_same_witness :
  count "{{filename}}" "<img src='{{filename}}'/>" = 1 /\
  contains "{{filename}}"
    (replace "{{filename}}" "Foo.png" "<img src='{{filename}}'/>") = false /\
  replace "{{filename}}" "Foo.png"
    (replace "{{filename}}" "Foo.png" "<img src='{{filename}}'/>")
  = replace "{{filename}}" "Foo.png" "<img src='{{filename}}'/>".
Proof.
  split; [reflexivity|]. split; [reflexivity|].
  apply (replace_twice_same "<img src='{{filename}}'/>" "{{filename}}" "Foo.png");
    reflexivity.
Defined.

End ReplaceTwice.

(* ================================================================== *)
(** * The image renderer (C1, C2) *)
(* ================================================================== *)

Section Renderer.
Import PyStr PyStrFacts Re ReFacts.
Variable lib : PyLib.
Variable w : World.
Variable cfg : Config.

Lemma split_nonempty (sep s : string) : split sep s <> [].
Proof.
  unfold split. destruct (String.length s); simpl; [discriminate|].
  destruct (find_split sep s) as [[a b]|]; discriminate.
Qed.

(** The walk of the loop body and [descend] agree. *)
Lemma walk_keys_absent (keys : list string) (last_key : option string)
  (v : json) :
  descend v keys = None -> walk_keys keys last_key v = (None, JNull).
Proof.
  revert last_key v. induction keys as [|key keys IH]; intros last_key v; simpl.
  - discriminate.
  - destruct v; try reflexivity.
    destruct (Py.lookup key d) as [v'|]; [apply IH | reflexivity].
Qed.

Lemma walk_keys_found (keys : list string) (last_key : option string)
  (v v' : json) :
  descend v keys = Some v' -> keys <> [] \/ last_key <> None ->
  exists key, walk_keys keys last_key v = (Some key, v').
Proof.
  revert last_key v. induction keys as [|key keys IH]; intros last_key v; simpl.
  - intros [= ->] [H|H]; [congruence|].
    destruct last_key as [k|]; [now exists k | congruence].
  - destruct v; try discriminate.
    destruct (Py.lookup key d) as [v1|]; [|discriminate].
    intros H _. apply IH; [exact H | right; discriminate].
Qed.

Lemma resolve_path_absent (placeholder : string) (object_schema : json)
  (path : string) :
  descend object_schema (split "." path) = None ->
  resolve_path placeholder object_schema path
  = Raise (ValueError ("Reference not found for path: " ++ path)).
Proof.
  intros H. unfold resolve_path. now rewrite walk_keys_absent.
Qed.

Lemma resolve_path_null (placeholder : string) (object_schema : json)
  (path : string) :
  descend object_schema (split "." path) = Some JNull ->
  resolve_path placeholder object_schema path = Ok (JStr placeholder).
Proof.
  intros H. unfold resolve_path.
  destruct (walk_keys_found (split "." path) None object_schema _ H)
    as [key ->]; [left; apply split_nonempty | reflexivity].
Qed.

Lemma resolve_path_value (placeholder : string) (object_schema v : json)
  (path : string) :
  descend object_schema (split "." path) = Some v -> v <> JNull ->
  resolve_path placeholder object_schema path = Ok v.
Proof.
  intros H Hv. unfold resolve_path.
  destruct (walk_keys_found (split "." path) None object_schema _ H)
    as [key ->]; [left; apply split_nonempty|].
  destruct v; congruence.
Qed.

(** The loop over a list of paths is the loop over its first part, then
    over the rest. *)
Lemma render_loop_app (object_schema object_name : json)
  (paths1 paths2 : list string) (acc : list string) (tr : trace) :
  render_loop lib w cfg object_schema object_name (paths1 ++ paths2)%list acc tr
  = bind (render_loop lib w cfg object_schema object_name paths1 acc)
         (fun files =>
            render_loop lib w cfg object_schema object_name paths2 files) tr.
Proof.
  revert acc tr. induction paths1 as [|p paths1 IH]; intros acc tr.
  - reflexivity.
  - simpl. unfold bind.
    destruct (render_one lib w cfg object_schema object_name p tr)
      as [[f|e] tr1]; [|reflexivity].
    rewrite IH. reflexivity.
Qed.

(** What the body returns is the filename built from name and path. *)
Lemma render_one_Ok (object_schema object_name : json) (path : string)
  (tr tr' : trace) (f : string) :
  render_one lib w cfg object_schema object_name path tr = (Ok f, tr') ->
  exists name, object_name = JStr name /\ f = rendered_filename name path.
Proof.
  unfold render_one, bind, pure.
  destruct (resolve_path _ object_schema path) as [v|e]; [|discriminate].
  destruct object_name; simpl; try discriminate.
  destruct (render_figma_png _ _ _ _ _ tr) as [[[]|e] tr1]; [|discriminate].
  unfold ret. intros [= <- <-]. now exists s.
Qed.

Lemma render_loop_Ok (object_schema : json) (name : string)
  (paths acc files : list string) (tr tr' : trace) :
  render_loop lib w cfg object_schema (JStr name) paths acc tr = (Ok files, tr') ->
  files = (acc ++ map (rendered_filename name) paths)%list.
Proof.
  revert acc tr. induction paths as [|p paths IH]; intros acc tr; simpl.
  - unfold ret. intros [= <- <-]. now rewrite app_nil_r.
  - unfold bind.
    destruct (render_one lib w cfg object_schema (JStr name) p tr)
      as [[f|e] tr1] eqn:E; [|discriminate].
    destruct (render_one_Ok _ _ _ _ _ _ E) as (name' & [= <-] & ->).
    intros H. apply IH in H. now rewrite H, <- app_assoc.
Qed.

(** The shipped placeholder is a link both extractions accept, so rendering
    it goes on to the rendering API. *)
Lemma placeholder_is_rendered (figma_token confluence_token out tok : string)
  (tr : trace) :
  exists more,
    snd (render_figma_png lib w
           (JStr (MISSING_FIGMA_PAGE_PLACEHOLDER
                    (Config_init figma_token confluence_token))) out tok tr)
    = (tr ++ Http (figma_request
                     "https://api.figma.com/v1/images/rHxTpbi2gpbZ4dmVlyeY2S?ids=14494-411&format=png&scale=2"
                     tok) :: more)%list.
Proof.
  cbn [MISSING_FIGMA_PAGE_PLACEHOLDER Config_init render_figma_png].
  match goal with
  | |- context [search match_file_key ?u] =>
      assert (Ek : search match_file_key u = Some "rHxTpbi2gpbZ4dmVlyeY2S")
        by (vm_compute; reflexivity);
      assert (En : get_frame_id_from_url u = Some "14494-411")
        by (vm_compute; reflexivity)
  end.
  rewrite Ek, En. apply bind_send_trace. intros resp. extends_tac.
Qed.

(** C1: for every object schema and every supported path, reached with
    the directory made, the name read and the paths before it rendered:
    if walking the nested mapping along the path hits an absent segment,
    [render_figma_images] raises [ValueError("Reference not found for
    path: <path>")]; if every segment resolves and the final value is
    null, the value rendered is the configured placeholder and the loop
    goes on from there, and the shipped placeholder is a link the renderer
    accepts. *)
Theorem render_figma_images_resolution (object_schema object_name : json)
  (path : string) (before after : list string) (tr tr1 : trace)
  (files : list string) :
  supported_schema_keys = (before ++ path :: after)%list ->
  os_makedirs w tr TEMP_RENDER_FOLDER = None ->
  Py.getitem object_schema "name" = Ok object_name ->
  render_loop lib w cfg object_schema object_name before []
    (tr ++ [Makedirs TEMP_RENDER_FOLDER])%list = (Ok files, tr1) ->
  (descend object_schema (split "." path) = None ->
   render_figma_images lib w cfg object_schema tr
   = (Raise (ValueError ("Reference not found for path: " ++ path)), tr1)) /\
  (descend object_schema (split "." path) = Some JNull ->
   resolve_path (MISSING_FIGMA_PAGE_PLACEHOLDER cfg) object_schema path
   = Ok (JStr (MISSING_FIGMA_PAGE_PLACEHOLDER cfg)) /\
   render_figma_images lib w cfg object_schema tr
   = (filename <- pure (Py.add_str object_name
                          ("-" ++ replace "." "-" path ++ ".png")) ;;
      render_figma_png lib w (JStr (MISSING_FIGMA_PAGE_PLACEHOLDER cfg))
        (TEMP_RENDER_FOLDER ++ "/" ++ filename) (FIGMA_API_TOKEN cfg) ;;
      render_loop lib w cfg object_schema object_name after
        (files ++ [filename])%list)%py tr1) /\
  (forall figma_token confluence_token out tok tr0,
   exists more,
     snd (render_figma_png lib w
            (JStr (MISSING_FIGMA_PAGE_PLACEHOLDER
                     (Config_init figma_token confluence_token))) out tok tr0)
     = (tr0 ++ Http (figma_request
                       "https://api.figma.com/v1/images/rHxTpbi2gpbZ4dmVlyeY2S?ids=14494-411&format=png&scale=2"
                       tok) :: more)%list).
Proof.
  intros Hkeys Hmk Hname Hbefore.
  assert (Hrun : render_figma_images lib w cfg object_schema tr
                 = bind (render_one lib w cfg object_schema object_name path)
                        (fun filename =>
                           render_loop lib w cfg object_schema object_name
                             after (files ++ [filename])%list) tr1).
  { unfold render_figma_images, makedirs, call_unit, pure.
    unfold bind at 1 2.
    rewrite Hmk, Hname, Hkeys, render_loop_app.
    unfold bind at 1. rewrite Hbefore. reflexivity. }
  split; [|split].
  - intros Habs. rewrite Hrun. unfold render_one, bind, pure.
    now rewrite resolve_path_absent.
  - intros Hnull. split; [now apply resolve_path_null|].
    rewrite Hrun. unfold render_one, bind, pure, ret.
    rewrite resolve_path_null by exact Hnull.
    destruct (Py.add_str object_name _) as [filename|e]; [|reflexivity].
    destruct (render_figma_png _ _ _ _ _ tr1) as [[[]|e] tr2]; reflexivity.
  - intros. apply placeholder_is_rendered.
Qed.

(** C2: for every object schema with name [N] on which
    [render_figma_images] succeeds, it returns exactly 16 filenames, one
    per supported path and in the order of [supported_schema_keys], the
    filename of path [P] being [N + '-' + P.replace('.', '-') + '.png'];
    name ["Foo"] and path ["desktop.grid-view.vendor"] give
    ["Foo-desktop-grid-view-vendor.png"]. *)
Theorem render_figma_images_filenames (object_schema : json)
  (tr tr' : trace) (files : list string) :
  render_figma_images lib w cfg object_schema tr = (Ok files, tr') ->
  exists N,
    Py.getitem object_schema "name" = Ok (JStr N) /\
    files = map (fun P => N ++ "-" ++ replace "." "-" P ++ ".png")
                supported_schema_keys /\
    List.length files = 16 /\
    (N = "Foo" -> nth_error files 0 = Some "Foo-desktop-grid-view-vendor.png").
Proof.
  unfold render_figma_images, bind, makedirs, call_unit, pure.
  destruct (os_makedirs w tr TEMP_RENDER_FOLDER) as [e|]; [discriminate|].
  destruct (Py.getitem object_schema "name") as [object_name|e] eqn:En;
    [|discriminate].
  intros H.
  assert (Hname : exists N, object_name = JStr N).
  { change supported_schema_keys
      with ("desktop.grid-view.vendor" :: tl supported_schema_keys) in H.
    cbn [render_loop] in H. unfold bind in H.
    destruct (render_one lib w cfg object_schema object_name
                "desktop.grid-view.vendor" _) as [[f|e] tr1] eqn:E;
      [|discriminate].
    destruct (render_one_Ok _ _ _ _ _ _ E) as (N & -> & _). now exists N. }
  destruct Hname as [N ->]. exists N. split; [reflexivity|].
  apply render_loop_Ok in H. simpl app in H. subst files.
  split; [reflexivity|]. split; [reflexivity|].
  intros ->. reflexivity.
Qed.

End Renderer.

Lemma render_figma_images_filenames_witness :
  exists N,
    Py.getitem (Sample.schema "Foo" (JStr Sample.hyphen_url)) "name"
    = Ok (JStr N) /\
    map (rendered_filename "Foo") supported_schema_keys
    = map (fun P => N ++ "-" ++ PyStr.replace "." "-" P ++ ".png")
          supported_schema_keys /\
    List.length (map (rendered_filename "Foo") supported_schema_keys) = 16 /\
    (N = "Foo" ->
     nth_error (map (rendered_filename "Foo") supported_schema_keys) 0
     = Some "Foo-desktop-grid-view-vendor.png").
Proof.
  apply (render_figma_images_filenames Sample.lib
           (Sample.world Sample.figma_answer) Sample.cfg
           (Sample.schema "Foo" (JStr Sample.hyphen_url)) []
           (snd (render_figma_images Sample.lib
                   (Sample.world Sample.figma_answer) Sample.cfg
                   (Sample.schema "Foo" (JStr Sample.hyphen_url)) []))).
  vm_compute. reflexivity.
Defined.


Lemma render_figma_images_resolution_witness :
  render_figma_images Sample.lib (Sample.world Sample.figma_answer) Sample.cfg
    Sample.vendor_only []
  = (Raise (ValueError
              "Reference not found for path: desktop.grid-view.operations"),
     [Makedirs "build";
      Http (figma_request
              "https://api.figma.com/v1/images/abc?ids=1-2&format=png&scale=2"
              "figma-token");
      Http {| meth := GET; url := "https://images.example/1.png";
              headers := []; auth := None; params := []; body := NoBody |};
      WriteFile "build/Foo-desktop-grid-view-vendor.png" "PNG"]) /\
  resolve_path (MISSING_FIGMA_PAGE_PLACEHOLDER Sample.cfg)
    (Sample.schema "Foo" JNull) "desktop.grid-view.vendor"
  = Ok (JStr (MISSING_FIGMA_PAGE_PLACEHOLDER Sample.cfg)).
Proof.
  split.
  - refine (proj1 (render_figma_images_resolution Sample.lib
                     (Sample.world Sample.figma_answer) Sample.cfg
                     Sample.vendor_only (JStr "Foo")
                     "desktop.grid-view.operations"
                     ["desktop.grid-view.vendor"]
                     (tl (tl supported_schema_keys))
                     [] _ ["Foo-desktop-grid-view-vendor.png"]
                     eq_refl eq_refl eq_refl _) _);
      vm_compute; reflexivity.
  - refine (proj1 (proj1 (proj2 (render_figma_images_resolution Sample.lib
                     (Sample.world Sample.figma_answer) Sample.cfg
                     (Sample.schema "Foo" JNull) (JStr "Foo")
                     "desktop.grid-view.vendor" []
                     (tl supported_schema_keys)
                     [] [Makedirs "build"] []
                     eq_refl eq_refl eq_refl eq_refl)) _));
      vm_compute; reflexivity.
Defined.

(* ================================================================== *)
(** * Template population (C3) *)
(* ================================================================== *)

Section Templates.
Import PyStr PyStrFacts Re ReFacts.

Lemma lazy_until_close_sound (s body rest : string) :
  lazy_until_close s = Some (body, rest) ->
  s = body ++ "}}" ++ rest /\ all_chars not_newline body = true.
Proof.
  revert body rest. induction s as [|c s IH]; intros body rest.
  - simpl. discriminate.
  - cbn [lazy_until_close].
    destruct (strip_prefix "}}" (String c s)) as [r|] eqn:E.
    + intros [= <- <-]. apply strip_prefix_Some in E. now split.
    + destruct (Ascii.eqb c newline) eqn:Hc; [discriminate|].
      destruct (lazy_until_close s) as [[body' rest']|]; [|discriminate].
      intros [= <- <-]. destruct (IH _ _ eq_refl) as [-> Hall].
      split; [reflexivity|]. simpl. unfold not_newline at 1.
      now rewrite Hc.
Qed.

Lemma lazy_until_close_complete (body rest : string) :
  all_chars not_newline body = true ->
  lazy_until_close (body ++ "}}" ++ rest) <> None.
Proof.
  induction body as [|c body IH]; intros Hall.
  - simpl. discriminate.
  - simpl in Hall. apply andb_true_iff in Hall as [Hc Hall].
    unfold not_newline in Hc. apply negb_true_iff in Hc.
    change (String c body ++ "}}" ++ rest)
      with (String c (body ++ "}}" ++ rest)).
    cbn [lazy_until_close].
    destruct (strip_prefix "}}" (String c (body ++ "}}" ++ rest)));
      [discriminate|].
    rewrite Hc. specialize (IH Hall).
    destruct (lazy_until_close (body ++ "}}" ++ rest)) as [[b r]|];
      [discriminate | congruence].
Qed.

Lemma match_token_sound (s tok rest : string) :
  match_token s = Some (tok, rest) -> s = tok ++ rest /\ token_shape tok.
Proof.
  unfold match_token.
  destruct (strip_prefix "{{" s) as [r|] eqn:E; [|discriminate].
  apply strip_prefix_Some in E. subst s.
  destruct (lazy_until_close r) as [[body rest']|] eqn:L; [|discriminate].
  apply lazy_until_close_sound in L as [-> Hall].
  intros [= <- <-]. split.
  - simpl. now rewrite !append_assoc.
  - now exists body.
Qed.

Lemma match_token_complete (tok rest : string) :
  token_shape tok -> match_token (tok ++ rest) <> None.
Proof.
  intros (body & -> & Hall). unfold match_token.
  replace (("{{" ++ body ++ "}}") ++ rest) with ("{{" ++ body ++ "}}" ++ rest)
    by (simpl; now rewrite !append_assoc).
  rewrite strip_prefix_app.
  pose proof (lazy_until_close_complete body rest Hall) as H.
  destruct (lazy_until_close (body ++ "}}" ++ rest)) as [[b r]|];
    [discriminate | congruence].
Qed.

Lemma match_token_shorter (s tok rest : string) :
  match_token s = Some (tok, rest) -> String.length rest < String.length s.
Proof.
  intros H. apply match_token_sound in H as [-> (body & -> & _)].
  rewrite !length_append. simpl. lia.
Qed.

Lemma findall_upto_enough (n m : nat) (s : string) :
  String.length s <= n -> String.length s <= m ->
  findall_upto n s = findall_upto m s.
Proof.
  revert m s. induction n as [|n IH]; intros m s Hn Hm.
  - assert (s = "") as -> by (apply length_zero; lia). destruct m; reflexivity.
  - destruct m as [|m].
    + assert (s = "") as -> by (apply length_zero; lia). reflexivity.
    + cbn [findall_upto]. destruct (match_token s) as [[tok rest]|] eqn:M.
      * pose proof (match_token_shorter _ _ _ M). f_equal. apply IH; lia.
      * destruct s as [|c s]; [reflexivity|]. simpl in Hn, Hm. apply IH; lia.
Qed.

(** The recursion equation of [re.findall] for the token pattern. *)
Lemma findall_tokens_eq (s : string) :
  findall_tokens s =
  match match_token s with
  | Some (tok, rest) => tok :: findall_tokens rest
  | None =>
      match s with
      | EmptyString => []
      | String _ s' => findall_tokens s'
      end
  end.
Proof.
  unfold findall_tokens. destruct (String.length s) as [|n] eqn:L.
  - apply length_zero in L. subst s. reflexivity.
  - cbn [findall_upto]. destruct (match_token s) as [[tok rest]|] eqn:M.
    + pose proof (match_token_shorter _ _ _ M). f_equal.
      apply findall_upto_enough; lia.
    + destruct s as [|c s]; [reflexivity|]. simpl in L. injection L as L.
      apply findall_upto_enough; lia.
Qed.

(** Every match [re.findall] returns is a token. *)
Lemma findall_tokens_shape (s : string) :
  Forall token_shape (findall_tokens s).
Proof.
  unfold findall_tokens. generalize (String.length s) as n.
  intros n. revert s. induction n as [|n IH]; intros s; [constructor|].
  cbn [findall_upto]. destruct (match_token s) as [[tok rest]|] eqn:M.
  - apply match_token_sound in M as [_ Hshape]. constructor; [exact Hshape|].
    apply IH.
  - destruct s; [constructor | apply IH].
Qed.

(** [findall] is empty exactly when no position has a match. *)
Lemma findall_upto_nil (n : nat) (s : string) :
  String.length s <= n ->
  findall_upto n s = [] <->
  (forall pre suf, s = pre ++ suf -> match_token suf = None).
Proof.
  revert s. induction n as [|n IH]; intros s Hn.
  - assert (s = "") as -> by (apply length_zero; lia).
    split; [|reflexivity]. intros _ pre suf E.
    destruct pre; [|discriminate]. simpl in E. now subst suf.
  - cbn [findall_upto]. destruct (match_token s) as [[tok rest]|] eqn:M.
    + split; [discriminate|]. intros H. specialize (H "" s eq_refl). congruence.
    + destruct s as [|c s].
      * split; [|reflexivity]. intros _ pre suf E.
        destruct pre; [|discriminate]. simpl in E. now subst suf.
      * simpl in Hn. rewrite IH by lia. split.
        -- intros H [|c' pre] suf E.
           ++ simpl in E. now subst suf.
           ++ injection E as _ E. now apply (H pre).
        -- intros H pre suf ->. now apply (H (String c pre)).
Qed.

(** [re.findall] finds something exactly when the text has a token. *)
Lemma findall_tokens_nil (s : string) :
  findall_tokens s = [] <-> ~ has_token s.
Proof.
  unfold findall_tokens. rewrite findall_upto_nil by lia. split.
  - intros H (a & tok & b & -> & Hshape).
    now apply (match_token_complete tok b Hshape), (H a).
  - intros H pre suf ->.
    destruct (match_token suf) as [[tok rest]|] eqn:M; [|reflexivity].
    apply match_token_sound in M as [-> Hshape].
    elim H. now exists pre, tok, rest.
Qed.

(** The pattern's [.] stops at a line break: braces around a line break
    are not a token, and the text passes. *)
Example token_on_one_line :
  populate_template ("{{a" ++ String newline "b}}") []
  = Ok ("{{a" ++ String newline "b}}").
Proof. reflexivity. Qed.

Lemma populate_loop_app (template : string) (before after : list (string * json)) :
  populate_loop template (before ++ after)%list
  = rbind (populate_loop template before)
          (fun t => populate_loop t after).
Proof.
  revert template. induction before as [|[key value] before IH];
    intros template; [reflexivity|].
  simpl. destruct (negb (contains key template)); [reflexivity|].
  destruct value; try reflexivity; apply IH.
Qed.

(** When the loop ends, its text is the template with every item
    substituted in turn. *)
Lemma populate_loop_Ok (template : string) (data : list (string * json))
  (t : string) :
  populate_loop template data = Ok t -> t = substitute_all template data.
Proof.
  revert template. induction data as [|[key value] data IH];
    intros template; simpl.
  - now intros [= <-].
  - destruct (negb (contains key template)); [discriminate|].
    destruct value; try discriminate; intros H; apply IH in H; exact H.
Qed.

(** C3: [populate_template] raises an error naming the key when a key of
    the mapping is not in the text the earlier items left; it substitutes
    ['Undefined'] for a null value; and when every item was substituted it
    raises the unmatched-variables error if the text still has a token of
    the shape [{{...}}], and returns the text otherwise. *)
Theorem populate_template_contract (template : string)
  (data : list (string * json)) :
  (forall before key value after t,
     data = (before ++ (key, value) :: after)%list ->
     populate_loop template before = Ok t ->
     contains key t = false ->
     t = substitute_all template before /\
     populate_template template data
     = Raise (Exception ("Key " ++ key ++ " not found in template"))) /\
  (forall before key after,
     data = (before ++ (key, JNull) :: after)%list ->
     populate_template template data
     = populate_template template
         (before ++ (key, JStr "Undefined") :: after)%list) /\
  (forall t,
     populate_loop template data = Ok t ->
     t = substitute_all template data /\
     (has_token t ->
      exists unmatched_vars,
        unmatched_vars <> [] /\ Forall token_shape unmatched_vars /\
        populate_template template data
        = Raise (UnmatchedVariables unmatched_vars)) /\
     (~ has_token t -> populate_template template data = Ok t)).
Proof.
  split; [|split].
  - intros before key value after t -> Hbefore Habsent.
    split; [now apply populate_loop_Ok|].
    unfold populate_template. rewrite populate_loop_app, Hbefore.
    simpl. now rewrite Habsent.
  - intros before key after ->. unfold populate_template.
    rewrite !populate_loop_app.
    destruct (populate_loop template before) as [t|e]; reflexivity.
  - intros t Hloop. split; [now apply populate_loop_Ok|].
    unfold populate_template. rewrite Hloop. split.
    + intros Htok. destruct (findall_tokens t) as [|v vars] eqn:F.
      * apply findall_tokens_nil in F. contradiction.
      * exists (v :: vars). split; [discriminate|]. split; [|reflexivity].
        rewrite <- F. apply findall_tokens_shape.
    + intros Hno. apply findall_tokens_nil in Hno. now rewrite Hno.
Qed.

End Templates.

Lemma populate_template_contract_witness :
  populate_template "<a href='{{figma-link}}'>{{filename}}</a>"
    [("{{figma-link}}", JNull); ("{{highlight-colour}}", JStr "#ffffff")]
  = Raise (Exception "Key {{highlight-colour}} not found in template") /\
  (exists unmatched_vars,
     unmatched_vars <> [] /\ Forall token_shape unmatched_vars /\
     populate_template "<a href='{{figma-link}}'>{{filename}}</a>"
       [("{{figma-link}}", JNull)]
     = Raise (UnmatchedVariables unmatched_vars)) /\
  populate_template "<a href='{{figma-link}}'>{{filename}}</a>"
    [("{{figma-link}}", JNull); ("{{filename}}", JStr "Foo.png")]
  = Ok "<a href='Undefined'>Foo.png</a>".
Proof.
  split; [|split].
  - refine (proj2 (proj1 (populate_template_contract
                     "<a href='{{figma-link}}'>{{filename}}</a>"
                     [("{{figma-link}}", JNull);
                      ("{{highlight-colour}}", JStr "#ffffff")])
                     [("{{figma-link}}", JNull)] "{{highlight-colour}}"
                     (JStr "#ffffff") [] "<a href='Undefined'>{{filename}}</a>"
                     eq_refl eq_refl eq_refl)).
  - refine (proj1 (proj2 (proj2 (proj2 (populate_template_contract
                     "<a href='{{figma-link}}'>{{filename}}</a>"
                     [("{{figma-link}}", JNull)]))
                     "<a href='Undefined'>{{filename}}</a>" eq_refl)) _).
    exists "<a href='Undefined'>", "{{filename}}", "</a>".
    split; [reflexivity|]. exists "filename". split; reflexivity.
  - refine (proj2 (proj2 (proj2 (proj2 (populate_template_contract
                     "<a href='{{figma-link}}'>{{filename}}</a>"
                     [("{{figma-link}}", JNull);
                      ("{{filename}}", JStr "Foo.png")]))
                     "<a href='Undefined'>Foo.png</a>" eq_refl)) _).
    apply findall_tokens_nil. reflexivity.
Defined.

(* ================================================================== *)
(** * Attachments and page versions (C4, C5) *)
(* ================================================================== *)

Section Publishing.
Import PyStr.
Variable lib : PyLib.
Variable w : World.
Variable cfg : Config.

Lemma raise_for_status_ok (resp : response) :
  succeeded resp = true -> raise_for_status resp = ret tt.
Proof.
  unfold succeeded, raise_for_status. intros H.
  apply negb_true_iff in H. now rewrite H.
Qed.

Lemma raise_for_status_error (resp : response) :
  succeeded resp = false ->
  raise_for_status resp = raise (HTTPError (status_code resp)).
Proof.
  unfold succeeded, raise_for_status. intros H.
  apply negb_false_iff in H. now rewrite H.
Qed.

Lemma upload_tail (r : request) (tr : trace) :
  bind (send w r)
       (fun response =>
          bind (raise_for_status response)
               (fun _ => pure (json_body response))) tr
  = (upload_outcome w r tr, (tr ++ [Http r])%list).
Proof.
  unfold bind, send, call, upload_outcome, pure.
  destruct (http_send w tr r) as [response|e]; [|reflexivity].
  destruct (succeeded response) eqn:S.
  - now rewrite raise_for_status_ok.
  - now rewrite raise_for_status_error.
Qed.

(** C4: for every page identifier and rendered file, once the file is
    opened, the attachments of the page are queried by a GET whose
    parameters are the file's name and [expand=version].  If the query
    returns one or more results, the first is deleted by exactly two DELETE
    calls on its content URL, [?status=current] and then [?status=trashed],
    and after them the file is posted to the page's attachments as a
    multipart form, field [file] of type [image/png], with [minorEdit] set
    to [true]; if the query returns no results the file is posted with no
    delete call. *)
Theorem upload_replaces_attachment (page_id image_path : string) (tr : trace)
  (file_content : string) (check_response : response)
  (attachment_result results : json) :
  let filename := basename image_path in
  let attachments :=
    CONFLUENCE_BASE_URL cfg ++ "/rest/api/content/" ++ page_id
      ++ "/child/attachment" in
  let check :=
    {| meth := GET; url := attachments;
       headers := [("Accept", "application/json")];
       auth := CONFLUENCE_AUTH cfg;
       params := [("filename", filename); ("expand", "version")];
       body := NoBody |} in
  let upload :=
    {| meth := POST; url := attachments;
       headers := [("Accept", "application/json");
                   ("X-Atlassian-Token", "no-check")];
       auth := CONFLUENCE_AUTH cfg;
       params := [];
       body := Multipart "file" filename file_content "image/png"
                 [("minorEdit", "true")] |} in
  let tr1 := (tr ++ [OpenRead image_path])%list in
  let tr2 := (tr1 ++ [Http check])%list in
  file_read w tr image_path = Ok file_content ->
  http_send w tr1 check = Ok check_response ->
  succeeded check_response = true ->
  json_body check_response = Ok attachment_result ->
  Py.dict_get attachment_result "results" (JList []) = Ok results ->
  (forall first rest attachment_id deleted1 deleted2,
     let delete1 :=
       {| meth := DELETE;
          url := CONFLUENCE_BASE_URL cfg ++ "/rest/api/content/"
                   ++ py_str lib attachment_id ++ "?status=current";
          headers := [("Accept", "application/json")];
          auth := CONFLUENCE_AUTH cfg;
          params := [];
          body := NoBody |} in
     let delete2 :=
       {| meth := DELETE;
          url := CONFLUENCE_BASE_URL cfg ++ "/rest/api/content/"
                   ++ py_str lib attachment_id ++ "?status=trashed";
          headers := [("Accept", "application/json")];
          auth := CONFLUENCE_AUTH cfg;
          params := [];
          body := NoBody |} in
     results = JList (first :: rest) ->
     Py.getitem first "id" = Ok attachment_id ->
     http_send w tr2 delete1 = Ok deleted1 ->
     succeeded deleted1 = true ->
     http_send w (tr2 ++ [Http delete1])%list delete2 = Ok deleted2 ->
     succeeded deleted2 = true ->
     upload_image_version_to_confluence lib w cfg page_id image_path tr
     = (upload_outcome w upload (tr2 ++ [Http delete1; Http delete2])%list,
        (tr ++ [OpenRead image_path; Http check; Http delete1; Http delete2;
                Http upload])%list)) /\
  (Py.truthy results = false ->
     upload_image_version_to_confluence lib w cfg page_id image_path tr
     = (upload_outcome w upload tr2,
        (tr ++ [OpenRead image_path; Http check; Http upload])%list)).
Proof.
  intros filename attachments check upload tr1 tr2
    Hread Hcheck Hok Hjson Hresults.
  assert (Echeck : check_request cfg page_id filename = check)
    by reflexivity.
  assert (Eupload : upload_request cfg page_id filename file_content = upload)
    by reflexivity.
  assert (Hstart :
    upload_image_version_to_confluence lib w cfg page_id image_path tr
    = bind (if Py.truthy results
            then
              bind (pure (rbind (Py.getitem0 results)
                            (fun first => Py.getitem first "id")))
                   (fun attachment_id =>
                      bind (delete_confluence_attachment lib w cfg
                              attachment_id "current")
                           (fun _ => delete_confluence_attachment lib w cfg
                                       attachment_id "trashed"))
            else ret tt)
           (fun _ =>
              bind (send w upload)
                   (fun response =>
                      bind (raise_for_status response)
                           (fun _ => pure (json_body response)))) tr2).
  { unfold upload_image_version_to_confluence.
    fold filename. rewrite Echeck.
    unfold bind at 1. unfold read_file, call. rewrite Hread.
    rewrite Eupload. fold tr1.
    unfold bind at 1. unfold send at 1, call. rewrite Hcheck. fold tr2.
    unfold bind at 1. rewrite (raise_for_status_ok _ Hok). unfold ret at 1.
    unfold bind at 1. unfold pure at 1. rewrite Hjson.
    unfold bind at 1. unfold pure at 1. rewrite Hresults.
    reflexivity. }
  split.
  - intros first rest attachment_id deleted1 deleted2 delete1 delete2
      -> Hid Hd1 Hok1 Hd2 Hok2.
    assert (E1 : delete_request lib cfg attachment_id "current" = delete1)
      by reflexivity.
    assert (E2 : delete_request lib cfg attachment_id "trashed" = delete2)
      by reflexivity.
    rewrite Hstart. cbn [Py.truthy Py.getitem0 rbind]. rewrite Hid.
    unfold bind at 1. unfold bind at 1. unfold pure at 1.
    unfold bind at 1. unfold delete_confluence_attachment at 1.
    unfold bind at 1. unfold send at 1, call. rewrite E1, Hd1.
    rewrite (raise_for_status_ok _ Hok1). unfold ret at 1.
    unfold delete_confluence_attachment.
    unfold bind at 1. unfold send at 1, call. rewrite E2, Hd2.
    rewrite (raise_for_status_ok _ Hok2). unfold ret at 1.
    rewrite upload_tail. f_equal.
    + f_equal. unfold tr2, tr1. now rewrite <- !app_assoc.
    + unfold tr2, tr1. now rewrite <- !app_assoc.
  - intros Hfalse. rewrite Hstart, Hfalse.
    unfold bind at 1. unfold ret at 1. rewrite upload_tail.
    f_equal. unfold tr2, tr1. now rewrite <- !app_assoc.
Qed.


(** C5: for every page identifier and composed body, [update_page_content]
    first fetches the page, and with title [T] and version number [N] in
    the answer it then submits one replace call whose document has title
    [T], the new body under the storage representation and version number
    [N + 1]. *)
Theorem update_page_content_next_version (page_id new_content : string)
  (tr : trace) (resp : response) (page version T : json) (N : Z) :
  let fetch := {| meth := GET; url := content_url cfg page_id;
                  headers := json_headers; auth := CONFLUENCE_AUTH cfg;
                  params := []; body := NoBody |} in
  let replace_call :=
    {| meth := PUT; url := content_url cfg page_id;
       headers := json_headers; auth := CONFLUENCE_AUTH cfg; params := [];
       body := JsonBody
         (JDict [ ("id", JStr page_id);
                  ("type", JStr "page");
                  ("title", T);
                  ("body", JDict [("storage",
                     JDict [("value", JStr new_content);
                            ("representation", JStr "storage")])]);
                  ("version", JDict [("number", JInt (N + 1))]) ]) |} in
  http_send w tr fetch = Ok resp ->
  succeeded resp = true ->
  json_body resp = Ok page ->
  Py.getitem page "title" = Ok T ->
  Py.getitem page "version" = Ok version ->
  Py.getitem version "number" = Ok (JInt N) ->
  update_page_content w cfg page_id new_content tr
  = (upload_outcome w replace_call (tr ++ [Http fetch])%list,
     (tr ++ [Http fetch; Http replace_call])%list).
Proof.
  intros fetch replace_call Hfetch Hok Hjson Htitle Hversion Hnumber.
  unfold update_page_content. fold fetch.
  unfold bind at 1. unfold send at 1, call. rewrite Hfetch.
  unfold bind at 1. rewrite (raise_for_status_ok _ Hok). unfold ret at 1.
  unfold bind at 1. unfold pure at 1. rewrite Hjson. cbn [rbind].
  rewrite Htitle.
  unfold bind at 1. unfold pure at 1. cbn [rbind].
  rewrite Hversion. cbn [rbind]. rewrite Hnumber.
  unfold bind at 1. unfold pure at 1. cbn [Py.add_one].
  unfold page_payload. fold replace_call.
  rewrite upload_tail. now rewrite <- app_assoc.
Qed.

End Publishing.

Lemma upload_replaces_attachment_witness :
  snd (upload_image_version_to_confluence Sample.lib
         (Sample.world Sample.one_attachment) Sample.cfg "12345"
         "build/Foo-state-diagram.png" [])
  = [ OpenRead "build/Foo-state-diagram.png";
      Http {| meth := GET;
              url := "https://softwareone.atlassian.net/wiki/rest/api/content/12345/child/attachment";
              headers := [("Accept", "application/json")];
              auth := Some ("service-user.mpt@softwareone.com",
                            "confluence-token");
              params := [("filename", "Foo-state-diagram.png");
                         ("expand", "version")];
              body := NoBody |};
      Http {| meth := DELETE;
              url := "https://softwareone.atlassian.net/wiki/rest/api/content/att7?status=current";
              headers := [("Accept", "application/json")];
              auth := Some ("service-user.mpt@softwareone.com",
                            "confluence-token");
              params := [];
              body := NoBody |};
      Http {| meth := DELETE;
              url := "https://softwareone.atlassian.net/wiki/rest/api/content/att7?status=trashed";
              headers := [("Accept", "application/json")];
              auth := Some ("service-user.mpt@softwareone.com",
                            "confluence-token");
              params := [];
              body := NoBody |};
      Http {| meth := POST;
              url := "https://softwareone.atlassian.net/wiki/rest/api/content/12345/child/attachment";
              headers := [("Accept", "application/json");
                          ("X-Atlassian-Token", "no-check")];
              auth := Some ("service-user.mpt@softwareone.com",
                            "confluence-token");
              params := [];
              body := Multipart "file" "Foo-state-diagram.png"
                        "build/Foo-state-diagram.png" "image/png"
                        [("minorEdit", "true")] |} ] /\
  snd (upload_image_version_to_confluence Sample.lib
         (Sample.world Sample.no_attachment) Sample.cfg "12345"
         "build/Foo-state-diagram.png" [])
  = [ OpenRead "build/Foo-state-diagram.png";
      Http {| meth := GET;
              url := "https://softwareone.atlassian.net/wiki/rest/api/content/12345/child/attachment";
              headers := [("Accept", "application/json")];
              auth := Some ("service-user.mpt@softwareone.com",
                            "confluence-token");
              params := [("filename", "Foo-state-diagram.png");
                         ("expand", "version")];
              body := NoBody |};
      Http {| meth := POST;
              url := "https://softwareone.atlassian.net/wiki/rest/api/content/12345/child/attachment";
              headers := [("Accept", "application/json");
                          ("X-Atlassian-Token", "no-check")];
              auth := Some ("service-user.mpt@softwareone.com",
                            "confluence-token");
              params := [];
              body := Multipart "file" "Foo-state-diagram.png"
                        "build/Foo-state-diagram.png" "image/png"
                        [("minorEdit", "true")] |} ].
Proof.
  split.
  - pose proof (proj1 (upload_replaces_attachment Sample.lib
                  (Sample.world Sample.one_attachment) Sample.cfg "12345"
                  "build/Foo-state-diagram.png" []
                  "build/Foo-state-diagram.png"
                  (Sample.ok_response
                     (JDict [("results",
                              JList [JDict [("id", JStr "att7")]])]))
                  _ _ eq_refl eq_refl eq_refl eq_refl eq_refl)
                  (JDict [("id", JStr "att7")]) [] (JStr "att7")
                  _ _ eq_refl eq_refl eq_refl eq_refl eq_refl eq_refl) as H.
    rewrite H. reflexivity.
  - pose proof (proj2 (upload_replaces_attachment Sample.lib
                  (Sample.world Sample.no_attachment) Sample.cfg "12345"
                  "build/Foo-state-diagram.png" []
                  "build/Foo-state-diagram.png"
                  (Sample.ok_response (JDict [("results", JList [])]))
                  _ _ eq_refl eq_refl eq_refl eq_refl eq_refl) eq_refl) as H.
    rewrite H. reflexivity.
Defined.

Lemma update_page_content_next_version_witness :
  snd (update_page_content (Sample.world Sample.page_answer) Sample.cfg
         "12345" "<p>new</p>" [])
  = [ Http {| meth := GET;
              url := "https://softwareone.atlassian.net/wiki/rest/api/content/12345";
              headers := json_headers; auth := CONFLUENCE_AUTH Sample.cfg;
              params := []; body := NoBody |};
      Http {| meth := PUT;
              url := "https://softwareone.atlassian.net/wiki/rest/api/content/12345";
              headers := json_headers; auth := CONFLUENCE_AUTH Sample.cfg;
              params := [];
              body := JsonBody
                (JDict [ ("id", JStr "12345");
                         ("type", JStr "page");
                         ("title", JStr "Subscription");
                         ("body", JDict [("storage",
                            JDict [("value", JStr "<p>new</p>");
                                   ("representation", JStr "storage")])]);
                         ("version", JDict [("number", JInt 42)]) ]) |} ].
Proof.
  rewrite (update_page_content_next_version
             (Sample.world Sample.page_answer) Sample.cfg "12345" "<p>new</p>"
             [] (Sample.ok_response (Sample.page_answer
                   {| meth := GET; url := content_url Sample.cfg "12345";
                      headers := json_headers; auth := CONFLUENCE_AUTH Sample.cfg;
                      params := []; body := NoBody |}))
             _ (JDict [("number", JInt 41)]) (JStr "Subscription") 41
             eq_refl eq_refl eq_refl eq_refl eq_refl eq_refl).
  reflexivity.
Defined.

(* ================================================================== *)
(** * The run over all schema files (C9) and the page identifier (C10) *)
(* ================================================================== *)

Section Run.
Import PyStr PyStrFacts.
Variable lib : PyLib.
Variable w : World.
Variable cfg : Config.

Lemma process_all_app (files1 files2 : list string) (tr : trace) :
  process_all lib w cfg (files1 ++ files2)%list tr
  = bind (process_all lib w cfg files1)
         (fun _ => process_all lib w cfg files2) tr.
Proof.
  revert tr. induction files1 as [|f files1 IH]; intros tr.
  - reflexivity.
  - simpl. unfold bind.
    destruct (process_schema_file lib w cfg f tr) as [[[]|e] tr1];
      [|reflexivity].
    rewrite IH. reflexivity.
Qed.

(** C9: [main] processes the schema files one after another and catches
    nothing: for every list of schema files, if the files before one were
    processed and processing that one raises an error, [main] ends with
    that error in the state the error was raised in, so no later file is
    opened or processed, whatever the later files are. *)
Theorem main_stops_at_first_error (before after : list string)
  (schema_file : string) (tr tr1 tr2 : trace) (e : exn) :
  glob_glob w tr "./schemas/*.json" = (before ++ schema_file :: after)%list ->
  process_all lib w cfg before (tr ++ [Glob "./schemas/*.json"])%list
  = (Ok tt, tr1) ->
  process_schema_file lib w cfg schema_file tr1 = (Raise e, tr2) ->
  main lib w cfg tr = (Raise e, tr2) /\
  process_all lib w cfg (before ++ schema_file :: after)%list
    (tr ++ [Glob "./schemas/*.json"])%list
  = process_all lib w cfg (before ++ [schema_file])%list
      (tr ++ [Glob "./schemas/*.json"])%list.
Proof.
  intros Hglob Hbefore Hfail.
  assert (Hrun : forall rest,
            process_all lib w cfg (before ++ schema_file :: rest)%list
              (tr ++ [Glob "./schemas/*.json"])%list = (Raise e, tr2)).
  { intros rest. rewrite process_all_app. unfold bind. rewrite Hbefore.
    simpl. unfold bind. now rewrite Hfail. }
  split.
  - unfold main, get_all_schema_files, glob, call. unfold bind at 1.
    rewrite Hglob. apply Hrun.
  - now rewrite !Hrun.
Qed.

Lemma append_eq_append (a b x y : string) :
  a ++ b = x ++ y ->
  (exists z, x = a ++ z /\ b = z ++ y) \/ (exists z, a = x ++ z /\ y = z ++ b).
Proof.
  revert x. induction a as [|c a IH]; intros x H.
  - left. now exists x.
  - destruct x as [|c' x].
    + right. now exists (String c a).
    + simpl in H. injection H as <- H.
      destruct (IH x H) as [(z & -> & ->)|(z & -> & ->)];
        [left | right]; now exists z.
Qed.

(** The text before the first ['/']. *)
Lemma find_split_slash_None (pid : string) :
  ~ occurs "/" pid -> find_split "/" pid = None.
Proof. intros H. now apply find_split_None. Qed.

Lemma find_split_slash_first (pid c : string) :
  ~ occurs "/" pid -> find_split "/" (pid ++ "/" ++ c) = Some (pid, c).
Proof.
  intros Hno. apply find_split_complete; [reflexivity|].
  intros x y E. destruct (Nat.le_gt_cases (String.length pid) (String.length x))
    as [Hle|Hlt]; [exact Hle|].
  destruct (append_eq_append _ _ _ _ E) as [(z & -> & Hz)|(z & -> & Hz)].
  - rewrite length_append in Hlt. lia.
  - destruct z as [|ch z].
    + rewrite append_nil_r in Hlt. lia.
    + simpl in Hz. injection Hz as <- _. elim Hno. now exists x, z.
Qed.

Lemma split_slash_head (after pid : string) :
  up_to_slash after pid -> exists rest, split "/" after = pid :: rest.
Proof.
  intros [Hno [->|[c ->]]]; rewrite split_eq by discriminate.
  - rewrite find_split_slash_None by exact Hno. now exists [].
  - rewrite find_split_slash_first by exact Hno. now exists (split "/" c).
Qed.

(** Cutting a text at a later ["/pages/"] does not change where its first
    ['/'] is. *)
Lemma up_to_slash_cut (a' b' pid : string) :
  up_to_slash (a' ++ "/pages/" ++ b') pid -> up_to_slash a' pid.
Proof.
  intros [Hno H]. split; [exact Hno|]. destruct H as [E|[c E]].
  - elim Hno. exists a', ("pages/" ++ b'). now rewrite <- E.
  - destruct (append_eq_append _ _ _ _ E) as [(z & -> & Hz)|(z & -> & Hz)].
    + destruct z as [|ch z].
      * left. now rewrite append_nil_r.
      * simpl in Hz. injection Hz as <- _. elim Hno. now exists a', z.
    + destruct z as [|ch z].
      * left. now rewrite append_nil_r.
      * simpl in Hz. injection Hz as <- _. right. now exists z.
Qed.

Lemma page_id_of_found (url a b pid : string) :
  url = a ++ "/pages/" ++ b ->
  (forall x y, url = x ++ "/pages/" ++ y -> String.length a <= String.length x) ->
  up_to_slash b pid ->
  page_id_of (JStr url) = Ok pid.
Proof.
  intros E Hmin Hpid. unfold page_id_of.
  rewrite split_eq by discriminate.
  rewrite (find_split_complete "/pages/" url a b E Hmin).
  rewrite split_eq by discriminate.
  destruct (find_split "/pages/" b) as [[a' b']|] eqn:F.
  - apply find_split_sound in F. subst b. apply up_to_slash_cut in Hpid.
    destruct (split_slash_head _ _ Hpid) as [rest ->]. reflexivity.
  - destruct (split_slash_head _ _ Hpid) as [rest ->]. reflexivity.
Qed.

Lemma page_id_of_missing (url : string) :
  ~ occurs "/pages/" url -> page_id_of (JStr url) = Raise IndexError.
Proof.
  intros H. unfold page_id_of. rewrite split_eq by discriminate.
  apply find_split_None in H. now rewrite H.
Qed.

(** C10: for every object schema whose ['confluence-page'] value is a
    text [url]: if [url] contains ["/pages/"], the page identifier is the
    text between the first ["/pages/"] and the next ['/'] (or the end),
    whatever it is, and both [download_current_confluence_page] and
    [update_confluence_page] go on with it, the first with the request for
    that page; if [url] does not contain ["/pages/"], both raise
    [IndexError] before any call. *)
Theorem page_identifier_extraction (object_schema : json) (url : string)
  (rendered_files : list string) (tr : trace) :
  Py.getitem object_schema "confluence-page" = Ok (JStr url) ->
  (forall a b pid,
     url = a ++ "/pages/" ++ b ->
     (forall x y, url = x ++ "/pages/" ++ y ->
                  String.length a <= String.length x) ->
     up_to_slash b pid ->
     page_id_of (JStr url) = Ok pid /\
     download_current_confluence_page lib w cfg object_schema tr
     = download_page lib w cfg pid tr /\
     (exists more,
        snd (download_current_confluence_page lib w cfg object_schema tr)
        = (tr ++ Http (page_request cfg pid) :: more)%list) /\
     update_confluence_page lib w cfg rendered_files object_schema tr
     = update_page lib w cfg pid rendered_files object_schema tr) /\
  (~ occurs "/pages/" url ->
     download_current_confluence_page lib w cfg object_schema tr
     = (Raise IndexError, tr) /\
     update_confluence_page lib w cfg rendered_files object_schema tr
     = (Raise IndexError, tr)).
Proof.
  intros Hpage. split.
  - intros a b pid E Hmin Hpid.
    pose proof (page_id_of_found url a b pid E Hmin Hpid) as Hid.
    assert (Hd : download_current_confluence_page lib w cfg object_schema tr
                 = download_page lib w cfg pid tr).
    { unfold download_current_confluence_page, bind, pure.
      now rewrite Hpage, Hid. }
    split; [exact Hid|]. split; [exact Hd|]. split.
    + rewrite Hd. unfold download_page. apply bind_send_trace.
      intros resp. extends_tac.
    + unfold update_confluence_page, bind, pure. now rewrite Hpage, Hid.
  - intros Hno. pose proof (page_id_of_missing url Hno) as Hid.
    unfold download_current_confluence_page, update_confluence_page, bind, pure.
    now rewrite Hpage, Hid.
Qed.

End Run.

Lemma main_stops_at_first_error_witness :
  main Sample.lib (Sample.world Sample.figma_answer) Sample.cfg []
  = (Raise (ValueError "Reference not found for path: desktop.grid-view.vendor"),
     [Glob "./schemas/*.json"; OpenRead "./schemas/a.json"; Makedirs "build"]).
Proof.
  refine (proj1 (main_stops_at_first_error Sample.lib
                   (Sample.world Sample.figma_answer) Sample.cfg
                   [] ["./schemas/b.json"] "./schemas/a.json" [] _ _ _
                   eq_refl eq_refl _)).
  vm_compute. reflexivity.
Defined.

Lemma page_identifier_extraction_witness :
  page_id_of
    (JStr "https://softwareone.atlassian.net/wiki/spaces/X/pages/12345/Subscription")
  = Ok "12345" /\
  download_current_confluence_page Sample.lib
    (Sample.world Sample.page_answer) Sample.cfg
    (JDict [("confluence-page", JStr "https://example.com/wiki/12345")]) []
  = (Raise IndexError, []).
Proof.
  split.
  - refine (proj1 (proj1 (page_identifier_extraction Sample.lib
                     (Sample.world Sample.page_answer) Sample.cfg
                     (Sample.schema "Foo" JNull) _ [] [] eq_refl)
                     "https://softwareone.atlassian.net/wiki/spaces/X"
                     "12345/Subscription" "12345" eq_refl _ _)).
    + intros x y E.
      apply (PyStrFacts.find_split_leftmost "/pages/"
               "https://softwareone.atlassian.net/wiki/spaces/X/pages/12345/Subscription"
               "https://softwareone.atlassian.net/wiki/spaces/X"
               "12345/Subscription" x y); [reflexivity | exact E].
    + split.
      * apply PyStrFacts.find_split_None. reflexivity.
      * right. now exists "Subscription".
  - refine (proj1 (proj2 (page_identifier_extraction Sample.lib
                     (Sample.world Sample.page_answer) Sample.cfg
                     (JDict [("confluence-page",
                              JStr "https://example.com/wiki/12345")])
                     _ [] [] eq_refl) _)).
    apply PyStrFacts.find_split_None. reflexivity.
Defined.

(* ================================================================== *)
(** * Rendering one image: the answers of the rendering API *)
(* ================================================================== *)

Section RenderOne.
Import PyStr PyStrFacts Re ReFacts.
Variable lib : PyLib.
Variable w : World.

Lemma get_frame_id_nonempty (url node_id : string) :
  get_frame_id_from_url url = Some node_id -> node_id <> "".
Proof.
  unfold get_frame_id_from_url.
  destruct (search match_node_id url) as [g|] eqn:E; [|discriminate].
  intros H. destruct (search_node_id_Some _ _ E) as (Hne & _).
  assert (Hr : replace ":" "%3A" g <> "")
    by (apply replace_nonempty; [discriminate | discriminate | exact Hne]).
  congruence.
Qed.

(** What [render_figma_png] does once it has the response of the
    rendering API. *)
Lemma render_figma_png_after_api (url out_filename token file_key node_id : string)
  (tr : trace) (resp : response) :
  search match_file_key url = Some file_key ->
  get_frame_id_from_url url = Some node_id ->
  let api := figma_request (figma_api_url file_key node_id) token in
  http_send w tr api = Ok resp ->
  render_figma_png lib w (JStr url) out_filename token tr
  = (if Z.eqb (status_code resp) 403
     then raise (RuntimeError
                   (forbidden_message (figma_api_url file_key node_id)
                      (text resp)))
     else
       bind (raise_for_status resp) (fun _ =>
       bind (pure (json_body resp)) (fun json_result =>
       bind (pure (Py.getitem json_result "images")) (fun images =>
       bind (pure (Py.getitem images (image_key node_id))) (fun image_url =>
       bind (send w {| meth := GET; url := py_str lib image_url;
                       headers := []; auth := None; params := [];
                       body := NoBody |}) (fun img_resp =>
       bind (raise_for_status img_resp) (fun _ =>
       write_file w out_filename (content img_resp))))))))
    (tr ++ [Http api])%list.
Proof.
  intros Hkey Hnode api Hsend. pose proof (get_frame_id_nonempty _ _ Hnode) as Hne.
  cbn [render_figma_png]. rewrite Hkey, Hnode.
  destruct node_id as [|c node_id]; [congruence|].
  unfold bind at 1. unfold send at 1, call. fold api. rewrite Hsend.
  reflexivity.
Qed.

Lemma occurs_here (pre sub post : string) : occurs sub (pre ++ sub ++ post).
Proof. now exists pre, post. Qed.

Lemma occurs_app_r (pre sub s : string) : occurs sub s -> occurs sub (pre ++ s).
Proof.
  intros (x & y & ->). exists (pre ++ x), y. now rewrite append_assoc.
Qed.

Lemma occurs_app_l (sub s post : string) : occurs sub s -> occurs sub (s ++ post).
Proof.
  intros (x & y & ->). exists x, (y ++ post). now rewrite !append_assoc.
Qed.

Lemma occurs_cons (c : ascii) (sub s : string) :
  occurs sub s -> occurs sub (String c s).
Proof. intros (x & y & ->). now exists (String c x), y. Qed.

(** X1: a 403 from the rendering API is reported as a [RuntimeError], not
    as the [HTTPError] of other statuses; its message carries the request
    URL, with the file key and the node identifier in it, and the text of
    the response; the image is neither fetched nor written. *)
Theorem render_figma_png_forbidden (url out_filename token file_key node_id : string)
  (tr : trace) (resp : response) :
  search match_file_key url = Some file_key ->
  get_frame_id_from_url url = Some node_id ->
  let api := figma_request (figma_api_url file_key node_id) token in
  http_send w tr api = Ok resp ->
  status_code resp = 403%Z ->
  exists msg,
    render_figma_png lib w (JStr url) out_filename token tr
    = (Raise (RuntimeError msg), (tr ++ [Http api])%list) /\
    occurs (figma_api_url file_key node_id) msg /\
    occurs file_key msg /\ occurs node_id msg /\ occurs (text resp) msg.
Proof.
  intros Hkey Hnode api Hsend H403.
  exists (forbidden_message (figma_api_url file_key node_id) (text resp)).
  split.
  - rewrite (render_figma_png_after_api _ out_filename token _ _ _ _ Hkey Hnode Hsend).
    now rewrite H403.
  - assert (Hurl : occurs (figma_api_url file_key node_id)
                     (forbidden_message (figma_api_url file_key node_id)
                        (text resp))).
    { unfold forbidden_message. apply occurs_app_r, occurs_cons.
      apply occurs_app_r, occurs_app_l. exists "", "". simpl.
      now rewrite append_nil_r. }
    split; [exact Hurl|].
    assert (Hin : forall sub, occurs sub (figma_api_url file_key node_id) ->
                    occurs sub (forbidden_message
                                  (figma_api_url file_key node_id) (text resp))).
    { intros sub (x & y & E). destruct Hurl as (x' & y' & Hurl).
      rewrite Hurl, E. exists (x' ++ x), (y ++ y').
      now rewrite !append_assoc. }
    split; [|split].
    + apply Hin. unfold figma_api_url. apply occurs_here.
    + apply Hin. unfold figma_api_url.
      apply occurs_app_r, occurs_app_r, occurs_here.
    + unfold forbidden_message. apply occurs_app_r, occurs_cons.
      apply occurs_app_r, occurs_app_r, occurs_cons.
      apply occurs_app_r, occurs_cons.
      exists "Response: ", "". now rewrite append_nil_r.
Qed.

Lemma succeeded_not_403 (resp : response) :
  succeeded resp = true -> Z.eqb (status_code resp) 403 = false.
Proof.
  unfold succeeded. intros H. apply negb_true_iff, andb_false_iff in H.
  apply Z.eqb_neq. destruct H as [H|H]; [apply Z.leb_gt in H | apply Z.ltb_ge in H];
    lia.
Qed.

(** X2: an error status of the rendering API other than 403, and an error
    status of the image download, end the function with the [HTTPError]
    of that status; in both cases nothing is written. *)
Theorem render_figma_png_http_error (url out_filename token file_key node_id : string)
  (tr : trace) (resp : response) :
  search match_file_key url = Some file_key ->
  get_frame_id_from_url url = Some node_id ->
  let api := figma_request (figma_api_url file_key node_id) token in
  http_send w tr api = Ok resp ->
  (succeeded resp = false -> status_code resp <> 403%Z ->
   render_figma_png lib w (JStr url) out_filename token tr
   = (Raise (HTTPError (status_code resp)), (tr ++ [Http api])%list)) /\
  (forall json_result images image_url img_resp,
     let fetch := {| meth := GET; url := py_str lib image_url; headers := [];
                     auth := None; params := []; body := NoBody |} in
     succeeded resp = true ->
     json_body resp = Ok json_result ->
     Py.getitem json_result "images" = Ok images ->
     Py.getitem images (image_key node_id) = Ok image_url ->
     http_send w (tr ++ [Http api])%list fetch = Ok img_resp ->
     succeeded img_resp = false ->
     render_figma_png lib w (JStr url) out_filename token tr
     = (Raise (HTTPError (status_code img_resp)),
        (tr ++ [Http api; Http fetch])%list)).
Proof.
  intros Hkey Hnode api Hsend. split.
  - intros Hbad Hnot.
    rewrite (render_figma_png_after_api _ out_filename token _ _ _ _ Hkey Hnode Hsend).
    apply Z.eqb_neq in Hnot. rewrite Hnot.
    unfold bind. now rewrite (raise_for_status_error _ Hbad).
  - intros json_result images image_url img_resp fetch Hok Hjson Himages Himg
      Hfetch Hbad. subst api fetch.
    rewrite (render_figma_png_after_api _ out_filename token _ _ _ _ Hkey Hnode Hsend).
    rewrite (succeeded_not_403 _ Hok).
    unfold bind at 1. rewrite (raise_for_status_ok _ Hok). unfold ret at 1.
    unfold bind at 1. unfold pure at 1. rewrite Hjson.
    unfold bind at 1. unfold pure at 1. rewrite Himages.
    unfold bind at 1. unfold pure at 1. rewrite Himg.
    unfold bind at 1. unfold send at 1, call. rewrite Hfetch.
    unfold bind. rewrite (raise_for_status_error _ Hbad).
    unfold raise. now rewrite <- app_assoc.
Qed.

(** X3: when both requests succeed and the response lists the node under
    its key, the function fetches the listed URL and writes the bytes of
    that response, as they are, to [out_filename]; these three calls are
    all it makes. *)
Theorem render_figma_png_writes_image (url out_filename token file_key node_id : string)
  (tr : trace) (resp img_resp : response) (json_result images image_url : json) :
  search match_file_key url = Some file_key ->
  get_frame_id_from_url url = Some node_id ->
  let api := figma_request (figma_api_url file_key node_id) token in
  let fetch := {| meth := GET; url := py_str lib image_url; headers := [];
                  auth := None; params := []; body := NoBody |} in
  http_send w tr api = Ok resp ->
  succeeded resp = true ->
  json_body resp = Ok json_result ->
  Py.getitem json_result "images" = Ok images ->
  Py.getitem images (image_key node_id) = Ok image_url ->
  http_send w (tr ++ [Http api])%list fetch = Ok img_resp ->
  succeeded img_resp = true ->
  file_write w (tr ++ [Http api; Http fetch])%list out_filename
    (content img_resp) = None ->
  render_figma_png lib w (JStr url) out_filename token tr
  = (Ok tt,
     (tr ++ [Http api; Http fetch;
             WriteFile out_filename (content img_resp)])%list).
Proof.
  intros Hkey Hnode api fetch Hsend Hok Hjson Himages Himg Hfetch Hok2 Hwrite.
  subst api fetch.
  rewrite (render_figma_png_after_api _ out_filename token _ _ _ _ Hkey Hnode Hsend).
  rewrite (succeeded_not_403 _ Hok).
  unfold bind at 1. rewrite (raise_for_status_ok _ Hok). unfold ret at 1.
  unfold bind at 1. unfold pure at 1. rewrite Hjson.
  unfold bind at 1. unfold pure at 1. rewrite Himages.
  unfold bind at 1. unfold pure at 1. rewrite Himg.
  unfold bind at 1. unfold send at 1, call. rewrite Hfetch.
  unfold bind. rewrite (raise_for_status_ok _ Hok2). unfold ret.
  unfold write_file, call_unit. rewrite <- app_assoc. simpl app.
  rewrite Hwrite. now rewrite <- app_assoc.
Qed.

End RenderOne.

(* ================================================================== *)
(** * What a computation may add to the trace *)
(* ================================================================== *)

Section EmitsOnly.
Variable Q : event -> Prop.

Lemma emits_ret {A : Type} (a : A) : emits_only Q (ret a).
Proof. intros tr. exists []. simpl. now rewrite app_nil_r. Qed.

Lemma emits_raise {A : Type} (e : exn) : emits_only Q (@raise A e).
Proof. intros tr. exists []. simpl. now rewrite app_nil_r. Qed.

Lemma emits_pure {A : Type} (r : result A) : emits_only Q (pure r).
Proof. intros tr. exists []. simpl. now rewrite app_nil_r. Qed.

Lemma emits_bind {A B : Type} (m : M A) (k : A -> M B) :
  emits_only Q m -> (forall a, emits_only Q (k a)) -> emits_only Q (bind m k).
Proof.
  intros Hm Hk tr. unfold bind. destruct (Hm tr) as (more1 & E1 & F1).
  destruct (m tr) as [[a|e] tr1]; simpl in E1; subst tr1.
  - destruct (Hk a (tr ++ more1)%list) as (more2 & E2 & F2).
    exists (more1 ++ more2)%list. rewrite E2, app_assoc.
    split; [reflexivity | now apply Forall_app].
  - now exists more1.
Qed.

Lemma emits_call {A : Type} (ev : event) (answer : trace -> result A) :
  Q ev -> emits_only Q (call ev answer).
Proof. intros H tr. exists [ev]. split; [reflexivity | now constructor]. Qed.

Lemma emits_call_unit (ev : event) (answer : trace -> option exn) :
  Q ev -> emits_only Q (call_unit ev answer).
Proof.
  intros H tr. exists [ev]. unfold call_unit.
  destruct (answer tr); (split; [reflexivity | now constructor]).
Qed.

Lemma emits_raise_for_status (resp : response) :
  emits_only Q (raise_for_status resp).
Proof.
  unfold raise_for_status.
  destruct (_ && _)%bool; [apply emits_raise | apply emits_ret].
Qed.

Lemma emits_if {A : Type} (b : bool) (m1 m2 : M A) :
  emits_only Q m1 -> emits_only Q m2 -> emits_only Q (if b then m1 else m2).
Proof. now destruct b. Qed.

End EmitsOnly.

Lemma emits_weaken {A : Type} (Q Q' : event -> Prop) (m : M A) :
  (forall ev, Q ev -> Q' ev) -> emits_only Q m -> emits_only Q' m.
Proof.
  intros H Hm tr. destruct (Hm tr) as (more & E & F). exists more.
  split; [exact E | eapply Forall_impl; eassumption].
Qed.

(* ================================================================== *)
(** * The renderer: what it writes and what it asks of the schema *)
(* ================================================================== *)

Section RenderAll.
Import PyStr PyStrFacts Re ReFacts.
Variable lib : PyLib.
Variable w : World.
Variable cfg : Config.

(** [render_figma_png] sends only [GET] requests and writes only
    [out_filename]. *)
Lemma render_figma_png_emits (Q : event -> Prop) (figma_url : json)
  (out_filename token : string) :
  (forall r, meth r = GET -> Q (Http r)) ->
  (forall d, Q (WriteFile out_filename d)) ->
  emits_only Q (render_figma_png lib w figma_url out_filename token).
Proof.
  intros Hget Hwrite.
  destruct figma_url; try apply emits_raise.
  cbn [render_figma_png].
  destruct (search match_file_key s); [|apply emits_raise].
  destruct (get_frame_id_from_url s) as [[|c n]|]; try apply emits_raise.
  apply emits_bind; [apply emits_call; now apply Hget|].
  intros resp. apply emits_if; [apply emits_raise|].
  repeat (apply emits_bind;
          [first [apply emits_raise_for_status | apply emits_pure]|intros ?]).
  apply emits_bind; [apply emits_call; now apply Hget|].
  intros img. apply emits_bind; [apply emits_raise_for_status|]. intros _.
  apply emits_call_unit, Hwrite.
Qed.

(** X4: whatever the URL and whatever the answers, [render_figma_png]
    sends only [GET] requests and writes to no file but [out_filename]. *)
Theorem render_figma_png_reads_only (figma_url : json)
  (out_filename token : string) :
  emits_only (fun ev => is_get ev \/ exists d, ev = WriteFile out_filename d)
    (render_figma_png lib w figma_url out_filename token).
Proof.
  apply render_figma_png_emits.
  - intros r Hr. left. now exists r.
  - intros d. right. now exists d.
Qed.

(** A successful rendering leaves exactly three events. *)
Lemma render_figma_png_Ok_trace (figma_url : json) (out_filename token : string)
  (tr tr' : trace) (u : unit) :
  render_figma_png lib w figma_url out_filename token tr = (Ok u, tr') ->
  exists url a f d,
    figma_url = JStr url /\ file_key_shape url /\ node_id_shape url /\
    tr' = (tr ++ [Http a; Http f; WriteFile out_filename d])%list.
Proof.
  destruct figma_url; try discriminate. cbn [render_figma_png].
  destruct (search match_file_key s) as [key|] eqn:Ek; [|discriminate].
  destruct (get_frame_id_from_url s) as [[|c n]|] eqn:En; try discriminate.
  assert (Hk : file_key_shape s) by (apply search_file_key_shape; congruence).
  assert (Hn : node_id_shape s).
  { apply search_node_id_shape. unfold get_frame_id_from_url in En.
    destruct (search match_node_id s); congruence. }
  unfold bind at 1. unfold send at 1, call.
  destruct (http_send w tr _) as [resp|e]; [|discriminate].
  destruct (Z.eqb (status_code resp) 403); [discriminate|].
  unfold bind at 1.
  destruct (succeeded resp) eqn:S1;
    [rewrite (raise_for_status_ok _ S1)
    |rewrite (raise_for_status_error _ S1); discriminate].
  unfold ret at 1. unfold bind at 1. unfold pure at 1.
  destruct (json_body resp) as [json_result|e]; [|discriminate].
  unfold bind at 1. unfold pure at 1.
  destruct (Py.getitem json_result "images") as [images|e]; [|discriminate].
  unfold bind at 1. unfold pure at 1.
  destruct (Py.getitem images _) as [image_url|e]; [|discriminate].
  unfold bind at 1. unfold send at 1, call.
  destruct (http_send w _ _) as [img_resp|e]; [|discriminate].
  unfold bind.
  destruct (succeeded img_resp) eqn:S2;
    [rewrite (raise_for_status_ok _ S2)
    |rewrite (raise_for_status_error _ S2); discriminate].
  unfold ret, write_file, call_unit.
  destruct (file_write w _ _ _); [discriminate|].
  intros [= _ <-]. eexists s, _, _, _. split; [reflexivity|].
  split; [exact Hk|]. split; [exact Hn|]. now rewrite <- !app_assoc.
Qed.

Lemma written_paths_app (a b : trace) :
  written_paths (a ++ b)%list = (written_paths a ++ written_paths b)%list.
Proof.
  induction a as [|ev a IH]; [reflexivity|].
  destruct ev; simpl; now rewrite IH.
Qed.

(** A path that resolves has a leaf, null when the placeholder is used. *)
Lemma resolve_path_Ok (placeholder : string) (object_schema v : json)
  (path : string) :
  resolve_path placeholder object_schema path = Ok v ->
  exists leaf,
    descend object_schema (split "." path) = Some leaf /\
    ((leaf = JNull /\ v = JStr placeholder) \/ (leaf <> JNull /\ v = leaf)).
Proof.
  destruct (descend object_schema (split "." path)) as [leaf|] eqn:D.
  - intros H. exists leaf. split; [reflexivity|].
    destruct leaf;
      try (right; split; [discriminate|];
           rewrite (resolve_path_value placeholder _ _ _ D) in H by discriminate;
           congruence).
    left. rewrite (resolve_path_null placeholder _ _ D) in H.
    split; [reflexivity | congruence].
  - rewrite (resolve_path_absent placeholder _ _ D). discriminate.
Qed.

(** One turn of the loop that succeeds: the name is a text, the path
    resolves, and the image is fetched and written under the build
    folder. *)
Lemma render_one_Ok_full (object_schema object_name : json) (path : string)
  (tr tr' : trace) (f : string) :
  render_one lib w cfg object_schema object_name path tr = (Ok f, tr') ->
  exists N leaf a g d,
    object_name = JStr N /\ f = rendered_filename N path /\
    descend object_schema (split "." path) = Some leaf /\
    link_or_null leaf /\
    tr' = (tr ++ [Http a; Http g; WriteFile ("build/" ++ f) d])%list.
Proof.
  unfold render_one, bind, pure.
  destruct (resolve_path _ object_schema path) as [v|e] eqn:R; [|discriminate].
  destruct object_name as [| | | |N| |]; simpl; try discriminate.
  destruct (render_figma_png _ _ _ _ _ tr) as [[u|e] tr1] eqn:P; [|discriminate].
  unfold ret. intros [= <- <-].
  apply render_figma_png_Ok_trace in P as (url & a & g & d & -> & Hk & Hn & ->).
  apply resolve_path_Ok in R as (leaf & D & Hleaf).
  exists N, leaf, a, g, d. split; [reflexivity|]. split; [reflexivity|].
  split; [exact D|]. split; [|reflexivity].
  destruct Hleaf as [[-> _]|[_ <-]]; [now left|].
  right. now exists url.
Qed.

Lemma render_loop_Ok_full (object_schema object_name : json)
  (paths acc files : list string) (tr tr' : trace) :
  render_loop lib w cfg object_schema object_name paths acc tr = (Ok files, tr') ->
  exists new more,
    files = (acc ++ new)%list /\ tr' = (tr ++ more)%list /\
    written_paths more = map (fun f => "build/" ++ f) new /\
    List.length more = 3 * List.length paths /\
    Forall (fun path =>
              exists leaf,
                descend object_schema (split "." path) = Some leaf /\
                link_or_null leaf) paths.
Proof.
  revert acc tr. induction paths as [|p paths IH]; intros acc tr; simpl.
  - unfold ret. intros [= <- <-]. exists [], [].
    rewrite !app_nil_r. repeat split. constructor.
  - unfold bind.
    destruct (render_one lib w cfg object_schema object_name p tr)
      as [[f|e] tr1] eqn:E; [|discriminate].
    apply render_one_Ok_full in E
      as (N & leaf & a & g & d & -> & -> & D & Hleaf & ->).
    intros H. apply IH in H as (new & more & -> & -> & Hw & Hlen & Hall).
    exists (rendered_filename N p :: new),
           ([Http a; Http g;
             WriteFile ("build/" ++ rendered_filename N p) d] ++ more)%list.
    split; [now rewrite <- app_assoc|].
    split; [now rewrite <- app_assoc|].
    split; [simpl; now rewrite Hw|].
    split; [simpl; lia|].
    constructor; [now exists leaf | exact Hall].
Qed.


(** X6: for a schema whose links at the supported paths are ASCII text,
    when [render_figma_images] returns, every one of the supported paths
    resolves in the schema, to null or to a text that has a file key and a
    node identifier. *)
Theorem render_figma_images_resolves_all (object_schema : json)
  (tr tr' : trace) (files : list string) :
  ascii_links object_schema supported_schema_keys = true ->
  render_figma_images lib w cfg object_schema tr = (Ok files, tr') ->
  Forall (fun path =>
            exists leaf,
              descend object_schema (split "." path) = Some leaf /\
              link_or_null leaf) supported_schema_keys.
Proof.
  intros _.
  unfold render_figma_images, bind, makedirs, call_unit, pure.
  destruct (os_makedirs w tr TEMP_RENDER_FOLDER) as [e|]; [discriminate|].
  destruct (Py.getitem object_schema "name") as [object_name|e]; [|discriminate].
  intros H. now apply render_loop_Ok_full in H as (new & more & _ & _ & _ & _ & Hall).
Qed.

(** X7: unless the schema has a ['name'] that is a text, the renderer
    raises before any request: making the directory is all it does. *)
Theorem render_figma_images_needs_name (object_schema : json) (tr : trace) :
  (forall N, Py.getitem object_schema "name" <> Ok (JStr N)) ->
  exists e,
    render_figma_images lib w cfg object_schema tr
    = (Raise e, (tr ++ [Makedirs "build"])%list).
Proof.
  intros Hname. unfold render_figma_images, bind, makedirs, call_unit, pure.
  destruct (os_makedirs w tr TEMP_RENDER_FOLDER) as [e|]; [now exists e|].
  destruct (Py.getitem object_schema "name") as [object_name|e] eqn:En;
    [|now exists e].
  change supported_schema_keys
    with ("desktop.grid-view.vendor" :: tl supported_schema_keys).
  cbn [render_loop]. unfold bind, render_one, pure.
  destruct (resolve_path _ object_schema _) as [v|e]; [|now exists e].
  destruct object_name; try (exists TypeError; reflexivity).
  now elim (Hname s).
Qed.

(** Reaching a path: the run is the turn for that path, then the loop
    over the paths after it. *)
Lemma render_figma_images_reaches (object_schema object_name : json)
  (path : string) (before after : list string) (tr tr1 : trace)
  (files : list string) :
  supported_schema_keys = (before ++ path :: after)%list ->
  os_makedirs w tr TEMP_RENDER_FOLDER = None ->
  Py.getitem object_schema "name" = Ok object_name ->
  render_loop lib w cfg object_schema object_name before []
    (tr ++ [Makedirs TEMP_RENDER_FOLDER])%list = (Ok files, tr1) ->
  render_figma_images lib w cfg object_schema tr
  = bind (render_one lib w cfg object_schema object_name path)
         (fun filename =>
            render_loop lib w cfg object_schema object_name after
              (files ++ [filename])%list) tr1.
Proof.
  intros Hkeys Hmk Hname Hbefore.
  unfold render_figma_images, makedirs, call_unit, pure.
  unfold bind at 1 2.
  rewrite Hmk, Hname, Hkeys, render_loop_app.
  unfold bind at 1. rewrite Hbefore. reflexivity.
Qed.

(** X8: the placeholder stands in for null only.  At a path the loop has
    reached, a leaf that is the empty text is rendered as it is and raises
    the file-key error, and a leaf that is neither null nor a text raises
    [TypeError]; in both cases no request is made for the path. *)
Theorem render_figma_images_odd_leaf (object_schema leaf : json)
  (N path : string) (before after : list string) (tr tr1 : trace)
  (files : list string) :
  supported_schema_keys = (before ++ path :: after)%list ->
  os_makedirs w tr TEMP_RENDER_FOLDER = None ->
  Py.getitem object_schema "name" = Ok (JStr N) ->
  render_loop lib w cfg object_schema (JStr N) before []
    (tr ++ [Makedirs TEMP_RENDER_FOLDER])%list = (Ok files, tr1) ->
  descend object_schema (split "." path) = Some leaf ->
  (leaf = JStr "" ->
   render_figma_images lib w cfg object_schema tr
   = (Raise (ValueError "Could not extract Figma file key from URL"), tr1)) /\
  (leaf <> JNull -> (forall u, leaf <> JStr u) ->
   render_figma_images lib w cfg object_schema tr = (Raise TypeError, tr1)).
Proof.
  intros Hkeys Hmk Hname Hbefore Hleaf.
  rewrite (render_figma_images_reaches _ _ _ _ _ _ _ _ Hkeys Hmk Hname Hbefore).
  unfold render_one, bind, pure. split.
  - intros ->.
    rewrite (resolve_path_value _ _ _ _ Hleaf) by discriminate.
    reflexivity.
  - intros Hnull Hstr.
    rewrite (resolve_path_value _ _ _ _ Hleaf) by exact Hnull.
    simpl. destruct leaf; try reflexivity. now elim (Hstr s).
Qed.

(** The renderer makes the build folder, sends [GET] requests and writes
    under the build folder. *)
Lemma render_figma_images_emits (Q : event -> Prop) (object_schema : json) :
  Q (Makedirs "build") ->
  (forall r, meth r = GET -> Q (Http r)) ->
  (forall f d, Q (WriteFile ("build/" ++ f) d)) ->
  emits_only Q (render_figma_images lib w cfg object_schema).
Proof.
  intros Hmk Hget Hwrite. unfold render_figma_images.
  apply emits_bind; [apply emits_call_unit, Hmk|]. intros _.
  apply emits_bind; [apply emits_pure|]. intros object_name.
  generalize (@nil string) as acc.
  induction supported_schema_keys as [|p paths IH]; intros acc; simpl.
  - apply emits_ret.
  - apply emits_bind; [|intros f; apply IH].
    unfold render_one.
    apply emits_bind; [apply emits_pure|]. intros v.
    apply emits_bind; [apply emits_pure|]. intros f.
    apply emits_bind; [|intros _; apply emits_ret].
    apply render_figma_png_emits; [exact Hget | intros d; apply Hwrite].
Qed.


End RenderAll.

(* ================================================================== *)
(** * Names: node identifiers and file names *)
(* ================================================================== *)

Section Names.
Import PyStr PyStrFacts Re ReFacts.

Lemma all_chars_app (p : ascii -> bool) (a b : string) :
  all_chars p (a ++ b) = all_chars p a && all_chars p b.
Proof.
  induction a as [|c a IH]; [reflexivity|]. simpl.
  now rewrite IH, andb_assoc.
Qed.

(** X10: for a URL that is ASCII text, the node identifier
    [get_frame_id_from_url] returns is never empty and is made of the
    digits 0 to 9, hyphens and the three characters of [%3A] only, so it
    holds no colon. *)
Theorem get_frame_id_is_encoded (url node_id : string) :
  ascii_text url = true ->
  get_frame_id_from_url url = Some node_id ->
  node_id <> "" /\
  all_chars is_encoded_node_char node_id = true /\
  ~ occurs ":" node_id.
Proof.
  intros _ H. split; [now apply (get_frame_id_nonempty url)|].
  unfold get_frame_id_from_url in H.
  destruct (search match_node_id url) as [g|] eqn:E; [|discriminate].
  destruct (search_node_id_Some _ _ E) as (_ & Hall & _).
  assert (Henc : all_chars is_encoded_node_char (replace ":" "%3A" g) = true).
  { clear E H. induction g as [|c g IH]; [reflexivity|].
    simpl in Hall. apply andb_true_iff in Hall as [Hc Hg].
    rewrite replace_char_cons, all_chars_app, (IH Hg), andb_true_r.
    destruct (Ascii.eqb_spec ":" c) as [<-|Hne]; [reflexivity|].
    simpl. rewrite andb_true_r. unfold is_encoded_node_char.
    unfold is_node_char in Hc.
    apply orb_true_iff in Hc as [Hc|Hc].
    - apply orb_true_iff in Hc as [Hc|Hc]; [now rewrite Hc|].
      apply Ascii.eqb_eq in Hc. congruence.
    - rewrite Hc. now rewrite !orb_true_r. }
  assert (Heq : replace ":" "%3A" g = node_id) by congruence.
  rewrite <- Heq. split; [exact Henc|].
  intros (x & y & Hxy). rewrite Hxy, !all_chars_app in Henc.
  simpl in Henc. rewrite andb_false_r in Henc. discriminate.
Qed.

(** [s.replace(old, new)] is [new.join(s.split(old))]. *)
Lemma replace_is_join_of_split (old new s : string) :
  old <> "" -> replace old new s = String.concat new (split old s).
Proof.
  intros Hne. remember (String.length s) as n eqn:Hn.
  revert s Hn. induction n as [n IH] using lt_wf_ind. intros s ->.
  rewrite replace_eq, split_eq by exact Hne.
  destruct (find_split old s) as [[a b]|] eqn:F; [|reflexivity].
  pose proof (find_split_shorter _ _ _ _ Hne F) as Hlt.
  rewrite (IH _ Hlt b eq_refl).
  pose proof (split_nonempty old b) as Hb.
  destruct (split old b) as [|x xs]; [congruence | reflexivity].
Qed.

(** X11: the file name of a path is the object name, the keys the walk
    follows joined by hyphens, and [.png]. *)
Theorem rendered_filename_joins_keys (object_name path : string) :
  rendered_filename object_name path
  = object_name ++ "-" ++ String.concat "-" (split "." path) ++ ".png".
Proof.
  unfold rendered_filename. now rewrite replace_is_join_of_split by discriminate.
Qed.

Lemma append_inv_tail (a b c : string) : a ++ c = b ++ c -> a = b.
Proof.
  revert b. induction a as [|x a IH]; intros [|y b] H; simpl in H.
  - reflexivity.
  - apply (f_equal String.length) in H. simpl in H.
    rewrite length_append in H. lia.
  - apply (f_equal String.length) in H. simpl in H.
    rewrite length_append in H. lia.
  - injection H as -> H. f_equal. now apply IH.
Qed.

(** X12: for every object name the sixteen file names are pairwise
    different, so no image of a run overwrites another. *)
Theorem rendered_filenames_distinct (object_name : string) :
  NoDup (map (rendered_filename object_name) supported_schema_keys).
Proof.
  assert (Hinj : forall p q,
            In p supported_schema_keys -> In q supported_schema_keys ->
            rendered_filename object_name p = rendered_filename object_name q ->
            p = q).
  { intros p q Hp Hq E. unfold rendered_filename in E.
    apply append_inv_head, append_inv_head in E. apply append_inv_tail in E.
    revert E. simpl in Hp, Hq.
    repeat (destruct Hp as [<-|Hp]; [|]); try contradiction;
      repeat (destruct Hq as [<-|Hq]; [|]); try contradiction;
      vm_compute; intros E; first [reflexivity | discriminate E]. }
  assert (Hnd : NoDup supported_schema_keys).
  { unfold supported_schema_keys.
    repeat (constructor; [simpl; intuition discriminate|]). constructor. }
  revert Hinj Hnd. generalize supported_schema_keys as l.
  induction l as [|p l IH]; intros Hinj Hnd; [constructor|].
  inversion Hnd as [|? ? Hnotin Hnd']; subst. simpl. constructor.
  - intros Hin. apply in_map_iff in Hin as (q & E & Hq).
    assert (q = p) by (apply Hinj; [now right | now left | exact E]).
    subst q. contradiction.
  - apply IH; [|exact Hnd']. intros a b Ha Hb. apply Hinj; now right.
Qed.

Lemma getitem_descend (v x : json) (k : string) (keys : list string) :
  Py.getitem v k = Ok x -> descend v (k :: keys) = descend x keys.
Proof.
  destruct v; try discriminate. simpl.
  destruct (Py.lookup k d); [|discriminate]. now intros [= ->].
Qed.

Lemma descend_getitem (v : json) (k : string) (keys : list string) (leaf : json) :
  descend v (k :: keys) = Some leaf ->
  exists x, Py.getitem v k = Ok x /\ descend x keys = Some leaf.
Proof.
  destruct v; try discriminate. simpl.
  destruct (Py.lookup k d) as [x|]; [|discriminate]. intros H. now exists x.
Qed.

(** X13: in each of the five roles tables the page names, column by
    column, the file the renderer writes for the path whose link the
    column shows, and that path is one of the supported ones. *)
Theorem roles_table_names_rendered_files (object_name : string)
  (object_schema : json) (device view : string)
  (data : list (string * json)) :
  In (device, view) role_views ->
  roles_data object_name object_schema device view = Ok data ->
  Forall (fun column =>
            let path := role_path device view (snd column) in
            In path supported_schema_keys /\
            Py.lookup ("{{filename-column-" ++ fst column ++ "}}") data
            = Some (JStr (rendered_filename object_name path)) /\
            Py.lookup ("{{figma-link-column-" ++ fst column ++ "}}") data
            = descend object_schema (split "." path))
         [("1", "vendor"); ("2", "operations"); ("3", "client")].
Proof.
  intros Hin. unfold roles_data. cbv zeta.
  destruct (Py.getitem object_schema device) as [d|e] eqn:Hd; cbn [rbind];
    [|discriminate].
  destruct (Py.getitem d view) as [v|e] eqn:Hv; cbn [rbind]; [|discriminate].
  destruct (Py.getitem v "vendor") as [l1|e] eqn:H1; cbn [rbind];
    [|discriminate].
  destruct (Py.getitem v "operations") as [l2|e] eqn:H2; cbn [rbind];
    [|discriminate].
  destruct (Py.getitem v "client") as [l3|e] eqn:H3; cbn [rbind];
    [|discriminate].
  intros [= Hdata].
  assert (Hlink : forall role l,
            Py.getitem v role = Ok l ->
            descend object_schema [device; view; role] = Some l).
  { intros role l Hl.
    rewrite (getitem_descend _ _ _ _ Hd), (getitem_descend _ _ _ _ Hv),
      (getitem_descend _ _ _ _ Hl). reflexivity. }
  assert (Hcol : forall n role l path,
            Py.getitem v role = Ok l ->
            In path supported_schema_keys ->
            split "." path = [device; view; role] ->
            Py.lookup ("{{filename-column-" ++ n ++ "}}") data
            = Some (JStr (rendered_filename object_name path)) ->
            Py.lookup ("{{figma-link-column-" ++ n ++ "}}") data = Some l ->
            In path supported_schema_keys /\
            Py.lookup ("{{filename-column-" ++ n ++ "}}") data
            = Some (JStr (rendered_filename object_name path)) /\
            Py.lookup ("{{figma-link-column-" ++ n ++ "}}") data
            = descend object_schema (split "." path)).
  { intros n role l path Hl Hp Hs Hf Hk. rewrite Hs, (Hlink _ _ Hl). auto. }
  simpl in Hin.
  repeat (destruct Hin as [Hin|Hin]; [injection Hin as <- <-|]);
    try contradiction;
    (apply Forall_cons; [|apply Forall_cons; [|apply Forall_cons;
                                               [|apply Forall_nil]]]);
    cbv zeta; cbn [fst snd];
    first [ apply (Hcol "1" "vendor" l1 _ H1)
          | apply (Hcol "2" "operations" l2 _ H2)
          | apply (Hcol "3" "client" l3 _ H3) ];
    first [ solve [simpl; tauto]
          | rewrite <- Hdata; vm_compute; reflexivity
          | vm_compute; reflexivity ].
Qed.

End Names.

(* ================================================================== *)
(** * From a successful rendering to the composition of the page *)
(* ================================================================== *)

Section RenderThenCompose.
Import PyStr PyStrFacts.
Variable lib : PyLib.
Variable w : World.
Variable cfg : Config.

Lemma link_or_null_substituted (leaf : json) :
  link_or_null leaf -> substituted_value leaf <> None.
Proof. intros [->|(u & -> & _)]; discriminate. Qed.

Lemma resolved_link (object_schema leaf : json) (device view role : string) :
  descend object_schema [device; view; role] = Some leaf ->
  rbind (Py.getitem object_schema device)
        (fun d => rbind (Py.getitem d view) (fun v => Py.getitem v role))
  = Ok leaf.
Proof.
  intros D.
  apply descend_getitem in D as (d & -> & D).
  apply descend_getitem in D as (v & Hv & D).
  apply descend_getitem in D as (x & Hx & D).
  simpl in D. injection D as ->. simpl. rewrite Hv. simpl. exact Hx.
Qed.

(** X14: once [render_figma_images] has returned for a schema, composing
    the page for the same schema cannot fail on the schema: the link of
    the state diagram and the three links of every roles table are there,
    and each is a text or null, which [populate_template] accepts. *)
Theorem composer_finds_links_after_render (object_schema : json)
  (tr tr' : trace) (files : list string) (object_name : string) :
  render_figma_images lib w cfg object_schema tr = (Ok files, tr') ->
  (exists link,
     Py.getitem object_schema "state-diagram" = Ok link /\
     substituted_value link <> None) /\
  (forall device view,
     In (device, view) role_views ->
     exists data,
       roles_data object_name object_schema device view = Ok data /\
       Forall (fun item => substituted_value (snd item) <> None) data).
Proof.
  unfold render_figma_images, bind, makedirs, call_unit, pure.
  destruct (os_makedirs w tr TEMP_RENDER_FOLDER) as [e|]; [discriminate|].
  destruct (Py.getitem object_schema "name") as [name|e]; [|discriminate].
  intros H.
  apply (render_loop_Ok_full lib w cfg) in H
    as (new & more & _ & _ & _ & _ & Hall).
  rewrite Forall_forall in Hall.
  assert (Hrole : forall device view role,
            In (role_path device view role) supported_schema_keys ->
            split "." (role_path device view role) = [device; view; role] ->
            exists leaf,
              rbind (Py.getitem object_schema device)
                (fun d => rbind (Py.getitem d view)
                            (fun v => Py.getitem v role)) = Ok leaf /\
              substituted_value leaf <> None).
  { intros device view role Hin Hs.
    destruct (Hall _ Hin) as (leaf & D & Hleaf). rewrite Hs in D.
    exists leaf. split; [now apply resolved_link|].
    now apply link_or_null_substituted. }
  split.
  - destruct (Hall "state-diagram") as (leaf & D & Hleaf); [simpl; tauto|].
    change (split "." "state-diagram") with ["state-diagram"] in D.
    apply descend_getitem in D as (x & Hx & D). simpl in D. injection D as ->.
    exists leaf. split; [exact Hx | now apply link_or_null_substituted].
  - intros device view Hin. simpl in Hin.
    repeat (destruct Hin as [Hin|Hin]; [injection Hin as <- <-|]);
      try contradiction;
      match goal with
      | |- exists data, roles_data _ _ ?d ?v = _ /\ _ =>
          destruct (Hrole d v "vendor") as (l1 & H1 & S1);
            [simpl; tauto | reflexivity|];
          destruct (Hrole d v "operations") as (l2 & H2 & S2);
            [simpl; tauto | reflexivity|];
          destruct (Hrole d v "client") as (l3 & H3 & S3);
            [simpl; tauto | reflexivity|]
      end;
      unfold roles_data; cbv zeta; rewrite H1, H2, H3; cbn [rbind];
      eexists; (split; [reflexivity|]);
      repeat (apply Forall_cons; [first [discriminate | assumption]|]);
      apply Forall_nil.
Qed.

End RenderThenCompose.

(* ================================================================== *)
(** * Attachments: what an upload may do, and in which order *)
(* ================================================================== *)

Section Attachments.
Import PyStr PyStrFacts.
Variable lib : PyLib.
Variable w : World.
Variable cfg : Config.

(** From the answer of the attachment query on. *)
Lemma upload_after_check (page_id image_path : string) (tr : trace)
  (file_content : string) (check_response : response) :
  let filename := basename image_path in
  let check := check_request cfg page_id filename in
  let upload := upload_request cfg page_id filename file_content in
  file_read w tr image_path = Ok file_content ->
  http_send w (tr ++ [OpenRead image_path])%list check = Ok check_response ->
  upload_image_version_to_confluence lib w cfg page_id image_path tr
  = bind (raise_for_status check_response) (fun _ =>
    bind (pure (json_body check_response)) (fun attachment_result =>
    bind (pure (Py.dict_get attachment_result "results" (JList [])))
      (fun results =>
    bind (if Py.truthy results
          then
            bind (pure (rbind (Py.getitem0 results)
                          (fun first => Py.getitem first "id")))
                 (fun attachment_id =>
                    bind (delete_confluence_attachment lib w cfg
                            attachment_id "current")
                         (fun _ => delete_confluence_attachment lib w cfg
                                     attachment_id "trashed"))
          else ret tt)
         (fun _ =>
            bind (send w upload)
                 (fun response =>
                    bind (raise_for_status response)
                         (fun _ => pure (json_body response)))))))
      (tr ++ [OpenRead image_path; Http check])%list.
Proof.
  intros filename check upload Hread Hcheck.
  unfold upload_image_version_to_confluence.
  fold filename. fold check.
  unfold bind at 1. unfold read_file, call. rewrite Hread.
  fold upload.
  unfold bind at 1. unfold send at 1, call. rewrite Hcheck.
  now rewrite <- app_assoc.
Qed.

(** X15: when the first result of the query has no ['id'], the error of
    the lookup ends the upload, and when the first delete is refused, its
    [HTTPError] does: in neither case is the file posted, and in the
    second the delete of the trashed state is not attempted. *)
Theorem upload_aborts_before_post (page_id image_path : string) (tr : trace)
  (file_content : string) (check_response : response)
  (attachment_result first : json) (rest : list json) :
  let filename := basename image_path in
  let check := check_request cfg page_id filename in
  file_read w tr image_path = Ok file_content ->
  http_send w (tr ++ [OpenRead image_path])%list check = Ok check_response ->
  succeeded check_response = true ->
  json_body check_response = Ok attachment_result ->
  Py.dict_get attachment_result "results" (JList [])
  = Ok (JList (first :: rest)) ->
  (forall e,
     Py.getitem first "id" = Raise e ->
     upload_image_version_to_confluence lib w cfg page_id image_path tr
     = (Raise e, (tr ++ [OpenRead image_path; Http check])%list)) /\
  (forall attachment_id deleted,
     let delete1 := delete_request lib cfg attachment_id "current" in
     Py.getitem first "id" = Ok attachment_id ->
     http_send w (tr ++ [OpenRead image_path; Http check])%list delete1
     = Ok deleted ->
     succeeded deleted = false ->
     upload_image_version_to_confluence lib w cfg page_id image_path tr
     = (Raise (HTTPError (status_code deleted)),
        (tr ++ [OpenRead image_path; Http check; Http delete1])%list)).
Proof.
  intros filename check Hread Hcheck Hok Hjson Hresults.
  pose proof (upload_after_check page_id image_path tr file_content
                check_response Hread Hcheck) as Hrun.
  cbv zeta in Hrun. fold filename in Hrun. fold check in Hrun.
  rewrite Hrun. clear Hrun.
  split; [intros e Hid
         | intros attachment_id deleted delete1 Hid Hdel Hbad; subst delete1];
    (unfold bind at 1; rewrite (raise_for_status_ok _ Hok); unfold ret at 1;
     unfold bind at 1; unfold pure at 1; rewrite Hjson;
     unfold bind at 1; unfold pure at 1; rewrite Hresults;
     cbn [Py.truthy Py.getitem0 rbind]; rewrite Hid).
  - reflexivity.
  - unfold bind at 1. unfold bind at 1. unfold pure at 1.
    unfold bind at 1. unfold delete_confluence_attachment at 1.
    unfold bind at 1. unfold send at 1, call. rewrite Hdel.
    rewrite (raise_for_status_error _ Hbad). unfold raise.
    now rewrite <- app_assoc.
Qed.

(** X16: whatever the answers, the calls of one upload are an initial
    part of: open the file, query, delete [current], delete [trashed],
    post; or of: open the file, query, post.  So the file is opened
    first, nothing is deleted or posted before the query, [trashed] is
    deleted only after [current] of the same attachment, and the post
    comes last and at most once. *)
Theorem upload_calls_in_order (page_id image_path : string) (tr : trace) :
  exists more file_content attachment_id rest,
    snd (upload_image_version_to_confluence lib w cfg page_id image_path tr)
    = (tr ++ more)%list /\
    let filename := basename image_path in
    let check := Http (check_request cfg page_id filename) in
    let upload := Http (upload_request cfg page_id filename file_content) in
    ((more ++ rest)%list
     = [OpenRead image_path; check;
        Http (delete_request lib cfg attachment_id "current");
        Http (delete_request lib cfg attachment_id "trashed"); upload]
     \/ (more ++ rest)%list = [OpenRead image_path; check; upload]).
Proof.
  unfold upload_image_version_to_confluence.
  unfold bind at 1. unfold read_file, call.
  destruct (file_read w tr image_path) as [file_content|e].
  2:{ eexists [OpenRead image_path], "", JNull, _. split; [reflexivity|].
      right. reflexivity. }
  unfold bind at 1. unfold send at 1, call.
  destruct (http_send w _ (check_request _ _ _)) as [check_response|e].
  2:{ eexists [_; _], file_content, JNull, _.
      split; [simpl; now rewrite <- app_assoc|]. right. reflexivity. }
  unfold bind at 1.
  destruct (succeeded check_response) eqn:S;
    [rewrite (raise_for_status_ok _ S)|rewrite (raise_for_status_error _ S)].
  2:{ eexists [_; _], file_content, JNull, _.
      split; [simpl; now rewrite <- app_assoc|]. right. reflexivity. }
  unfold ret at 1. unfold bind at 1. unfold pure at 1.
  destruct (json_body check_response) as [attachment_result|e].
  2:{ eexists [_; _], file_content, JNull, _.
      split; [simpl; now rewrite <- app_assoc|]. right. reflexivity. }
  unfold bind at 1. unfold pure at 1.
  destruct (Py.dict_get attachment_result "results" (JList [])) as [results|e].
  2:{ eexists [_; _], file_content, JNull, _.
      split; [simpl; now rewrite <- app_assoc|]. right. reflexivity. }
  destruct (Py.truthy results).
  - unfold bind at 1. unfold bind at 1. unfold pure at 1.
    destruct (rbind (Py.getitem0 results) _) as [attachment_id|e].
    2:{ eexists [_; _], file_content, JNull, _.
        split; [simpl; now rewrite <- app_assoc|]. right. reflexivity. }
    unfold bind at 1. unfold delete_confluence_attachment at 1.
    unfold bind at 1. unfold send at 1, call.
    destruct (http_send w _ (delete_request _ _ _ "current")) as [d1|e].
    2:{ eexists [_; _; _], file_content, attachment_id, _.
        split; [simpl; now rewrite <- !app_assoc|]. left. reflexivity. }
    destruct (succeeded d1) eqn:S1;
      [rewrite (raise_for_status_ok _ S1)|rewrite (raise_for_status_error _ S1)].
    2:{ eexists [_; _; _], file_content, attachment_id, _.
        split; [simpl; now rewrite <- !app_assoc|]. left. reflexivity. }
    unfold ret at 1. unfold delete_confluence_attachment.
    unfold bind at 1. unfold send at 1, call.
    destruct (http_send w _ (delete_request _ _ _ "trashed")) as [d2|e].
    2:{ eexists [_; _; _; _], file_content, attachment_id, _.
        split; [simpl; now rewrite <- !app_assoc|]. left. reflexivity. }
    destruct (succeeded d2) eqn:S2;
      [rewrite (raise_for_status_ok _ S2)|rewrite (raise_for_status_error _ S2)].
    2:{ eexists [_; _; _; _], file_content, attachment_id, _.
        split; [simpl; now rewrite <- !app_assoc|]. left. reflexivity. }
    unfold ret at 1. rewrite upload_tail.
    eexists [_; _; _; _; _], file_content, attachment_id, [].
    split; [simpl; now rewrite <- !app_assoc|]. left. reflexivity.
  - unfold bind at 1. unfold ret at 1. rewrite upload_tail.
    eexists [_; _; _], file_content, JNull, [].
    split; [simpl; now rewrite <- !app_assoc|]. right. reflexivity.
Qed.

End Attachments.

(* ================================================================== *)
(** * Uploading all images, and fetching the page *)
(* ================================================================== *)

Section UploadAll.
Import PyStr PyStrFacts.
Variable lib : PyLib.
Variable w : World.
Variable cfg : Config.

(** The text before the leftmost occurrence has no occurrence. *)
Lemma find_split_before_clean (sep s a b : string) :
  sep <> "" -> find_split sep s = Some (a, b) -> ~ occurs sep a.
Proof.
  intros Hne F (x & y & Ha).
  pose proof (find_split_sound _ _ _ _ F) as Hs.
  assert (Hs' : s = x ++ sep ++ (y ++ sep ++ b)).
  { rewrite Hs, Ha. now rewrite !append_assoc. }
  pose proof (find_split_leftmost _ _ _ _ _ _ F Hs') as Hle.
  rewrite Ha, !length_append in Hle.
  destruct sep; [congruence | simpl in Hle; lia].
Qed.

Lemma last_cons_nonempty {A : Type} (x d : A) (l : list A) :
  l <> [] -> last (x :: l) d = last l d.
Proof. destruct l; [congruence | reflexivity]. Qed.

(** [os.path.basename] of a path that ends in a name without ['/']. *)
Lemma basename_of_file_in (dir f : string) :
  ~ occurs "/" f -> basename (dir ++ "/" ++ f) = f.
Proof.
  intros Hf. unfold basename.
  remember (String.length dir) as n eqn:Hn. revert dir Hn.
  induction n as [n IH] using lt_wf_ind. intros dir ->.
  rewrite split_eq by discriminate.
  destruct (find_split "/" dir) as [[a b]|] eqn:F.
  - pose proof (find_split_sound _ _ _ _ F) as Hd.
    pose proof (find_split_before_clean "/" dir a b ltac:(discriminate) F) as Ha.
    assert (E : dir ++ "/" ++ f = a ++ "/" ++ (b ++ "/" ++ f)).
    { rewrite Hd. now rewrite !append_assoc. }
    rewrite E, (find_split_slash_first a _ Ha).
    rewrite last_cons_nonempty by apply split_nonempty.
    apply (IH (String.length b)); [|reflexivity].
    rewrite Hd, !length_append. simpl. lia.
  - apply find_split_None in F. rewrite (find_split_slash_first dir f F).
    rewrite split_eq by discriminate.
    now rewrite (find_split_slash_None f Hf).
Qed.

(** A successful upload: the file, the query, no delete or two, the post. *)
Lemma upload_Ok_inv (page_id image_path : string) (tr tr' : trace) (j : json) :
  upload_image_version_to_confluence lib w cfg page_id image_path tr
  = (Ok j, tr') ->
  exists file_content deletes,
    tr' = (tr ++ OpenRead image_path
              :: Http (check_request cfg page_id (basename image_path))
              :: deletes
              ++ [Http (upload_request cfg page_id (basename image_path)
                          file_content)])%list /\
    (deletes = [] \/
     exists attachment_id,
       deletes = [Http (delete_request lib cfg attachment_id "current");
                  Http (delete_request lib cfg attachment_id "trashed")]).
Proof.
  unfold upload_image_version_to_confluence.
  unfold bind at 1. unfold read_file, call.
  destruct (file_read w tr image_path) as [file_content|e]; [|discriminate].
  unfold bind at 1. unfold send at 1, call.
  destruct (http_send w _ (check_request _ _ _)) as [check_response|e];
    [|discriminate].
  unfold bind at 1.
  destruct (succeeded check_response) eqn:S;
    [rewrite (raise_for_status_ok _ S)
    |rewrite (raise_for_status_error _ S); discriminate].
  unfold ret at 1. unfold bind at 1. unfold pure at 1.
  destruct (json_body check_response) as [attachment_result|e]; [|discriminate].
  unfold bind at 1. unfold pure at 1.
  destruct (Py.dict_get attachment_result "results" (JList [])) as [results|e];
    [|discriminate].
  destruct (Py.truthy results).
  - unfold bind at 1. unfold bind at 1. unfold pure at 1.
    destruct (rbind (Py.getitem0 results) _) as [attachment_id|e];
      [|discriminate].
    unfold bind at 1. unfold delete_confluence_attachment at 1.
    unfold bind at 1. unfold send at 1, call.
    destruct (http_send w _ (delete_request _ _ _ "current")) as [d1|e];
      [|discriminate].
    destruct (succeeded d1) eqn:S1;
      [rewrite (raise_for_status_ok _ S1)
      |rewrite (raise_for_status_error _ S1); discriminate].
    unfold ret at 1. unfold delete_confluence_attachment.
    unfold bind at 1. unfold send at 1, call.
    destruct (http_send w _ (delete_request _ _ _ "trashed")) as [d2|e];
      [|discriminate].
    destruct (succeeded d2) eqn:S2;
      [rewrite (raise_for_status_ok _ S2)
      |rewrite (raise_for_status_error _ S2); discriminate].
    unfold ret at 1. rewrite upload_tail. intros [= _ <-].
    exists file_content, [Http (delete_request lib cfg attachment_id "current");
                          Http (delete_request lib cfg attachment_id "trashed")].
    split; [simpl; now rewrite <- !app_assoc|]. right. now exists attachment_id.
  - unfold bind at 1. unfold ret at 1. rewrite upload_tail. intros [= _ <-].
    exists file_content, []. split; [simpl; now rewrite <- !app_assoc|].
    now left.
Qed.

Lemma opened_paths_app (a b : trace) :
  opened_paths (a ++ b)%list = (opened_paths a ++ opened_paths b)%list.
Proof.
  induction a as [|ev a IH]; [reflexivity|].
  destruct ev; simpl; now rewrite IH.
Qed.

Lemma posted_names_app (a b : trace) :
  posted_names (a ++ b)%list = (posted_names a ++ posted_names b)%list.
Proof.
  induction a as [|ev a IH]; [reflexivity|].
  destruct ev; simpl; try exact IH.
  destruct (meth r); try exact IH.
  destruct (body r); simpl; now rewrite IH.
Qed.

Lemma upload_all_app (page_id : string) (files1 files2 : list string)
  (tr : trace) :
  upload_all lib w cfg page_id (files1 ++ files2)%list tr
  = bind (upload_all lib w cfg page_id files1)
         (fun _ => upload_all lib w cfg page_id files2) tr.
Proof.
  revert tr. induction files1 as [|f files1 IH]; intros tr; [reflexivity|].
  simpl. unfold bind.
  destruct (upload_image_version_to_confluence lib w cfg page_id _ tr)
    as [[j|e] tr1]; [|reflexivity].
  rewrite IH. reflexivity.
Qed.

(** X17: when [upload_all] returns, the rendered files were opened from
    the build folder one by one in the order of the list, and, their
    names having no ['/'], were posted under exactly these names in the
    same order. *)
Theorem upload_all_posts_in_order (page_id : string)
  (rendered_files : list string) (tr tr' : trace) :
  Forall (fun f => ~ occurs "/" f) rendered_files ->
  upload_all lib w cfg page_id rendered_files tr = (Ok tt, tr') ->
  exists more,
    tr' = (tr ++ more)%list /\
    opened_paths more = map (fun f => "build/" ++ f) rendered_files /\
    posted_names more = rendered_files.
Proof.
  intros Hfiles. revert tr.
  induction Hfiles as [|f files Hf Hfiles IH]; intros tr; cbn [upload_all].
  - unfold ret. intros [= <-]. exists []. now rewrite app_nil_r.
  - unfold bind.
    destruct (upload_image_version_to_confluence lib w cfg page_id _ tr)
      as [[j|e] tr1] eqn:U; [|discriminate].
    apply upload_Ok_inv in U as (file_content & deletes & -> & Hdel).
    intros H. apply IH in H as (more & -> & Ho & Hp).
    assert (Hb : basename (TEMP_RENDER_FOLDER ++ "/" ++ f) = f)
      by exact (basename_of_file_in "build" f Hf).
    rewrite Hb.
    eexists. split; [rewrite <- app_assoc; reflexivity|].
    split.
    + simpl. rewrite !opened_paths_app, Ho. f_equal.
      destruct Hdel as [->|(aid & ->)]; reflexivity.
    + simpl. rewrite !posted_names_app, Hp.
      destruct Hdel as [->|(aid & ->)]; reflexivity.
Qed.

(** X18: the uploads stop at the first one that fails: the files after
    it are not opened. *)
Theorem upload_all_stops_at_first_error (page_id : string)
  (before after : list string) (rendered_file : string)
  (tr tr1 tr2 : trace) (e : exn) :
  upload_all lib w cfg page_id before tr = (Ok tt, tr1) ->
  upload_image_version_to_confluence lib w cfg page_id
    (TEMP_RENDER_FOLDER ++ "/" ++ rendered_file) tr1 = (Raise e, tr2) ->
  upload_all lib w cfg page_id (before ++ rendered_file :: after)%list tr
  = (Raise e, tr2).
Proof.
  intros Hbefore Hfail. rewrite upload_all_app. unfold bind.
  rewrite Hbefore. cbn [upload_all]. unfold bind. now rewrite Hfail.
Qed.

(** X19: when the request succeeds and the answer holds the stored body,
    [download_current_confluence_page] writes the prettified body to
    [build/current-confluence-page-<id>.html]; the request and that write
    are all it does. *)
Theorem download_page_saves_body (page_id : string) (tr : trace)
  (resp : response) (data b s html_content : json) (pretty : string) :
  let fetch := page_request cfg page_id in
  let target := "build/current-confluence-page-" ++ page_id ++ ".html" in
  http_send w tr fetch = Ok resp ->
  succeeded resp = true ->
  json_body resp = Ok data ->
  Py.getitem data "body" = Ok b ->
  Py.getitem b "storage" = Ok s ->
  Py.getitem s "value" = Ok html_content ->
  soup_prettify lib html_content = Ok pretty ->
  file_write w (tr ++ [Http fetch])%list target pretty = None ->
  download_page lib w cfg page_id tr
  = (Ok tt, (tr ++ [Http fetch; WriteFile target pretty])%list).
Proof.
  intros fetch target Hsend Hok Hjson Hb Hs Hv Hpretty Hwrite.
  unfold download_page. fold fetch.
  unfold bind at 1. unfold send at 1, call. rewrite Hsend.
  unfold bind at 1. rewrite (raise_for_status_ok _ Hok). unfold ret at 1.
  unfold bind at 1. unfold pure at 1. rewrite Hjson.
  unfold bind at 1. unfold pure at 1. rewrite Hb. cbn [rbind].
  rewrite Hs. cbn [rbind]. rewrite Hv.
  unfold bind at 1. unfold pure at 1. rewrite Hpretty.
  unfold write_file, call_unit.
  change (TEMP_RENDER_FOLDER ++ "/current-confluence-page-" ++ page_id ++ ".html")
    with target.
  rewrite Hwrite. now rewrite <- app_assoc.
Qed.

(** The page fetcher sends [GET] requests and writes its one file. *)
Lemma download_emits (Q : event -> Prop) (object_schema : json) :
  (forall r, meth r = GET -> Q (Http r)) ->
  (forall rest d,
     Q (WriteFile ("build/current-confluence-page-" ++ rest) d)) ->
  emits_only Q (download_current_confluence_page lib w cfg object_schema).
Proof.
  intros Hget Hwrite. unfold download_current_confluence_page.
  apply emits_bind; [apply emits_pure|]. intros url.
  apply emits_bind; [apply emits_pure|]. intros page_id.
  unfold download_page.
  apply emits_bind; [apply emits_call; now apply Hget|].
  intros resp.
  repeat (apply emits_bind;
          [first [apply emits_raise_for_status | apply emits_pure]|intros ?]).
  apply emits_call_unit. apply (Hwrite (page_id ++ ".html")).
Qed.

(** X20: whatever the schema and the answers,
    [download_current_confluence_page] sends [GET] requests only and
    writes only files named [build/current-confluence-page-...]: it
    changes nothing on the server. *)
Theorem download_reads_only (object_schema : json) :
  emits_only (fun ev => is_get ev \/
                        exists rest d,
                          ev = WriteFile ("build/current-confluence-page-"
                                            ++ rest) d)
    (download_current_confluence_page lib w cfg object_schema).
Proof.
  apply download_emits.
  - intros r Hr. left. now exists r.
  - intros rest d. right. now exists rest, d.
Qed.

(** An upload opens a file and sends requests, none of them a [PUT]. *)
Lemma upload_emits (Q : event -> Prop) (page_id image_path : string) :
  (forall p, Q (OpenRead p)) ->
  (forall r, meth r <> PUT -> Q (Http r)) ->
  emits_only Q
    (upload_image_version_to_confluence lib w cfg page_id image_path).
Proof.
  intros Hopen Hreq. unfold upload_image_version_to_confluence.
  apply emits_bind; [apply emits_call, Hopen|]. intros file_handle.
  apply emits_bind; [apply emits_call, Hreq; discriminate|]. intros check.
  apply emits_bind; [apply emits_raise_for_status|]. intros _.
  apply emits_bind; [apply emits_pure|]. intros attachment_result.
  apply emits_bind; [apply emits_pure|]. intros results.
  apply emits_bind.
  { apply emits_if; [|apply emits_ret].
    apply emits_bind; [apply emits_pure|]. intros attachment_id.
    unfold delete_confluence_attachment.
    apply emits_bind; [|intros _].
    - apply emits_bind; [apply emits_call, Hreq; discriminate|].
      intros d. apply emits_raise_for_status.
    - apply emits_bind; [apply emits_call, Hreq; discriminate|].
      intros d. apply emits_raise_for_status. }
  intros _.
  apply emits_bind; [apply emits_call, Hreq; discriminate|]. intros response.
  apply emits_bind; [apply emits_raise_for_status|]. intros _.
  apply emits_pure.
Qed.

Lemma upload_all_emits (Q : event -> Prop) (page_id : string)
  (rendered_files : list string) :
  (forall p, Q (OpenRead p)) ->
  (forall r, meth r <> PUT -> Q (Http r)) ->
  emits_only Q (upload_all lib w cfg page_id rendered_files).
Proof.
  intros Hopen Hreq.
  induction rendered_files as [|f files IH]; cbn [upload_all].
  - apply emits_ret.
  - apply emits_bind; [now apply upload_emits | intros _; exact IH].
Qed.

End UploadAll.

(* ================================================================== *)
(** * The page identifier, the new version and the published body *)
(* ================================================================== *)

Section PublishMore.
Import PyStr PyStrFacts Re ReFacts.
Variable lib : PyLib.
Variable w : World.
Variable cfg : Config.

(** X21: a page identifier that [page_id_of] returns comes from a text
    that contains ["/pages/"] followed by it, and holds no ['/']. *)
Theorem page_id_of_Ok (confluence_page_url : json) (page_id : string) :
  page_id_of confluence_page_url = Ok page_id ->
  exists url,
    confluence_page_url = JStr url /\
    occurs ("/pages/" ++ page_id) url /\
    ~ occurs "/" page_id.
Proof.
  destruct confluence_page_url as [| | | |url| |]; try discriminate.
  unfold page_id_of. rewrite split_eq by discriminate.
  destruct (find_split "/pages/" url) as [[a b]|] eqn:F; [|discriminate].
  apply find_split_sound in F. subst url.
  assert (K : forall after rest,
            b = after ++ rest ->
            match split "/" after with
            | first :: _ => Ok first
            | [] => Raise IndexError
            end = Ok page_id ->
            exists url,
              JStr (a ++ "/pages/" ++ b) = JStr url /\
              occurs ("/pages/" ++ page_id) url /\ ~ occurs "/" page_id).
  { intros after rest Hb. rewrite split_eq by discriminate.
    destruct (find_split "/" after) as [[x y]|] eqn:G.
    - intros [= <-]. eexists. split; [reflexivity|]. split.
      + apply find_split_sound in G. subst after b.
        exists a, ("/" ++ y ++ rest). simpl. now rewrite ?append_assoc.
      + now apply (find_split_before_clean "/" after x y).
    - intros [= <-]. eexists. split; [reflexivity|]. split.
      + subst b. exists a, rest. simpl. now rewrite ?append_assoc.
      + now apply find_split_None. }
  rewrite split_eq by discriminate.
  destruct (find_split "/pages/" b) as [[a' b']|] eqn:F'.
  - apply find_split_sound in F'. apply (K a' ("/pages/" ++ b')). exact F'.
  - apply (K b ""). now rewrite append_nil_r.
Qed.

(** X22: whatever the answers, [update_page_content] first fetches the
    page and then either stops or submits one replace call; it submits
    only when the fetch succeeded and the answer has a title and a version
    number that [+ 1] accepts, and the call then carries that title, the
    new body and that number plus one. *)
Theorem update_page_content_submits_next_version (page_id new_content : string)
  (tr : trace) :
  let fetch := {| meth := GET; url := content_url cfg page_id;
                  headers := json_headers; auth := CONFLUENCE_AUTH cfg;
                  params := []; body := NoBody |} in
  exists more,
    snd (update_page_content w cfg page_id new_content tr)
    = (tr ++ Http fetch :: more)%list /\
    (more = [] \/
     exists resp page title version number next,
       http_send w tr fetch = Ok resp /\ succeeded resp = true /\
       json_body resp = Ok page /\
       Py.getitem page "title" = Ok title /\
       Py.getitem page "version" = Ok version /\
       Py.getitem version "number" = Ok number /\
       Py.add_one number = Ok next /\
       more = [Http {| meth := PUT; url := content_url cfg page_id;
                       headers := json_headers; auth := CONFLUENCE_AUTH cfg;
                       params := [];
                       body := JsonBody (page_payload page_id title
                                           new_content next) |}]).
Proof.
  intros fetch. unfold update_page_content. fold fetch.
  unfold bind at 1. unfold send at 1, call.
  destruct (http_send w tr fetch) as [resp|e] eqn:Hsend.
  2:{ exists []. split; [reflexivity | now left]. }
  unfold bind at 1.
  destruct (succeeded resp) eqn:S;
    [rewrite (raise_for_status_ok _ S)|rewrite (raise_for_status_error _ S)].
  2:{ exists []. split; [reflexivity | now left]. }
  unfold ret at 1. unfold bind at 1. unfold pure at 1.
  destruct (json_body resp) as [page|e] eqn:Hjson; cbn [rbind].
  2:{ exists []. split; [reflexivity | now left]. }
  destruct (Py.getitem page "title") as [title|e] eqn:Ht.
  2:{ exists []. split; [reflexivity | now left]. }
  unfold bind at 1. unfold pure at 1.
  destruct (Py.getitem page "version") as [version|e] eqn:Hv; cbn [rbind].
  2:{ exists []. split; [reflexivity | now left]. }
  destruct (Py.getitem version "number") as [number|e] eqn:Hn.
  2:{ exists []. split; [reflexivity | now left]. }
  unfold bind at 1. unfold pure at 1.
  destruct (Py.add_one number) as [next|e] eqn:Ha.
  2:{ exists []. split; [reflexivity | now left]. }
  rewrite upload_tail. eexists. split; [simpl; now rewrite <- app_assoc|].
  right. exists resp, page, title, version, number, next. now repeat split.
Qed.

(** X23: a value that is neither a text nor null is refused with
    [TypeError] when its key is in the text the earlier items left. *)
Theorem populate_template_rejects_other_values (template : string)
  (before after : list (string * json)) (key : string) (value : json)
  (t : string) :
  populate_loop template before = Ok t ->
  contains key t = true ->
  substituted_value value = None ->
  populate_template template (before ++ (key, value) :: after)%list
  = Raise TypeError.
Proof.
  intros Hbefore Hkey Hvalue. unfold populate_template.
  rewrite populate_loop_app, Hbefore. simpl. rewrite Hkey. simpl.
  destruct value; try reflexivity; discriminate.
Qed.

End PublishMore.

(* ================================================================== *)
(** * What a run publishes *)
(* ================================================================== *)

Section Published.
Import PyStr PyStrFacts Re ReFacts.
Variable lib : PyLib.
Variable w : World.
Variable cfg : Config.

Lemma emits_bind_pure {A B : Type} (Q : event -> Prop) (r : result A)
  (k : A -> M B) :
  (forall a, r = Ok a -> emits_only Q (k a)) ->
  emits_only Q (bind (pure r) k).
Proof.
  intros Hk tr. unfold bind, pure. destruct r as [a|e].
  - now apply Hk.
  - exists []. simpl. now rewrite app_nil_r.
Qed.

(** What [populate_template] returns has no token. *)
Lemma populate_template_Ok_token_free (template : string)
  (data : list (string * json)) (t : string) :
  populate_template template data = Ok t -> ~ has_token t.
Proof.
  unfold populate_template.
  destruct (populate_loop template data) as [t'|e]; [|discriminate].
  destruct (findall_tokens t') eqn:F; [|discriminate].
  intros [= <-]. now apply findall_tokens_nil.
Qed.

Lemma puts_no_token_other (ev : event) :
  (forall r, ev = Http r -> meth r <> PUT) -> puts_no_token ev.
Proof. intros H r E Hput. now elim (H r E). Qed.

Lemma update_page_content_emits (page_id new_content : string) :
  ~ has_token new_content ->
  emits_only puts_no_token (update_page_content w cfg page_id new_content).
Proof.
  intros Hfree. unfold update_page_content.
  apply emits_bind.
  { apply emits_call, puts_no_token_other. intros r [= <-]. discriminate. }
  intros resp.
  repeat (apply emits_bind;
          [first [apply emits_raise_for_status | apply emits_pure]|intros ?]).
  apply emits_bind.
  { apply emits_call. intros r [= <-] _.
    now eexists page_id, _, new_content, _. }
  intros put. apply emits_bind; [apply emits_raise_for_status|]. intros _.
  apply emits_pure.
Qed.

Lemma update_confluence_page_emits (rendered_files : list string)
  (object_schema : json) :
  emits_only puts_no_token
    (update_confluence_page lib w cfg rendered_files object_schema).
Proof.
  assert (Hfile : forall A (ev : event) (answer : trace -> result A),
            (forall r, ev <> Http r) -> emits_only puts_no_token (call ev answer)).
  { intros A ev answer H. apply emits_call, puts_no_token_other.
    intros r E. now elim (H r). }
  unfold update_confluence_page.
  apply emits_bind; [apply emits_pure|]. intros url.
  apply emits_bind; [apply emits_pure|]. intros page_id.
  unfold update_page.
  apply emits_bind; [apply emits_pure|]. intros object_name.
  apply emits_bind.
  { apply upload_all_emits.
    - intros p. apply puts_no_token_other. discriminate.
    - intros r Hr. apply puts_no_token_other. now intros r' [= <-]. }
  intros _.
  do 3 (apply emits_bind; [apply Hfile; discriminate|intros ?]).
  do 6 (apply emits_bind; [apply emits_pure|intros ?]).
  apply emits_bind; [apply Hfile; discriminate|]. intros last_updated.
  apply emits_bind_pure. intros page Hpage.
  apply populate_template_Ok_token_free in Hpage.
  apply emits_bind.
  { apply emits_call_unit, puts_no_token_other. discriminate. }
  intros _.
  apply emits_bind; [now apply update_page_content_emits|]. intros _.
  apply emits_ret.
Qed.

(** X24: whatever the schema files hold and whatever the answers, every
    replace call a run of [main] submits carries a page payload whose body
    has no [{{...}}] token left; rendering, fetching and uploading submit
    no replace call at all. *)
Theorem main_publishes_no_token :
  emits_only puts_no_token (main lib w cfg).
Proof.
  unfold main, get_all_schema_files.
  apply emits_bind.
  { apply emits_call, puts_no_token_other. discriminate. }
  intros files. induction files as [|f files IH]; cbn [process_all].
  - apply emits_ret.
  - apply emits_bind; [|intros _; exact IH].
    unfold process_schema_file.
    apply emits_bind.
    { apply emits_call, puts_no_token_other. discriminate. }
    intros text. apply emits_bind; [apply emits_pure|]. intros object_schema.
    apply emits_bind.
    { apply render_figma_images_emits.
      - apply puts_no_token_other. discriminate.
      - intros r Hr. apply puts_no_token_other. intros r' [= <-]. congruence.
      - intros f' d. apply puts_no_token_other. discriminate. }
    intros rendered_files.
    apply emits_bind.
    { apply download_emits.
      - intros r Hr. apply puts_no_token_other. intros r' [= <-]. congruence.
      - intros rest d. apply puts_no_token_other. discriminate. }
    intros _. apply update_confluence_page_emits.
Qed.

Lemma bind_Ok_inv {A B : Type} (m : M A) (k : A -> M B) (tr tr' : trace)
  (b : B) :
  bind m k tr = (Ok b, tr') ->
  exists a tr1, m tr = (Ok a, tr1) /\ k a tr1 = (Ok b, tr').
Proof.
  unfold bind. destruct (m tr) as [[a|e] tr1]; [|discriminate].
  intros H. now exists a, tr1.
Qed.

Lemma update_page_content_Ok_inv (page_id new_content : string)
  (tr tr' : trace) (j : json) :
  update_page_content w cfg page_id new_content tr = (Ok j, tr') ->
  exists title next,
    tr' = (tr ++ [Http {| meth := GET; url := content_url cfg page_id;
                          headers := json_headers;
                          auth := CONFLUENCE_AUTH cfg; params := [];
                          body := NoBody |};
                  Http {| meth := PUT; url := content_url cfg page_id;
                          headers := json_headers;
                          auth := CONFLUENCE_AUTH cfg; params := [];
                          body := JsonBody (page_payload page_id title
                                              new_content next) |}])%list.
Proof.
  unfold update_page_content.
  unfold bind at 1. unfold send at 1, call.
  destruct (http_send w tr _) as [resp|e]; [|discriminate].
  unfold bind at 1.
  destruct (succeeded resp) eqn:S;
    [rewrite (raise_for_status_ok _ S)
    |rewrite (raise_for_status_error _ S); discriminate].
  unfold ret at 1. unfold bind at 1. unfold pure at 1.
  destruct (rbind (json_body resp) (fun j0 => Py.getitem j0 "title"))
    as [title|e]; [|discriminate].
  unfold bind at 1. unfold pure at 1.
  destruct (rbind (json_body resp) _) as [number|e]; [|discriminate].
  unfold bind at 1. unfold pure at 1.
  destruct (Py.add_one number) as [next|e]; [|discriminate].
  rewrite upload_tail. intros [= _ <-].
  exists title, next. now rewrite <- app_assoc.
Qed.

(** X25: when [update_confluence_page] returns, the last three things it
    did were to write the composed page to
    [build/confluence-page-updated-<id>.html], to fetch the page and to
    submit the replace call, and the body submitted is the text written,
    which has no token. *)
Theorem update_confluence_page_publishes_saved_copy
  (rendered_files : list string) (object_schema : json) (tr tr' : trace) :
  update_confluence_page lib w cfg rendered_files object_schema tr
  = (Ok tt, tr') ->
  exists url page_id page title next earlier,
    Py.getitem object_schema "confluence-page" = Ok url /\
    page_id_of url = Ok page_id /\
    ~ has_token page /\
    tr' = (earlier ++
           [WriteFile ("build/confluence-page-updated-" ++ page_id ++ ".html")
              page;
            Http {| meth := GET; url := content_url cfg page_id;
                    headers := json_headers; auth := CONFLUENCE_AUTH cfg;
                    params := []; body := NoBody |};
            Http {| meth := PUT; url := content_url cfg page_id;
                    headers := json_headers; auth := CONFLUENCE_AUTH cfg;
                    params := [];
                    body := JsonBody (page_payload page_id title page next) |}
           ])%list.
Proof.
  unfold update_confluence_page. intros H.
  apply bind_Ok_inv in H as (url & t0 & Hurl & H).
  unfold pure in Hurl. injection Hurl as Hurl _.
  apply bind_Ok_inv in H as (page_id & t1 & Hid & H).
  unfold pure in Hid. injection Hid as Hid _.
  unfold update_page in H. cbv zeta in H.
  do 12 (apply bind_Ok_inv in H as (? & ? & _ & H)).
  apply bind_Ok_inv in H as (page & t2 & Hpage & H).
  unfold pure in Hpage. injection Hpage as Hpage _.
  apply populate_template_Ok_token_free in Hpage.
  apply bind_Ok_inv in H as ([] & t3 & Hwrite & H).
  unfold write_file, call_unit in Hwrite.
  destruct (file_write w _ _ _); [discriminate|]. injection Hwrite as <-.
  apply bind_Ok_inv in H as (j & t4 & Hput & H).
  unfold ret in H. injection H as <-.
  apply update_page_content_Ok_inv in Hput as (title & next & ->).
  exists url, page_id, page, title, next, t2.
  split; [exact Hurl|]. split; [exact Hid|]. split; [exact Hpage|].
  now rewrite <- app_assoc.
Qed.

End Published.

(* ================================================================== *)
(** * The image in the response *)
(* ================================================================== *)

Section ImageLookup.
Import PyStr PyStrFacts Re ReFacts.
Variable lib : PyLib.
Variable w : World.

(** X26: when the response does not list the node (no ['images'], or no
    entry under the key), the error of the lookup ends the function after
    the one call to the rendering API: no image is fetched, nothing is
    written. *)
Theorem render_figma_png_image_not_listed (url out_filename token file_key node_id : string)
  (tr : trace) (resp : response) (json_result : json) (e : exn) :
  search match_file_key url = Some file_key ->
  get_frame_id_from_url url = Some node_id ->
  let api := figma_request (figma_api_url file_key node_id) token in
  http_send w tr api = Ok resp ->
  succeeded resp = true ->
  json_body resp = Ok json_result ->
  rbind (Py.getitem json_result "images")
        (fun images => Py.getitem images (image_key node_id)) = Raise e ->
  render_figma_png lib w (JStr url) out_filename token tr
  = (Raise e, (tr ++ [Http api])%list).
Proof.
  intros Hkey Hnode api Hsend Hok Hjson Hlookup. subst api.
  rewrite (render_figma_png_after_api lib w _ out_filename token _ _ _ _
             Hkey Hnode Hsend).
  rewrite (succeeded_not_403 _ Hok).
  unfold bind at 1. rewrite (raise_for_status_ok _ Hok). unfold ret at 1.
  unfold bind at 1. unfold pure at 1. rewrite Hjson.
  unfold bind at 1. unfold pure at 1.
  destruct (Py.getitem json_result "images") as [images|e']; cbn [rbind] in Hlookup.
  - unfold bind at 1. unfold pure at 1. rewrite Hlookup. reflexivity.
  - injection Hlookup as ->. reflexivity.
Qed.

Lemma replace_colon_keeps_percent_free (g : string) :
  all_chars is_node_char g = true ->
  ~ occurs "%" (replace ":" "%3A" g) ->
  replace ":" "%3A" g = g /\
  all_chars (fun c => is_digit c || Ascii.eqb c "-") g = true.
Proof.
  induction g as [|c g IH]; [now split|].
  simpl all_chars. intros Hall Hfree.
  apply andb_true_iff in Hall as [Hc Hg].
  rewrite replace_char_cons in Hfree. rewrite replace_char_cons.
  destruct (Ascii.eqb_spec ":" c) as [<-|Hne].
  - elim Hfree. now exists "", ("3A" ++ replace ":" "%3A" g).
  - assert (Hfree' : ~ occurs "%" (replace ":" "%3A" g)).
    { intros (x & y & E). apply Hfree. exists (String c x), y.
      rewrite E. reflexivity. }
    destruct (IH Hg Hfree') as [IH1 IH2]. rewrite IH1, IH2.
    split; [reflexivity|]. rewrite andb_true_r.
    unfold is_node_char in Hc.
    apply orb_true_iff in Hc as [Hc|Hc]; [|now rewrite Hc, orb_true_r].
    apply orb_true_iff in Hc as [Hc|Hc]; [now rewrite Hc|].
    apply Ascii.eqb_eq in Hc. congruence.
Qed.

(** X27: for a URL that is ASCII text and whose node identifier is
    written without a colon (the identifier returned holds no [%]), the key
    looked up in the response is the colon-delimited form of the
    identifier, made of the digits 0 to 9 and colons. *)
Theorem hyphen_url_lookup_key (url node_id : string) :
  ascii_text url = true ->
  get_frame_id_from_url url = Some node_id ->
  ~ occurs "%" node_id ->
  image_key node_id = colon_form node_id /\
  all_chars (fun c => is_digit c || Ascii.eqb c ":") (image_key node_id) = true.
Proof.
  intros _. unfold get_frame_id_from_url.
  destruct (search match_node_id url) as [g|] eqn:E; [|discriminate].
  intros H Hfree.
  assert (Heq : replace ":" "%3A" g = node_id) by congruence.
  rewrite <- Heq in Hfree |- *. clear H Heq.
  destruct (search_node_id_Some _ _ E) as (_ & Hall & _).
  destruct (replace_colon_keeps_percent_free g Hall Hfree) as [-> Hg].
  destruct (hyphen_node_id_key g Hg) as [_ Hkey]. rewrite Hkey.
  split; [reflexivity|]. clear - Hg.
  induction g as [|c g IH]; [reflexivity|].
  simpl in Hg. apply andb_true_iff in Hg as [Hc Hg].
  simpl. rewrite (IH Hg), andb_true_r.
  destruct (Ascii.eqb c "-" || Ascii.eqb c ":")%bool eqn:B; [reflexivity|].
  apply orb_false_iff in B as [B1 B2]. rewrite B1 in Hc. rewrite B2.
  now rewrite !orb_false_r in *.
Qed.

End ImageLookup.

(* ================================================================== *)
(** * Concrete runs of the properties above *)
(* ================================================================== *)

Lemma render_figma_png_forbidden_witness :
  exists msg,
    render_figma_png Sample.lib (Scenario.world (Scenario.refuse_all 403))
      (JStr Sample.hyphen_url) "build/x.png" "tok" []
    = (Raise (RuntimeError msg),
       [Http (figma_request (figma_api_url "abc" "1-2") "tok")]) /\
    occurs (figma_api_url "abc" "1-2") msg /\
    occurs "abc" msg /\ occurs "1-2" msg /\ occurs "refused" msg.
Proof.
  exact (render_figma_png_forbidden Sample.lib
           (Scenario.world (Scenario.refuse_all 403))
           Sample.hyphen_url "build/x.png" "tok" "abc" "1-2" []
           (Scenario.refusal 403) eq_refl eq_refl eq_refl eq_refl).
Defined.

Lemma render_figma_png_http_error_witness :
  render_figma_png Sample.lib (Scenario.world (Scenario.refuse_all 500))
    (JStr Sample.hyphen_url) "build/x.png" "tok" []
  = (Raise (HTTPError 500),
     [Http (figma_request (figma_api_url "abc" "1-2") "tok")]) /\
  render_figma_png Sample.lib (Scenario.world Scenario.image_gone)
    (JStr Sample.hyphen_url) "build/x.png" "tok" []
  = (Raise (HTTPError 404),
     [Http (figma_request (figma_api_url "abc" "1-2") "tok");
      Http {| meth := GET; url := "https://images.example/1.png";
              headers := []; auth := None; params := []; body := NoBody |}]).
Proof.
  split.
  - refine (proj1 (render_figma_png_http_error Sample.lib
                     (Scenario.world (Scenario.refuse_all 500))
                     Sample.hyphen_url "build/x.png" "tok" "abc" "1-2" []
                     (Scenario.refusal 500) eq_refl eq_refl eq_refl)
                  eq_refl _).
    discriminate.
  - exact (proj2 (render_figma_png_http_error Sample.lib
                    (Scenario.world Scenario.image_gone)
                    Sample.hyphen_url "build/x.png" "tok" "abc" "1-2" []
                    (Sample.ok_response Scenario.everything)
                    eq_refl eq_refl eq_refl)
                 Scenario.everything
                 (JDict [("1:2", JStr "https://images.example/1.png")])
                 (JStr "https://images.example/1.png")
                 (Scenario.refusal 404)
                 eq_refl eq_refl eq_refl eq_refl eq_refl eq_refl).
Defined.

Lemma render_figma_png_writes_image_witness :
  render_figma_png Sample.lib (Scenario.world Scenario.all_fine)
    (JStr Sample.hyphen_url) "build/x.png" "tok" []
  = (Ok tt,
     [Http (figma_request (figma_api_url "abc" "1-2") "tok");
      Http {| meth := GET; url := "https://images.example/1.png";
              headers := []; auth := None; params := []; body := NoBody |};
      WriteFile "build/x.png" "PNG"]).
Proof.
  exact (render_figma_png_writes_image Sample.lib
           (Scenario.world Scenario.all_fine)
           Sample.hyphen_url "build/x.png" "tok" "abc" "1-2" []
           (Sample.ok_response Scenario.everything)
           (Sample.ok_response Scenario.everything)
           Scenario.everything
           (JDict [("1:2", JStr "https://images.example/1.png")])
           (JStr "https://images.example/1.png")
           eq_refl eq_refl eq_refl eq_refl eq_refl eq_refl eq_refl eq_refl
           eq_refl eq_refl).
Defined.

Lemma render_figma_png_image_not_listed_witness :
  render_figma_png Sample.lib (Scenario.world Scenario.node_not_listed)
    (JStr Sample.hyphen_url) "build/x.png" "tok" []
  = (Raise (KeyError (JStr "1:2")),
     [Http (figma_request (figma_api_url "abc" "1-2") "tok")]).
Proof.
  exact (render_figma_png_image_not_listed Sample.lib
           (Scenario.world Scenario.node_not_listed)
           Sample.hyphen_url "build/x.png" "tok" "abc" "1-2" []
           (Sample.ok_response (JDict [("images", JDict [])]))
           (JDict [("images", JDict [])]) (KeyError (JStr "1:2"))
           eq_refl eq_refl eq_refl eq_refl eq_refl eq_refl).
Defined.

Lemma hyphen_url_lookup_key_witness :
  image_key "1-2" = colon_form "1-2" /\
  all_chars (fun c => (Re.is_digit c || Ascii.eqb c ":")%bool) (image_key "1-2")
  = true.
Proof.
  apply (hyphen_url_lookup_key Sample.hyphen_url "1-2" eq_refl eq_refl).
  apply PyStrFacts.find_split_None. reflexivity.
Defined.

Lemma get_frame_id_is_encoded_witness :
  "1%3A2" <> "" /\
  all_chars is_encoded_node_char "1%3A2" = true /\
  ~ occurs ":" "1%3A2".
Proof.
  exact (get_frame_id_is_encoded Sample.colon_url "1%3A2" eq_refl eq_refl).
Defined.


Lemma render_figma_images_resolves_all_witness :
  Forall (fun path =>
            exists leaf,
              descend (Sample.schema "Foo" (JStr Sample.hyphen_url))
                (PyStr.split "." path) = Some leaf /\
              link_or_null leaf) supported_schema_keys.
Proof.
  apply (render_figma_images_resolves_all Sample.lib
           (Scenario.world Scenario.all_fine) Sample.cfg
           (Sample.schema "Foo" (JStr Sample.hyphen_url)) []
           (snd (render_figma_images Sample.lib
                   (Scenario.world Scenario.all_fine) Sample.cfg
                   (Sample.schema "Foo" (JStr Sample.hyphen_url)) []))
           (map (rendered_filename "Foo") supported_schema_keys)).
  - vm_compute. reflexivity.
  - vm_compute. reflexivity.
Defined.

Lemma render_figma_images_needs_name_witness :
  exists e,
    render_figma_images Sample.lib (Scenario.world Scenario.all_fine)
      Sample.cfg (JDict [("name", JInt 7)]) []
    = (Raise e, [Makedirs "build"]).
Proof.
  apply (render_figma_images_needs_name Sample.lib
           (Scenario.world Scenario.all_fine) Sample.cfg
           (JDict [("name", JInt 7)]) []).
  intros N. discriminate.
Defined.

Lemma render_figma_images_odd_leaf_witness :
  render_figma_images Sample.lib (Scenario.world Scenario.all_fine)
    Sample.cfg (Sample.schema "Foo" (JStr "")) []
  = (Raise (ValueError "Could not extract Figma file key from URL"),
     [Makedirs "build"]) /\
  render_figma_images Sample.lib (Scenario.world Scenario.all_fine)
    Sample.cfg (Sample.schema "Foo" (JInt 5)) []
  = (Raise TypeError, [Makedirs "build"]).
Proof.
  split.
  - exact (proj1 (render_figma_images_odd_leaf Sample.lib
                    (Scenario.world Scenario.all_fine) Sample.cfg
                    (Sample.schema "Foo" (JStr "")) (JStr "") "Foo"
                    "desktop.grid-view.vendor" [] (tl supported_schema_keys)
                    [] [Makedirs "build"] []
                    eq_refl eq_refl eq_refl eq_refl eq_refl) eq_refl).
  - refine (proj2 (render_figma_images_odd_leaf Sample.lib
                     (Scenario.world Scenario.all_fine) Sample.cfg
                     (Sample.schema "Foo" (JInt 5)) (JInt 5) "Foo"
                     "desktop.grid-view.vendor" [] (tl supported_schema_keys)
                     [] [Makedirs "build"] []
                     eq_refl eq_refl eq_refl eq_refl eq_refl) _ _);
      [discriminate | intros u; discriminate].
Defined.

Lemma roles_table_names_rendered_files_witness :
  Forall (fun column =>
            let path := role_path "mobile" "list-view" (snd column) in
            In path supported_schema_keys /\
            Py.lookup ("{{filename-column-" ++ fst column ++ "}}")
              [("{{highlight-colour-column-1}}", JStr LIGHT_BLUE);
               ("{{highlight-colour-column-2}}", JStr LIGHT_RED);
               ("{{highlight-colour-column-3}}", JStr LIGHT_GREEN);
               ("{{filename-column-1}}", JStr "Foo-mobile-list-view-vendor.png");
               ("{{filename-column-2}}",
                JStr "Foo-mobile-list-view-operations.png");
               ("{{filename-column-3}}", JStr "Foo-mobile-list-view-client.png");
               ("{{figma-link-column-1}}", JNull);
               ("{{figma-link-column-2}}", JNull);
               ("{{figma-link-column-3}}", JNull)]
            = Some (JStr (rendered_filename "Foo" path)) /\
            Py.lookup ("{{figma-link-column-" ++ fst column ++ "}}")
              [("{{highlight-colour-column-1}}", JStr LIGHT_BLUE);
               ("{{highlight-colour-column-2}}", JStr LIGHT_RED);
               ("{{highlight-colour-column-3}}", JStr LIGHT_GREEN);
               ("{{filename-column-1}}", JStr "Foo-mobile-list-view-vendor.png");
               ("{{filename-column-2}}",
                JStr "Foo-mobile-list-view-operations.png");
               ("{{filename-column-3}}", JStr "Foo-mobile-list-view-client.png");
               ("{{figma-link-column-1}}", JNull);
               ("{{figma-link-column-2}}", JNull);
               ("{{figma-link-column-3}}", JNull)]
            = descend (Sample.schema "Foo" JNull) (PyStr.split "." path))
         [("1", "vendor"); ("2", "operations"); ("3", "client")].
Proof.
  apply (roles_table_names_rendered_files "Foo" (Sample.schema "Foo" JNull)
           "mobile" "list-view").
  - simpl. tauto.
  - reflexivity.
Defined.

Lemma composer_finds_links_after_render_witness :
  (exists link,
     Py.getitem (Sample.schema "Foo" (JStr Sample.hyphen_url)) "state-diagram"
     = Ok link /\ substituted_value link <> None) /\
  (forall device view,
     In (device, view) role_views ->
     exists data,
       roles_data "Foo" (Sample.schema "Foo" (JStr Sample.hyphen_url))
         device view = Ok data /\
       Forall (fun item => substituted_value (snd item) <> None) data).
Proof.
  apply (composer_finds_links_after_render Sample.lib
           (Scenario.world Scenario.all_fine) Sample.cfg
           (Sample.schema "Foo" (JStr Sample.hyphen_url)) []
           (snd (render_figma_images Sample.lib
                   (Scenario.world Scenario.all_fine) Sample.cfg
                   (Sample.schema "Foo" (JStr Sample.hyphen_url)) []))
           (map (rendered_filename "Foo") supported_schema_keys) "Foo").
  vm_compute. reflexivity.
Defined.

Lemma upload_aborts_before_post_witness :
  upload_image_version_to_confluence Sample.lib
    (Scenario.world Scenario.attachment_without_id) Sample.cfg "12345"
    "build/a.png" []
  = (Raise (KeyError (JStr "id")),
     [OpenRead "build/a.png";
      Http (check_request Sample.cfg "12345" "a.png")]) /\
  upload_image_version_to_confluence Sample.lib
    (Scenario.world Scenario.delete_refused) Sample.cfg "12345"
    "build/a.png" []
  = (Raise (HTTPError 403),
     [OpenRead "build/a.png";
      Http (check_request Sample.cfg "12345" "a.png");
      Http (delete_request Sample.lib Sample.cfg (JStr "att7") "current")]).
Proof.
  split.
  - exact (proj1 (upload_aborts_before_post Sample.lib
                    (Scenario.world Scenario.attachment_without_id) Sample.cfg
                    "12345" "build/a.png" [] "build/a.png"
                    (Sample.ok_response (JDict [("results", JList [JDict []])]))
                    (JDict [("results", JList [JDict []])]) (JDict []) []
                    eq_refl eq_refl eq_refl eq_refl eq_refl)
                 (KeyError (JStr "id")) eq_refl).
  - exact (proj2 (upload_aborts_before_post Sample.lib
                    (Scenario.world Scenario.delete_refused) Sample.cfg
                    "12345" "build/a.png" [] "build/a.png"
                    (Sample.ok_response
                       (JDict [("results", JList [JDict [("id", JStr "att7")]])]))
                    (JDict [("results", JList [JDict [("id", JStr "att7")]])])
                    (JDict [("id", JStr "att7")]) []
                    eq_refl eq_refl eq_refl eq_refl eq_refl)
                 (JStr "att7") (Scenario.refusal 403) eq_refl eq_refl eq_refl).
Defined.

Lemma upload_all_posts_in_order_witness :
  exists more,
    snd (upload_all Sample.lib (Scenario.world Scenario.all_fine) Sample.cfg
           "12345" ["a.png"; "b.png"] [])
    = ([] ++ more)%list /\
    opened_paths more = map (fun f => "build/" ++ f) ["a.png"; "b.png"] /\
    posted_names more = ["a.png"; "b.png"].
Proof.
  apply (upload_all_posts_in_order Sample.lib
           (Scenario.world Scenario.all_fine) Sample.cfg "12345"
           ["a.png"; "b.png"] []).
  - repeat constructor; apply PyStrFacts.find_split_None; reflexivity.
  - vm_compute. reflexivity.
Defined.

Lemma upload_all_stops_at_first_error_witness :
  upload_all Sample.lib (Scenario.world Scenario.second_post_refused)
    Sample.cfg "12345" ["a.png"; "b.png"; "c.png"] []
  = (Raise (HTTPError 500),
     [OpenRead "build/a.png";
      Http (check_request Sample.cfg "12345" "a.png");
      Http (upload_request Sample.cfg "12345" "a.png" "build/a.png");
      OpenRead "build/b.png";
      Http (check_request Sample.cfg "12345" "b.png");
      Http (upload_request Sample.cfg "12345" "b.png" "build/b.png")]).
Proof.
  apply (upload_all_stops_at_first_error Sample.lib
           (Scenario.world Scenario.second_post_refused) Sample.cfg "12345"
           ["a.png"] ["c.png"] "b.png" []
           [OpenRead "build/a.png";
            Http (check_request Sample.cfg "12345" "a.png");
            Http (upload_request Sample.cfg "12345" "a.png" "build/a.png")]);
    vm_compute; reflexivity.
Defined.

Lemma download_page_saves_body_witness :
  download_page Sample.lib (Scenario.world Scenario.all_fine) Sample.cfg
    "12345" []
  = (Ok tt,
     [Http (page_request Sample.cfg "12345");
      WriteFile "build/current-confluence-page-12345.html" "<p>old</p>"]).
Proof.
  exact (download_page_saves_body Sample.lib
           (Scenario.world Scenario.all_fine) Sample.cfg "12345" []
           (Sample.ok_response Scenario.everything) Scenario.everything
           (JDict [("storage", JDict [("value", JStr "<p>old</p>")])])
           (JDict [("value", JStr "<p>old</p>")]) (JStr "<p>old</p>")
           "<p>old</p>"
           eq_refl eq_refl eq_refl eq_refl eq_refl eq_refl eq_refl eq_refl).
Defined.

Lemma page_id_of_Ok_witness :
  exists url,
    JStr "https://softwareone.atlassian.net/wiki/spaces/X/pages/12345/Subscription"
    = JStr url /\
    occurs ("/pages/" ++ "12345") url /\ ~ occurs "/" "12345".
Proof.
  exact (page_id_of_Ok
           (JStr "https://softwareone.atlassian.net/wiki/spaces/X/pages/12345/Subscription")
           "12345" eq_refl).
Defined.

Lemma populate_template_rejects_other_values_witness :
  populate_template "{{highlight-colour}}{{filename}}{{figma-link}}"
    [("{{highlight-colour}}", JStr "#ffffff"); ("{{figma-link}}", JInt 5);
     ("{{filename}}", JStr "Foo.png")]
  = Raise TypeError.
Proof.
  exact (populate_template_rejects_other_values
           "{{highlight-colour}}{{filename}}{{figma-link}}"
           [("{{highlight-colour}}", JStr "#ffffff")]
           [("{{filename}}", JStr "Foo.png")] "{{figma-link}}" (JInt 5)
           "#ffffff{{filename}}{{figma-link}}" eq_refl eq_refl eq_refl).
Defined.

Lemma update_confluence_page_publishes_saved_copy_witness :
  exists url page_id page title next earlier,
    Py.getitem (Sample.schema "Foo" (JStr Sample.hyphen_url)) "confluence-page"
    = Ok url /\
    page_id_of url = Ok page_id /\
    ~ has_token page /\
    snd (update_confluence_page Sample.lib (Scenario.world Scenario.all_fine)
           Sample.cfg ["Foo-state-diagram.png"]
           (Sample.schema "Foo" (JStr Sample.hyphen_url)) [])
    = (earlier ++
       [WriteFile ("build/confluence-page-updated-" ++ page_id ++ ".html") page;
        Http {| meth := GET; url := content_url Sample.cfg page_id;
                headers := json_headers; auth := CONFLUENCE_AUTH Sample.cfg;
                params := []; body := NoBody |};
        Http {| meth := PUT; url := content_url Sample.cfg page_id;
                headers := json_headers; auth := CONFLUENCE_AUTH Sample.cfg;
                params := [];
                body := JsonBody (page_payload page_id title page next) |}
       ])%list.
Proof.
  apply (update_confluence_page_publishes_saved_copy Sample.lib
           (Scenario.world Scenario.all_fine) Sample.cfg
           ["Foo-state-diagram.png"]
           (Sample.schema "Foo" (JStr Sample.hyphen_url)) []).
  vm_compute. reflexivity.
Defined.
